(** * create-llama question flow and the Pinecone vector store

    A shallow embedding of
    - [packages/create-llama/questions.ts] ([askQuestions] and its helpers), and
    - [packages/core/src/storage/vectorStore/PineconeVectorStore.ts] ([add],
      [toPineconeFilter], [metaWithoutText]), and
    - [packages/create-llama/create-app.ts] ([createApp]),
    together with the properties the specification states of them, and
    further properties that the code shows.

    The question flow is a straight-line sequence of guarded steps that
    mutate two objects ([program] and [preferences]), talk to an operator
    through [prompts] and may terminate the process.  It is embedded as a
    state monad whose outcome is either a normal return or a process exit;
    everything the flow reads from its surroundings (CI detection, host
    platform, process environment, file system, the operator, the native
    file dialog, the URL parser) is gathered in a record [Env]. *)

From Stdlib Require Import String Ascii List Bool ZArith Lia PeanoNat Sorted
  DecimalString.
Import ListNotations.
Open Scope string_scope.

Module CreateLlama.

(** ** JavaScript values *)

(** An optional property: [None] is [undefined]. *)

Definition isUndefined {A : Type} (o : option A) : bool :=
  match o with Some _ => false | None => true end.

(** Truthiness of an optional string: [undefined] and [""] are falsy. *)
Definition truthyS (o : option string) : bool :=
  match o with
  | Some s => negb (s =? "")
  | None => false
  end.

(** Truthiness of an optional boolean. *)
Definition truthyB (o : option bool) : bool :=
  match o with Some b => b | None => false end.

(** [a ?? b] *)
Definition nullish {A : Type} (a b : option A) : option A :=
  match a with Some _ => a | None => b end.

(** [a || b] on optional strings (the value, not its truthiness). *)
Definition orS (a b : option string) : option string :=
  if truthyS a then a else b.

(** [x === "lit"] for an optional string. *)
Definition isS (o : option string) (lit : string) : bool :=
  match o with Some s => s =? lit | None => false end.

(** [Boolean(x)] *)
Definition Boolean (o : option bool) : bool := truthyB o.

(** [s.includes(sub)] *)
Definition includes (s sub : string) : bool :=
  match String.index 0 sub s with Some _ => true | None => false end.

(** [arr.includes(x)] on an array of strings *)
Definition arrIncludes (l : list string) (x : string) : bool :=
  existsb (String.eqb x) l.

(** ** Data model *)

(** The [config] object of a data source; [{}] has every property
    undefined.  [FileSourceConfig] uses [path] and [useLlamaParse], the web
    source [baseUrl] and [depth]. *)
Record Config : Type := mkConfig {
  path : option string;
  useLlamaParse : option bool;
  baseUrl : option string;
  depth : option Z
}.

Definition emptyConfig : Config := mkConfig None None None None.

Record DataSource : Type := mkDataSource {
  type : string;
  config : Config
}.

(** A tool descriptor.  [helpers/tools] is not part of the sources at hand;
    only the two properties the flow reads are kept. *)
Record Tool : Type := mkTool {
  name : string;
  display : string
}.

(** [QuestionArgs]; every property is optional at run time. *)
Record QuestionArgs : Type := mkArgs {
  template : option string;
  framework : option string;
  engine : option string;
  ui : option string;
  eslint : option bool;
  frontend : option bool;
  openAiKey : option string;
  llamaCloudKey : option string;
  model : option string;
  embeddingModel : option string;
  communityProjectPath : option string;
  llamapack : option string;
  vectorDb : option string;
  externalPort : option Z;
  postInstallAction : option string;
  dataSource : option DataSource;
  tools : option (list (option Tool));
  files : option string;
  llamaParse : option bool
}.

Definition noArgs : QuestionArgs :=
  mkArgs None None None None None None None None None None
         None None None None None None None None None.

Definition defaults : QuestionArgs :=
  {| template := Some "streaming";
     framework := Some "nextjs";
     engine := Some "simple";
     ui := Some "html";
     eslint := Some true;
     frontend := Some false;
     openAiKey := Some "";
     llamaCloudKey := Some "";
     model := Some "gpt-3.5-turbo";
     embeddingModel := Some "text-embedding-ada-002";
     communityProjectPath := Some "";
     llamapack := Some "";
     vectorDb := None;
     externalPort := None;
     postInstallAction := Some "dependencies";
     dataSource := Some (mkDataSource "none" emptyConfig);
     tools := Some [];
     files := None;
     llamaParse := None |}.

(** Property assignment, one function per property that the flow writes. *)

Definition set_template v (p : QuestionArgs) : QuestionArgs :=
  mkArgs v (framework p) (engine p) (ui p) (eslint p) (frontend p)
    (openAiKey p) (llamaCloudKey p) (model p) (embeddingModel p)
    (communityProjectPath p) (llamapack p) (vectorDb p) (externalPort p)
    (postInstallAction p) (dataSource p) (tools p) (files p) (llamaParse p).

Definition set_framework v (p : QuestionArgs) : QuestionArgs :=
  mkArgs (template p) v (engine p) (ui p) (eslint p) (frontend p)
    (openAiKey p) (llamaCloudKey p) (model p) (embeddingModel p)
    (communityProjectPath p) (llamapack p) (vectorDb p) (externalPort p)
    (postInstallAction p) (dataSource p) (tools p) (files p) (llamaParse p).

Definition set_engine v (p : QuestionArgs) : QuestionArgs :=
  mkArgs (template p) (framework p) v (ui p) (eslint p) (frontend p)
    (openAiKey p) (llamaCloudKey p) (model p) (embeddingModel p)
    (communityProjectPath p) (llamapack p) (vectorDb p) (externalPort p)
    (postInstallAction p) (dataSource p) (tools p) (files p) (llamaParse p).

Definition set_ui v (p : QuestionArgs) : QuestionArgs :=
  mkArgs (template p) (framework p) (engine p) v (eslint p) (frontend p)
    (openAiKey p) (llamaCloudKey p) (model p) (embeddingModel p)
    (communityProjectPath p) (llamapack p) (vectorDb p) (externalPort p)
    (postInstallAction p) (dataSource p) (tools p) (files p) (llamaParse p).

Definition set_eslint v (p : QuestionArgs) : QuestionArgs :=
  mkArgs (template p) (framework p) (engine p) (ui p) v (frontend p)
    (openAiKey p) (llamaCloudKey p) (model p) (embeddingModel p)
    (communityProjectPath p) (llamapack p) (vectorDb p) (externalPort p)
    (postInstallAction p) (dataSource p) (tools p) (files p) (llamaParse p).

Definition set_frontend v (p : QuestionArgs) : QuestionArgs :=
  mkArgs (template p) (framework p) (engine p) (ui p) (eslint p) v
    (openAiKey p) (llamaCloudKey p) (model p) (embeddingModel p)
    (communityProjectPath p) (llamapack p) (vectorDb p) (externalPort p)
    (postInstallAction p) (dataSource p) (tools p) (files p) (llamaParse p).

Definition set_openAiKey v (p : QuestionArgs) : QuestionArgs :=
  mkArgs (template p) (framework p) (engine p) (ui p) (eslint p) (frontend p)
    v (llamaCloudKey p) (model p) (embeddingModel p)
    (communityProjectPath p) (llamapack p) (vectorDb p) (externalPort p)
    (postInstallAction p) (dataSource p) (tools p) (files p) (llamaParse p).

Definition set_llamaCloudKey v (p : QuestionArgs) : QuestionArgs :=
  mkArgs (template p) (framework p) (engine p) (ui p) (eslint p) (frontend p)
    (openAiKey p) v (model p) (embeddingModel p)
    (communityProjectPath p) (llamapack p) (vectorDb p) (externalPort p)
    (postInstallAction p) (dataSource p) (tools p) (files p) (llamaParse p).

Definition set_model v (p : QuestionArgs) : QuestionArgs :=
  mkArgs (template p) (framework p) (engine p) (ui p) (eslint p) (frontend p)
    (openAiKey p) (llamaCloudKey p) v (embeddingModel p)
    (communityProjectPath p) (llamapack p) (vectorDb p) (externalPort p)
    (postInstallAction p) (dataSource p) (tools p) (files p) (llamaParse p).

Definition set_embeddingModel v (p : QuestionArgs) : QuestionArgs :=
  mkArgs (template p) (framework p) (engine p) (ui p) (eslint p) (frontend p)
    (openAiKey p) (llamaCloudKey p) (model p) v
    (communityProjectPath p) (llamapack p) (vectorDb p) (externalPort p)
    (postInstallAction p) (dataSource p) (tools p) (files p) (llamaParse p).

Definition set_communityProjectPath v (p : QuestionArgs) : QuestionArgs :=
  mkArgs (template p) (framework p) (engine p) (ui p) (eslint p) (frontend p)
    (openAiKey p) (llamaCloudKey p) (model p) (embeddingModel p)
    v (llamapack p) (vectorDb p) (externalPort p)
    (postInstallAction p) (dataSource p) (tools p) (files p) (llamaParse p).

Definition set_llamapack v (p : QuestionArgs) : QuestionArgs :=
  mkArgs (template p) (framework p) (engine p) (ui p) (eslint p) (frontend p)
    (openAiKey p) (llamaCloudKey p) (model p) (embeddingModel p)
    (communityProjectPath p) v (vectorDb p) (externalPort p)
    (postInstallAction p) (dataSource p) (tools p) (files p) (llamaParse p).

Definition set_vectorDb v (p : QuestionArgs) : QuestionArgs :=
  mkArgs (template p) (framework p) (engine p) (ui p) (eslint p) (frontend p)
    (openAiKey p) (llamaCloudKey p) (model p) (embeddingModel p)
    (communityProjectPath p) (llamapack p) v (externalPort p)
    (postInstallAction p) (dataSource p) (tools p) (files p) (llamaParse p).

Definition set_postInstallAction v (p : QuestionArgs) : QuestionArgs :=
  mkArgs (template p) (framework p) (engine p) (ui p) (eslint p) (frontend p)
    (openAiKey p) (llamaCloudKey p) (model p) (embeddingModel p)
    (communityProjectPath p) (llamapack p) (vectorDb p) (externalPort p)
    v (dataSource p) (tools p) (files p) (llamaParse p).

Definition set_dataSource v (p : QuestionArgs) : QuestionArgs :=
  mkArgs (template p) (framework p) (engine p) (ui p) (eslint p) (frontend p)
    (openAiKey p) (llamaCloudKey p) (model p) (embeddingModel p)
    (communityProjectPath p) (llamapack p) (vectorDb p) (externalPort p)
    (postInstallAction p) v (tools p) (files p) (llamaParse p).

Definition set_tools v (p : QuestionArgs) : QuestionArgs :=
  mkArgs (template p) (framework p) (engine p) (ui p) (eslint p) (frontend p)
    (openAiKey p) (llamaCloudKey p) (model p) (embeddingModel p)
    (communityProjectPath p) (llamapack p) (vectorDb p) (externalPort p)
    (postInstallAction p) (dataSource p) v (files p) (llamaParse p).

Definition set_type (t : string) (d : DataSource) : DataSource :=
  mkDataSource t (config d).

Definition set_config (c : Config) (d : DataSource) : DataSource :=
  mkDataSource (type d) c.

Definition set_useLlamaParse (v : option bool) (c : Config) : Config :=
  mkConfig (path c) v (baseUrl c) (depth c).

(** ** Surroundings *)

(** The prompts of the flow, by the [name] each one passes to [prompts]. *)
Inductive PromptName : Type :=
| Q_template | Q_communityProjectPath | Q_llamapack | Q_framework
| Q_frontend | Q_ui | Q_model | Q_embeddingModel | Q_dataSource
| Q_useLlamaParse | Q_llamaCloudKey | Q_baseUrl | Q_vectorDb
| Q_toolsName | Q_key | Q_eslint | Q_action.

Definition PromptName_eq_dec (a b : PromptName) : {a = b} + {a <> b}.
Proof. decide equality. Defined.

(** What the operator does with a prompt: answer it or abort it. *)
Inductive Response (A : Type) : Type :=
| Answer (a : A)
| Abort.
Arguments Answer {A} a.
Arguments Abort {A}.

(** The four native file-dialog scripts. *)
Inductive Script : Type :=
| MACOS_FILE_SELECTION_SCRIPT
| MACOS_FOLDER_SELECTION_SCRIPT
| WINDOWS_FILE_SELECTION_SCRIPT
| WINDOWS_FOLDER_SELECTION_SCRIPT.

(** Everything [askQuestions] reads from outside its two arguments.  The
    helpers imported from [./helpers/...] and the Node built-ins are not
    part of the sources at hand and are taken as given. *)
Record Env : Type := mkEnv {
  (** [ciInfo.isCI] *)
  isCI : bool;
  (** [process.platform] *)
  platform : string;
  (** [process.env["OPENAI_API_KEY"]], [process.env["LLAMA_CLOUD_API_KEY"]] *)
  OPENAI_API_KEY : option string;
  LLAMA_CLOUD_API_KEY : option string;
  (** [fs.existsSync], [fs.lstatSync(p).isDirectory()] *)
  existsSync : string -> bool;
  isDirectory : string -> bool;
  (** [path.extname] *)
  extname : string -> string;
  (** [execSync(script, opts).toString().trim()]; [None] when it throws *)
  execSync : Script -> option string;
  (** [new URL(s).protocol]; [None] when the constructor throws *)
  urlProtocol : string -> option string;
  (** the operator, per kind of prompt *)
  onSelect : PromptName -> Response string;
  onText : PromptName -> Response string;
  onToggle : PromptName -> Response bool;
  onMultiselect : PromptName -> Response (list string);
  (** [getRepoRootFolders(COMMUNITY_OWNER, COMMUNITY_REPO)] *)
  getRepoRootFolders : list string;
  (** [getAvailableLlamapackOptions()], as (name, folderPath) pairs *)
  getAvailableLlamapackOptions : list (string * string);
  (** the directories under [templates/components/vectordbs/<lang>] *)
  vectordbDirs : string -> list string;
  (** [supportedTools], [toolsRequireConfig] of [helpers/tools] *)
  supportedTools : list Tool;
  toolsRequireConfig : option (list (option Tool)) -> bool
}.

(** ** State, outcome and the monad *)

(** Which other object [program.dataSource] is (the same JavaScript object
    as): [getPrefOrDefault("dataSource")] hands out the object stored in
    [preferences] or in [defaults], and later writes through
    [program.dataSource] reach that object too.  On entry the arguments are
    taken to be separate objects. *)
Inductive Sharing : Type := Own | WithPreferences | WithDefaults.

(** What the run does that can be seen from outside. *)
Inductive Event : Type :=
| Prompted (q : PromptName) (choices : list string)
| ConsoleLog (msg : string)
| ConsoleError (msg : string)
| StdoutWrite (s : string)
| Executed (script : Script).

Record State : Type := mkState {
  program : QuestionArgs;
  preferences : QuestionArgs;
  defaultsObj : QuestionArgs;
  sharing : Sharing;
  trace : list Event
}.

Inductive Outcome (A : Type) : Type :=
| Returned (a : A) (s : State)
| Exited (code : Z) (s : State).
Arguments Returned {A} a s.
Arguments Exited {A} code s.

Definition M (A : Type) : Type := State -> Outcome A.

Definition ret {A : Type} (a : A) : M A := fun s => Returned a s.

Definition bind {A B : Type} (m : M A) (k : A -> M B) : M B :=
  fun s => match m s with
           | Returned a s' => k a s'
           | Exited c s' => Exited c s'
           end.

Declare Scope flow_scope.
Delimit Scope flow_scope with flow.
Notation "x <- m ;; k" := (bind m (fun x => k))
  (at level 61, m at next level, right associativity) : flow_scope.
Notation "m ;; k" := (bind m (fun _ => k))
  (at level 61, right associativity) : flow_scope.
Open Scope flow_scope.

Definition final {A : Type} (o : Outcome A) : State :=
  match o with Returned _ s => s | Exited _ s => s end.

Definition getProgram : M QuestionArgs := fun s => Returned (program s) s.

Definition emit (e : Event) : M unit :=
  fun s => Returned tt (mkState (program s) (preferences s) (defaultsObj s)
                                (sharing s) (trace s ++ [e])).

(** [program.x = v] for a property other than [dataSource] *)
Definition setProgram (f : QuestionArgs -> QuestionArgs) : M unit :=
  fun s => Returned tt (mkState (f (program s)) (preferences s)
                                (defaultsObj s) (sharing s) (trace s)).

(** [preferences.x = v] *)
Definition setPreferences (f : QuestionArgs -> QuestionArgs) : M unit :=
  fun s => Returned tt (mkState (program s) (f (preferences s))
                                (defaultsObj s) (sharing s) (trace s)).

(** [program.dataSource = {...}] with a fresh object *)
Definition assignDataSource (d : DataSource) : M unit :=
  fun s => Returned tt (mkState (set_dataSource (Some d) (program s))
                                (preferences s) (defaultsObj s) Own (trace s)).

(** A write into the object [program.dataSource]; it is seen through every
    reference to that object. *)
Definition writeDataSource (f : DataSource -> DataSource) : M unit :=
  fun s =>
    let upd q := set_dataSource (option_map f (dataSource q)) q in
    Returned tt
      (mkState (upd (program s))
               (match sharing s with
                | WithPreferences => upd (preferences s)
                | _ => preferences s
                end)
               (match sharing s with
                | WithDefaults => upd (defaultsObj s)
                | _ => defaultsObj s
                end)
               (sharing s) (trace s)).

(** [process.exit(code)] *)
Definition process_exit {A : Type} (code : Z) : M A := fun s => Exited code s.

Definition console_log (msg : string) : M unit := emit (ConsoleLog msg).
Definition console_error (msg : string) : M unit := emit (ConsoleError msg).
Definition stdout_write (msg : string) : M unit := emit (StdoutWrite msg).

(** [preferences[field] ?? defaults[field]] *)
Definition getPrefOrDefault {A : Type} (field : QuestionArgs -> option A)
  : M (option A) :=
  fun s => Returned (nullish (field (preferences s)) (field (defaultsObj s))) s.

(** [program.dataSource = getPrefOrDefault("dataSource")]: the object itself
    is handed over, not a copy. *)
Definition shareDataSource : M unit :=
  fun s =>
    Returned tt
      (mkState (set_dataSource
                  (nullish (dataSource (preferences s))
                           (dataSource (defaultsObj s))) (program s))
               (preferences s) (defaultsObj s)
               (match dataSource (preferences s) with
                | Some _ => WithPreferences
                | None => WithDefaults
                end)
               (trace s)).

(** How a prompt reacts to an abort: the [handlers] object (its [onCancel],
    lines 83-88), the [onState: onPromptState] option (lines 189-197, which
    acts when [state.aborted]), or nothing at all. *)
Inductive OnAbort : Type := handlers | onPromptState | unhandled.

Definition ESC : string := String (ascii_of_nat 27) EmptyString.
Definition NL : string := String (ascii_of_nat 10) EmptyString.

Definition aborted {A : Type} (h : OnAbort) : M (option A) :=
  match h with
  | handlers => console_error "Exiting." ;; process_exit 1
  | onPromptState =>
      stdout_write (ESC ++ "[?25h")%string ;;
      stdout_write NL ;;
      process_exit 1
  | unhandled => ret None
  end.

(** [const { name } = await prompts({ name, choices, ... }, h)]: the prompt
    is shown, and the destructured property is the answer; without a cancel
    handler an aborted prompt resolves to an object without the property. *)
Definition prompts {A : Type} (h : OnAbort) (q : PromptName)
  (choices : list string) (r : Response A) : M (option A) :=
  emit (Prompted q choices) ;;
  match r with
  | Answer a => ret (Some a)
  | Abort => aborted h
  end.

(** ** The flow *)

Definition supportedContextFileTypes : list string :=
  [".pdf"; ".doc"; ".docx"; ".xls"; ".xlsx"; ".csv"].

Definition init (program0 preferences0 : QuestionArgs) : State :=
  mkState program0 preferences0 defaults Own [].

(** [program.dataSource?.type === lit] *)
Definition dataSourceTypeIs (p : QuestionArgs) (lit : string) : bool :=
  match dataSource p with Some d => type d =? lit | None => false end.

(** [(program.dataSource?.config as FileSourceConfig)?.useLlamaParse] *)
Definition dataSourceUseLlamaParse (p : QuestionArgs) : option bool :=
  match dataSource p with Some d => useLlamaParse (config d) | None => None end.

Section Flow.

Variable env : Env.

(** [getVectorDbChoices], lines 90-114 (choice values only). *)
Definition getVectorDbChoices (fw : option string) : list string :=
  let choices := ["none"; "mongo"; "pg"; "pinecone"] in
  let vectordbLang := if isS fw "fastapi" then "python" else "typescript" in
  let availableChoices := vectordbDirs env vectordbLang in
  filter (fun choice => arrIncludes availableChoices choice) choices.

(** [getDataSourceChoices], lines 116-141 (choice values only). *)
Definition getDataSourceChoices (fw : option string) : list string :=
  let choices := ["simple"; "exampleFile"] in
  let choices :=
    if (platform env =? "win32") || (platform env =? "darwin")
    then (choices ++ ["localFile"; "localFolder"])%list else choices in
  if isS fw "fastapi" then (choices ++ ["web"])%list else choices.

(** [selectLocalContextData], lines 143-187. *)
Definition selectLocalContextData (ty : string) : M string :=
  let failed : M string :=
    console_log "Got an error when trying to select local context data! Please try again or select another data source option." ;;
    process_exit 1 in
  let run (execScript : Script) : M string :=
    emit (Executed execScript) ;;
    match execSync env execScript with
    | None => failed
    | Some selectedPath =>
        if (ty =? "file")
           && negb (arrIncludes supportedContextFileTypes
                                (extname env selectedPath))
        then
          console_log ("Please select a supported file type: "
                       ++ String.concat "," supportedContextFileTypes)%string ;;
          process_exit 1
        else ret selectedPath
    end in
  if platform env =? "win32" then
    run (if ty =? "file" then WINDOWS_FILE_SELECTION_SCRIPT
         else WINDOWS_FOLDER_SELECTION_SCRIPT)
  else if platform env =? "darwin" then
    run (if ty =? "file" then MACOS_FILE_SELECTION_SCRIPT
         else MACOS_FOLDER_SELECTION_SCRIPT)
  else
    console_log "Unsupported OS error!" ;;
    process_exit 1.

(** The choices of the post-install prompt, lines 213-250. *)
Definition actionChoices (p : QuestionArgs) : list string :=
  let choices := ["none"; "VSCode"; "dependencies"] in
  let openAiKeyConfigured := orS (openAiKey p) (OPENAI_API_KEY env) in
  let llamaCloudKeyConfigured :=
    if truthyB (dataSourceUseLlamaParse p)
    then truthyS (orS (llamaCloudKey p) (LLAMA_CLOUD_API_KEY env))
    else true in
  let hasVectorDb := truthyS (vectorDb p) && negb (isS (vectorDb p) "none") in
  if negb hasVectorDb
     && truthyS openAiKeyConfigured
     && llamaCloudKeyConfigured
     && negb (toolsRequireConfig env (tools p))
     && negb (truthyS (llamapack p))
  then (choices ++ ["runApp"])%list
  else choices.

(** [askPostInstallAction], lines 208-266. *)
Definition askPostInstallAction : M unit :=
  p <- getProgram ;;
  if isUndefined (postInstallAction p) then
    if isCI env then
      v <- getPrefOrDefault postInstallAction ;;
      setProgram (set_postInstallAction v)
    else
      action <- prompts handlers Q_action (actionChoices p)
                        (onSelect env Q_action) ;;
      setProgram (set_postInstallAction action)
  else ret tt.

(** Lines 268-299. *)
Definition resolveTemplate : M unit :=
  p <- getProgram ;;
  if negb (truthyS (template p)) then
    if isCI env then
      v <- getPrefOrDefault template ;;
      setProgram (set_template v)
    else
      a <- prompts handlers Q_template
                   ["simple"; "streaming"; "community"; "llamapack"]
                   (onSelect env Q_template) ;;
      setProgram (set_template a) ;;
      setPreferences (set_template a)
  else ret tt.

(** Lines 301-322, the body of [if (program.template === "community")]. *)
Definition communityFlow : M unit :=
  let rootFolderNames := getRepoRootFolders env in
  a <- prompts handlers Q_communityProjectPath rootFolderNames
               (onSelect env Q_communityProjectPath) ;;
  setProgram (set_communityProjectPath a) ;;
  setPreferences (set_communityProjectPath a).

(** Lines 324-343, the body of [if (program.template === "llamapack")]. *)
Definition llamapackFlow : M unit :=
  let availableLlamaPacks := getAvailableLlamapackOptions env in
  a <- prompts handlers Q_llamapack (map snd availableLlamaPacks)
               (onSelect env Q_llamapack) ;;
  setProgram (set_llamapack a) ;;
  setPreferences (set_llamapack a) ;;
  askPostInstallAction.

(** Lines 345-371. *)
Definition resolveFramework : M unit :=
  p <- getProgram ;;
  if negb (truthyS (framework p)) then
    if isCI env then
      v <- getPrefOrDefault framework ;;
      setProgram (set_framework v)
    else
      let choices := ["express"; "fastapi"] in
      let choices :=
        if isS (template p) "streaming" then "nextjs" :: choices
        else choices in
      a <- prompts handlers Q_framework choices (onSelect env Q_framework) ;;
      setProgram (set_framework a) ;;
      setPreferences (set_framework a)
  else ret tt.

(** Lines 373-406. *)
Definition resolveFrontend : M unit :=
  p <- getProgram ;;
  if isS (template p) "streaming"
     && (isS (framework p) "express" || isS (framework p) "fastapi")
  then
    if isUndefined (frontend p) then
      if isCI env then
        v <- getPrefOrDefault frontend ;;
        setProgram (set_frontend v)
      else
        a <- prompts onPromptState Q_frontend [] (onToggle env Q_frontend) ;;
        setProgram (set_frontend (Some (Boolean a))) ;;
        setPreferences (set_frontend (Some (Boolean a)))
    else ret tt
  else setProgram (set_frontend (Some false)).

(** Lines 408-430. *)
Definition resolveUi : M unit :=
  p <- getProgram ;;
  if isS (framework p) "nextjs" || truthyB (frontend p) then
    if negb (truthyS (ui p)) then
      if isCI env then
        v <- getPrefOrDefault ui ;;
        setProgram (set_ui v)
      else
        a <- prompts handlers Q_ui ["html"; "shadcn"] (onSelect env Q_ui) ;;
        setProgram (set_ui a) ;;
        setPreferences (set_ui a)
    else ret tt
  else ret tt.

(** Lines 432-457. *)
Definition resolveModel : M unit :=
  p <- getProgram ;;
  if negb (truthyS (model p)) then
    if isCI env then
      v <- getPrefOrDefault model ;;
      setProgram (set_model v)
    else
      a <- prompts handlers Q_model
                   ["gpt-3.5-turbo-0125"; "gpt-4-turbo-preview"; "gpt-4";
                    "gpt-4-vision-preview"]
                   (onSelect env Q_model) ;;
      setProgram (set_model a) ;;
      setPreferences (set_model a)
  else ret tt.

(** Lines 459-489. *)
Definition resolveEmbeddingModel : M unit :=
  p <- getProgram ;;
  if negb (truthyS (embeddingModel p)) && isS (framework p) "fastapi" then
    if isCI env then
      v <- getPrefOrDefault embeddingModel ;;
      setProgram (set_embeddingModel v)
    else
      a <- prompts handlers Q_embeddingModel
                   ["text-embedding-ada-002"; "text-embedding-3-small";
                    "text-embedding-3-large"]
                   (onSelect env Q_embeddingModel) ;;
      setProgram (set_embeddingModel a) ;;
      setPreferences (set_embeddingModel a)
  else ret tt.

(** Lines 491-505.  Line 493, [program.engine == "context";], is an
    expression statement: a comparison whose value is dropped, so nothing
    is written. *)
Definition resolveFiles : M unit :=
  p <- getProgram ;;
  if truthyS (files p) then
    let f := match files p with Some f => f | None => "" end in
    let _ := isS (engine p) "context" in
    if negb (existsSync env f) then
      console_log "File or folder not found" ;;
      process_exit 1
    else
      assignDataSource
        (mkDataSource (if isDirectory env f then "folder" else "file")
                      (mkConfig (Some f) None None None))
  else ret tt.

(** Lines 507-572. *)
Definition resolveEngine : M unit :=
  p <- getProgram ;;
  if negb (truthyS (engine p)) then
    if isCI env then
      v <- getPrefOrDefault engine ;;
      setProgram (set_engine v)
    else
      a <- prompts handlers Q_dataSource (getDataSourceChoices (framework p))
                   (onSelect env Q_dataSource) ;;
      shareDataSource ;;
      p' <- getProgram ;;
      if isUndefined (dataSource p') then ret tt
      else if isS a "simple" then
        setProgram (set_engine (Some "simple")) ;;
        assignDataSource (mkDataSource "none" emptyConfig)
      else if isS a "exampleFile" then
        setProgram (set_engine (Some "context")) ;;
        assignDataSource (mkDataSource "folder" emptyConfig)
      else if isS a "localFile" then
        setProgram (set_engine (Some "context")) ;;
        selectedPath <- selectLocalContextData "file" ;;
        assignDataSource
          (mkDataSource "file" (mkConfig (Some selectedPath) None None None))
      else if isS a "localFolder" then
        setProgram (set_engine (Some "context")) ;;
        selectedPath <- selectLocalContextData "folder" ;;
        assignDataSource
          (mkDataSource "folder" (mkConfig (Some selectedPath) None None None))
      else if isS a "web" then
        setProgram (set_engine (Some "context")) ;;
        writeDataSource (set_type "web")
      else ret tt
  else if isUndefined (dataSource p) then
    if isS (engine p) "context" then
      assignDataSource (mkDataSource "folder" emptyConfig)
    else if isS (engine p) "simple" then
      assignDataSource (mkDataSource "none" emptyConfig)
    else ret tt
  else ret tt.

(** Lines 574-628. *)
Definition resolveLlamaParse : M unit :=
  p <- getProgram ;;
  if (dataSourceTypeIs p "file" || dataSourceTypeIs p "folder")
     && isS (framework p) "fastapi"
  then
    if isCI env then
      v <- getPrefOrDefault llamaCloudKey ;;
      setProgram (set_llamaCloudKey v)
    else
      writeDataSource
        (fun d => set_config (set_useLlamaParse (llamaParse p) (config d)) d) ;;
      p1 <- getProgram ;;
      let dataSourceConfig_path :=
        match dataSource p1 with Some d => path (config d) | None => None end in
      let askingLlamaParse :=
        isUndefined (dataSourceUseLlamaParse p1)
        && (if dataSourceTypeIs p1 "folder" then true
            else truthyS dataSourceConfig_path
                 && (match dataSourceConfig_path with
                     | Some x => extname env x =? ".pdf"
                     | None => false
                     end)) in
      (if askingLlamaParse then
         a <- prompts handlers Q_useLlamaParse []
                      (onToggle env Q_useLlamaParse) ;;
         writeDataSource
           (fun d => set_config (set_useLlamaParse a (config d)) d)
       else ret tt) ;;
      p2 <- getProgram ;;
      if truthyB (dataSourceUseLlamaParse p2)
         && isUndefined (llamaCloudKey p2)
      then
        a <- prompts handlers Q_llamaCloudKey [] (onText env Q_llamaCloudKey) ;;
        setProgram (set_llamaCloudKey a)
      else ret tt
  else ret tt.

(** The [try] block of lines 640-647: the normalised URL, or [None] when
    the block throws (the [URL] constructor, the protocol check, or
    [includes] called on a missing answer). *)
Definition checkBaseUrl (answer : option string) : option string :=
  match answer with
  | None => None
  | Some u =>
      let baseUrl :=
        if negb (includes u "://") then ("https://" ++ u)%string else u in
      match urlProtocol env baseUrl with
      | None => None
      | Some protocol =>
          if negb (protocol =? "https:") && negb (protocol =? "http:")
          then None
          else Some baseUrl
      end
  end.

Definition invalidUrlMessage : string :=
  "Invalid URL provided! Please provide a valid URL (e.g. https://www.llamaindex.ai)".

(** Lines 630-660. *)
Definition resolveBaseUrl : M unit :=
  p <- getProgram ;;
  if dataSourceTypeIs p "web" && isS (framework p) "fastapi" then
    a <- prompts handlers Q_baseUrl [] (onText env Q_baseUrl) ;;
    match checkBaseUrl a with
    | None =>
        console_log invalidUrlMessage ;;
        process_exit 1
    | Some baseUrl =>
        writeDataSource
          (set_config (mkConfig None None (Some baseUrl) (Some 1%Z)))
    end
  else ret tt.

(** Lines 662-679. *)
Definition resolveVectorDb : M unit :=
  p <- getProgram ;;
  if negb (isS (engine p) "simple") && negb (truthyS (vectorDb p)) then
    if isCI env then
      v <- getPrefOrDefault vectorDb ;;
      setProgram (set_vectorDb v)
    else
      a <- prompts handlers Q_vectorDb (getVectorDbChoices (framework p))
                   (onSelect env Q_vectorDb) ;;
      setProgram (set_vectorDb a) ;;
      setPreferences (set_vectorDb a)
  else ret tt.

(** [toolsName?.map((tool) => supportedTools.find((t) => t.name === tool))] *)
Definition findTools (toolsName : option (list string))
  : option (list (option Tool)) :=
  option_map
    (map (fun tool => find (fun t => name t =? tool) (supportedTools env)))
    toolsName.

(** Lines 681-706.  An array, even [[]], is truthy. *)
Definition resolveTools : M unit :=
  p <- getProgram ;;
  if isUndefined (tools p)
     && isS (framework p) "fastapi"
     && isS (engine p) "context"
  then
    if isCI env then
      v <- getPrefOrDefault tools ;;
      setProgram (set_tools v)
    else
      toolsName <- prompts unhandled Q_toolsName
                           (map name (supportedTools env))
                           (onMultiselect env Q_toolsName) ;;
      let tools := findTools toolsName in
      setProgram (set_tools tools) ;;
      setPreferences (set_tools tools)
  else ret tt.

(** Lines 708-719. *)
Definition resolveOpenAiKey : M unit :=
  p <- getProgram ;;
  if negb (truthyS (openAiKey p)) then
    key <- prompts handlers Q_key [] (onText env Q_key) ;;
    setProgram (set_openAiKey key) ;;
    setPreferences (set_openAiKey key)
  else ret tt.

(** Lines 721-738. *)
Definition resolveEslint : M unit :=
  p <- getProgram ;;
  if negb (isS (framework p) "fastapi") && isUndefined (eslint p) then
    if isCI env then
      v <- getPrefOrDefault eslint ;;
      setProgram (set_eslint v)
    else
      a <- prompts onPromptState Q_eslint [] (onToggle env Q_eslint) ;;
      setProgram (set_eslint (Some (Boolean a))) ;;
      setPreferences (set_eslint (Some (Boolean a)))
  else ret tt.

(** Lines 345-740: what runs when the template is neither "community" nor
    "llamapack". *)
Definition standardFlow : M unit :=
  resolveFramework ;;
  resolveFrontend ;;
  resolveUi ;;
  resolveModel ;;
  resolveEmbeddingModel ;;
  resolveFiles ;;
  resolveEngine ;;
  resolveLlamaParse ;;
  resolveBaseUrl ;;
  resolveVectorDb ;;
  resolveTools ;;
  resolveOpenAiKey ;;
  resolveEslint ;;
  askPostInstallAction.

(** The body of [askQuestions], lines 199-747; the two early [return]s are
    the first two branches. *)
Definition askQuestionsBody : M unit :=
  resolveTemplate ;;
  p <- getProgram ;;
  if isS (template p) "community" then communityFlow
  else if isS (template p) "llamapack" then llamapackFlow
  else standardFlow.

Definition askQuestions (program0 preferences0 : QuestionArgs) : Outcome unit :=
  askQuestionsBody (init program0 preferences0).

End Flow.

(** ** Reasoning about the flow *)

(** [triple P m Q X]: from a state with [P], [m] either returns [a] in a
    state with [Q a] or exits with code [c] in a state with [X c]. *)
Definition triple {A : Type} (P : State -> Prop) (m : M A)
  (Q : A -> State -> Prop) (X : Z -> State -> Prop) : Prop :=
  forall s, P s ->
    match m s with
    | Returned a s' => Q a s'
    | Exited c s' => X c s'
    end.

(** The template is [t]. *)
Definition templateIs (t : option string) (s : State) : Prop :=
  template (program s) = t.

(** Nothing is asked of a state the process exits in. *)
Definition anyExit (c : Z) (s : State) : Prop := True.

(** [answered r]: the destructured answer of a prompt. *)
Definition answered {A : Type} (r : Response A) : option A :=
  match r with Answer a => Some a | Abort => None end.

(** The prompts shown so far, in order. *)
Definition promptsOf (t : list Event) : list PromptName :=
  flat_map (fun e => match e with Prompted q _ => [q] | _ => [] end) t.

Definition prompted (s : State) : list PromptName := promptsOf (trace s).

(** ** Where the answers go *)

Section Persisted.

Variable env : Env.

(** The place of each prompt in the run: the template prompt comes first,
    the two early-return prompts next, then the steps of the standard flow
    in order. *)
Definition stageOf (q : PromptName) : nat :=
  match q with
  | Q_template => 0
  | Q_communityProjectPath | Q_llamapack | Q_framework => 1
  | Q_frontend => 2
  | Q_ui => 3
  | Q_model => 4
  | Q_embeddingModel => 5
  | Q_dataSource => 7
  | Q_useLlamaParse | Q_llamaCloudKey => 8
  | Q_baseUrl => 9
  | Q_vectorDb => 10
  | Q_toolsName => 11
  | Q_key => 12
  | Q_eslint => 13
  | Q_action => 14
  end.

Definition shownBefore (k : nat) (s : State) : Prop :=
  forallb (fun q => (stageOf q <? k)%nat) (prompted s) = true.

(** Property [f] holds [v] in the configuration and in the preferences. *)
Definition inBoth {A : Type} (f : QuestionArgs -> option A) (v : option A)
  (s : State) : Prop :=
  f (program s) = v /\ f (preferences s) = v.

(** Each of these prompts, once shown, has left the operator's answer
    behind: twelve of them in the configuration and in the preferences;
    the LlamaCloud key and the post-install action in the configuration;
    the LlamaParse toggle and the (checked) base URL in the data-source
    descriptor, which is then no website, respectively a website. *)
Definition answersKept (s : State) : Prop :=
  let shown q := In q (prompted s) in
  (shown Q_template ->
   inBoth template (answered (onSelect env Q_template)) s)
  /\ (shown Q_communityProjectPath ->
      inBoth communityProjectPath
             (answered (onSelect env Q_communityProjectPath)) s)
  /\ (shown Q_llamapack ->
      inBoth llamapack (answered (onSelect env Q_llamapack)) s)
  /\ (shown Q_framework ->
      inBoth framework (answered (onSelect env Q_framework)) s)
  /\ (shown Q_frontend ->
      inBoth frontend
             (Some (Boolean (answered (onToggle env Q_frontend)))) s)
  /\ (shown Q_ui -> inBoth ui (answered (onSelect env Q_ui)) s)
  /\ (shown Q_model -> inBoth model (answered (onSelect env Q_model)) s)
  /\ (shown Q_embeddingModel ->
      inBoth embeddingModel (answered (onSelect env Q_embeddingModel)) s)
  /\ (shown Q_vectorDb ->
      inBoth vectorDb (answered (onSelect env Q_vectorDb)) s)
  /\ (shown Q_toolsName ->
      inBoth tools
             (findTools env (answered (onMultiselect env Q_toolsName))) s)
  /\ (shown Q_key -> inBoth openAiKey (answered (onText env Q_key)) s)
  /\ (shown Q_eslint ->
      inBoth eslint (Some (Boolean (answered (onToggle env Q_eslint)))) s)
  /\ (shown Q_llamaCloudKey ->
      llamaCloudKey (program s) = answered (onText env Q_llamaCloudKey))
  /\ (shown Q_action ->
      postInstallAction (program s) = answered (onSelect env Q_action))
  /\ (shown Q_useLlamaParse ->
      dataSourceUseLlamaParse (program s)
      = answered (onToggle env Q_useLlamaParse)
      /\ dataSourceTypeIs (program s) "web" = false)
  /\ (shown Q_baseUrl ->
      option_map (fun d => baseUrl (config d)) (dataSource (program s))
      = Some (checkBaseUrl env (answered (onText env Q_baseUrl)))).

Definition keptBefore (k : nat) (s : State) : Prop :=
  shownBefore k s /\ answersKept s.

End Persisted.

(** ** Stages of the standard flow *)

(** [atStage k i before after]: what holds of the property resolved by step
    [i] when step [k] is about to run. *)
Definition atStage (k i : nat) (before after : Prop) : Prop :=
  if (i <? k)%nat then after else before.

(** ** Aborted prompts *)

(** The operator aborts prompt [q] (each prompt looks for its response
    under its own kind). *)
Definition aborts (env : Env) (q : PromptName) : bool :=
  let isAbort {A : Type} (r : Response A) : bool :=
    match r with Abort => true | Answer _ => false end in
  match q with
  | Q_frontend | Q_useLlamaParse | Q_eslint => isAbort (onToggle env q)
  | Q_llamaCloudKey | Q_baseUrl | Q_key => isAbort (onText env q)
  | Q_toolsName => isAbort (onMultiselect env q)
  | _ => isAbort (onSelect env q)
  end.

(** So far no prompt but the tool selection has been aborted. *)
Definition noAbortSurvived (env : Env) (s : State) : Prop :=
  forallb (fun q => negb (aborts env q)
                    || (if PromptName_eq_dec q Q_toolsName then true else false))
          (prompted s) = true.

Definition exitsWith (code : Z) (c : Z) (s : State) : Prop := c = code.

(** ** Resolution in CI, in the specification's terms *)

(** The prompts that no CI check guards. *)
Definition ungated (q : PromptName) : bool :=
  match q with
  | Q_communityProjectPath | Q_llamapack | Q_baseUrl | Q_key => true
  | _ => false
  end.

Definition onlyUngated (s : State) : Prop :=
  forallb ungated (prompted s) = true.

Section CiResolution.

Variables p0 prefs0 : QuestionArgs.

(** The stored preference when present, else the hardcoded default. *)
Definition stored {A : Type} (f : QuestionArgs -> option A) : option A :=
  nullish (f prefs0) (f defaults).

(** What each property of the input [p0] is to become: the stored value
    when the property is unset and its step applies, the input's value
    otherwise.  Where a step applies only under a condition on properties
    settled earlier, these are read from [q], the configuration so far. *)
Definition ciTemplate : option string :=
  if negb (truthyS (template p0)) then stored template else template p0.

Definition ciFramework : option string :=
  if negb (truthyS (framework p0)) then stored framework else framework p0.

Definition ciFrontend (q : QuestionArgs) : option bool :=
  if isS (template q) "streaming"
     && (isS (framework q) "express" || isS (framework q) "fastapi")
  then if isUndefined (frontend p0) then stored frontend else frontend p0
  else Some false.

Definition ciUi (q : QuestionArgs) : option string :=
  if (isS (framework q) "nextjs" || truthyB (frontend q))
     && negb (truthyS (ui p0))
  then stored ui else ui p0.

Definition ciModel : option string :=
  if negb (truthyS (model p0)) then stored model else model p0.

Definition ciEmbeddingModel (q : QuestionArgs) : option string :=
  if negb (truthyS (embeddingModel p0)) && isS (framework q) "fastapi"
  then stored embeddingModel else embeddingModel p0.

Definition ciEngine : option string :=
  if negb (truthyS (engine p0)) then stored engine else engine p0.

Definition ciVectorDb (q : QuestionArgs) : option string :=
  if negb (isS (engine q) "simple") && negb (truthyS (vectorDb p0))
  then stored vectorDb else vectorDb p0.

Definition ciTools (q : QuestionArgs) : option (list (option Tool)) :=
  if isUndefined (tools p0) && isS (framework q) "fastapi"
     && isS (engine q) "context"
  then stored tools else tools p0.

Definition ciEslint (q : QuestionArgs) : option bool :=
  if negb (isS (framework q) "fastapi") && isUndefined (eslint p0)
  then stored eslint else eslint p0.

Definition ciPostInstallAction : option string :=
  if isUndefined (postInstallAction p0) then stored postInstallAction
  else postInstallAction p0.

(** What holds of the surroundings all along a CI run. *)
Definition ciFrame (s : State) : Prop :=
  defaultsObj s = defaults /\ sharing s = Own
  /\ template (preferences s) = template prefs0
  /\ framework (preferences s) = framework prefs0
  /\ frontend (preferences s) = frontend prefs0
  /\ ui (preferences s) = ui prefs0
  /\ model (preferences s) = model prefs0
  /\ embeddingModel (preferences s) = embeddingModel prefs0
  /\ engine (preferences s) = engine prefs0
  /\ vectorDb (preferences s) = vectorDb prefs0
  /\ tools (preferences s) = tools prefs0
  /\ eslint (preferences s) = eslint prefs0
  /\ postInstallAction (preferences s) = postInstallAction prefs0
  /\ onlyUngated s.

(** Before step [k] of the standard flow, the properties of the steps
    [i < k] are resolved and the others are still the input's. *)
Definition ciInv (k : nat) (s : State) : Prop :=
  let q := program s in
  ciFrame s
  /\ template q = ciTemplate
  /\ atStage k 1 (framework q = framework p0) (framework q = ciFramework)
  /\ atStage k 2 (frontend q = frontend p0) (frontend q = ciFrontend q)
  /\ atStage k 3 (ui q = ui p0) (ui q = ciUi q)
  /\ atStage k 4 (model q = model p0) (model q = ciModel)
  /\ atStage k 5 (embeddingModel q = embeddingModel p0)
                 (embeddingModel q = ciEmbeddingModel q)
  /\ atStage k 7 (engine q = engine p0) (engine q = ciEngine)
  /\ atStage k 10 (vectorDb q = vectorDb p0) (vectorDb q = ciVectorDb q)
  /\ atStage k 11 (tools q = tools p0) (tools q = ciTools q)
  /\ atStage k 13 (eslint q = eslint p0) (eslint q = ciEslint q)
  /\ atStage k 14 (postInstallAction q = postInstallAction p0)
                  (postInstallAction q = ciPostInstallAction).

End CiResolution.

(** ** The specification's vocabulary

    The conditions the specification names, stated on their own so that
    the flow can be compared with them. *)

(** A string option the flow treats as not given: [undefined] or [""]. *)
Definition unsetS (o : option string) : Prop := o = None \/ o = Some "".

(** A non-empty value is to be had from one of two places. *)
Definition resolvable (a b : option string) : Prop :=
  exists k, k <> "" /\ (a = Some k \/ b = Some k).

Definition noVectorDbSelected (p : QuestionArgs) : Prop :=
  unsetS (vectorDb p) \/ vectorDb p = Some "none".

Definition openAiKeyResolvable (env : Env) (p : QuestionArgs) : Prop :=
  resolvable (openAiKey p) (OPENAI_API_KEY env).

Definition llamaCloudKeyNotMissing (env : Env) (p : QuestionArgs) : Prop :=
  dataSourceUseLlamaParse p = Some true ->
  resolvable (llamaCloudKey p) (LLAMA_CLOUD_API_KEY env).

Definition noToolRequiresConfig (env : Env) (p : QuestionArgs) : Prop :=
  toolsRequireConfig env (tools p) = false.

Definition noLlamaPackChosen (p : QuestionArgs) : Prop :=
  unsetS (llamapack p).

(** A bare host gets an [https://] prefix. *)
Definition withScheme (u : string) : string :=
  if includes u "://" then u else ("https://" ++ u)%string.

(** The website descriptor's config for a base URL. *)
Definition webConfig (u : string) : Config :=
  mkConfig None None (Some u) (Some 1%Z).

(** ** Sample surroundings

    Concrete surroundings on which the flow is run below. *)

(** A stand-in for [new URL(s).protocol] on the few strings used below:
    the text before the first ["://"] followed by [":"], provided both it
    and what follows are not empty. *)
Definition sampleUrlProtocol (s : string) : option string :=
  match String.index 0 "://" s with
  | Some (S i) =>
      if (S i + 3 <? String.length s)%nat
      then Some (substring 0 (S i) s ++ ":")%string
      else None
  | _ => None
  end.

(** Stand-in for [path.extname]: the last four characters when they start
    with a dot. *)
Definition sampleExtname (s : string) : string :=
  let n := String.length s in
  let e := substring (n - 4) 4 s in
  if prefix "." e then e else "".

Definition sampleTools : list Tool :=
  [mkTool "google.GoogleSearchToolSpec" "Google Search";
   mkTool "wikipedia.WikipediaToolSpec" "Wikipedia"].

(** An operator who takes the given answers and otherwise a fixed default;
    a Linux host with one directory [/data] and one file [/data/a.pdf]. *)
Definition sampleEnv (ci : bool)
  (select text : PromptName -> Response string)
  (toggle : PromptName -> Response bool)
  (multi : PromptName -> Response (list string)) : Env :=
  {| isCI := ci;
     platform := "linux";
     OPENAI_API_KEY := None;
     LLAMA_CLOUD_API_KEY := None;
     existsSync := fun f => (f =? "/data") || (f =? "/data/a.pdf");
     isDirectory := fun f => f =? "/data";
     extname := sampleExtname;
     execSync := fun _ => None;
     urlProtocol := sampleUrlProtocol;
     onSelect := select;
     onText := text;
     onToggle := toggle;
     onMultiselect := multi;
     getRepoRootFolders := ["sec-insights"; "chat-llamaindex"];
     getAvailableLlamapackOptions := [("resume_screener", "llama-packs/resume_screener")];
     vectordbDirs := fun _ => ["none"; "mongo"; "pg"; "pinecone"];
     supportedTools := sampleTools;
     toolsRequireConfig :=
       fun ts => match ts with
                 | Some l => existsb (fun t => match t with
                                               | Some t => name t =? "google.GoogleSearchToolSpec"
                                               | None => false
                                               end) l
                 | None => false
                 end |}.

Definition selectDefault (q : PromptName) : Response string :=
  match q with
  | Q_template => Answer "streaming"
  | Q_communityProjectPath => Answer "sec-insights"
  | Q_llamapack => Answer "llama-packs/resume_screener"
  | Q_framework => Answer "nextjs"
  | Q_ui => Answer "html"
  | Q_model => Answer "gpt-4"
  | Q_embeddingModel => Answer "text-embedding-3-small"
  | Q_dataSource => Answer "simple"
  | Q_vectorDb => Answer "none"
  | Q_action => Answer "dependencies"
  | _ => Abort
  end.

Definition textDefault (q : PromptName) : Response string :=
  match q with
  | Q_key => Answer "sk-test"
  | Q_llamaCloudKey => Answer "llx-test"
  | Q_baseUrl => Answer "www.example.com"
  | _ => Abort
  end.

Definition toggleDefault (q : PromptName) : Response bool := Answer true.

Definition multiDefault (q : PromptName) : Response (list string) :=
  Answer ["wikipedia.WikipediaToolSpec"].

Definition interactiveEnv : Env :=
  sampleEnv false selectDefault textDefault toggleDefault multiDefault.

Definition ciEnv : Env :=
  sampleEnv true selectDefault textDefault toggleDefault multiDefault.

(** Sample inputs. *)

(** Only [--files /data]. *)
Definition filesArgs : QuestionArgs :=
  mkArgs None None None None None None None None None None
         None None None None None None None (Some "/data") None.

(** The Python framework with the context engine, nothing else. *)
Definition fastapiContextArgs : QuestionArgs :=
  set_engine (Some "context") (set_framework (Some "fastapi") noArgs).

(** A website source under the Python framework. *)
Definition webArgs : QuestionArgs :=
  set_dataSource (Some (mkDataSource "web" emptyConfig)) fastapiContextArgs.



(** The community template asked for on the command line. *)
Definition communityArgs : QuestionArgs :=
  set_template (Some "community") noArgs.



(** Every property but [files] given, for the Python framework with a
    folder source. *)
Definition settledArgs : QuestionArgs :=
  {| template := Some "streaming";
     framework := Some "fastapi";
     engine := Some "context";
     ui := Some "shadcn";
     eslint := Some true;
     frontend := Some true;
     openAiKey := Some "sk-test";
     llamaCloudKey := Some "llx-test";
     model := Some "gpt-4";
     embeddingModel := Some "text-embedding-3-small";
     communityProjectPath := Some "";
     llamapack := Some "";
     vectorDb := Some "none";
     externalPort := Some 8000%Z;
     postInstallAction := Some "none";
     dataSource :=
       Some (mkDataSource "folder"
               (mkConfig (Some "/data") (Some true) None None));
     tools := Some [];
     files := None;
     llamaParse := Some true |}.

(** An operator who aborts the tool selection and answers everything else. *)
Definition abortToolsEnv : Env :=
  sampleEnv false selectDefault textDefault toggleDefault (fun _ => Abort).

(** An operator who aborts every text prompt. *)
Definition abortTextEnv : Env :=
  sampleEnv false selectDefault (fun _ => Abort) toggleDefault multiDefault.

(** An operator who aborts every toggle. *)
Definition abortToggleEnv : Env :=
  sampleEnv false selectDefault textDefault (fun _ => Abort) multiDefault.

(** An operator who enters [ftp://x.com] as the base URL. *)
Definition ftpEnv : Env :=
  sampleEnv false selectDefault
    (fun q => match q with Q_baseUrl => Answer "ftp://x.com" | _ => textDefault q end)
    toggleDefault multiDefault.

(** Stored preferences naming the context engine and no vector database. *)
Definition contextPreferences : QuestionArgs :=
  set_vectorDb (Some "none") (set_engine (Some "context") noArgs).

(** ** Further vocabulary for whole runs

    Predicates on states and prompts used by the properties of the flow
    that go beyond the specification's sentences. *)

(** The messages the flow prints right before it ends the process: the
    cancel handler's, the cursor reset of [onPromptState], and the four
    error reports. *)
Definition exitMessage (e : Event) : bool :=
  match e with
  | ConsoleError m => m =? "Exiting."
  | StdoutWrite m => m =? NL
  | ConsoleLog m =>
      (m =? "File or folder not found")
      || (m =? invalidUrlMessage)
      || (m =? "Unsupported OS error!")
      || (m =? "Got an error when trying to select local context data! Please try again or select another data source option.")
      || (m =? ("Please select a supported file type: "
                ++ String.concat "," supportedContextFileTypes))
  | _ => false
  end.

Definition exitedWithMessage (c : Z) (s : State) : Prop :=
  c = 1%Z /\ exists t e, trace s = (t ++ [e])%list /\ exitMessage e = true.

(** On exit, no prompt but the last one shown (and the tool selection) has
    been aborted. *)
Definition abortedAtMostLast (env : Env) (c : Z) (s : State) : Prop :=
  c = 1%Z
  /\ forallb (fun q => negb (aborts env q)
                       || (if PromptName_eq_dec q Q_toolsName then true else false))
             (removelast (prompted s)) = true.

(** The place of a prompt in the source text: its stage, with the LlamaCloud
    key after the LlamaParse toggle of the same stage. *)
Definition promptRank (q : PromptName) : nat :=
  match q with
  | Q_llamaCloudKey => S (2 * stageOf q)
  | _ => 2 * stageOf q
  end.

(** [l] is strictly increasing and starts at [lo] or above. *)
Fixpoint ascending (lo : nat) (l : list nat) : bool :=
  match l with
  | [] => true
  | x :: rest => (lo <=? x)%nat && ascending (S x) rest
  end.

Definition ordered (k : nat) (l : list PromptName) : Prop :=
  ascending 0 (map promptRank l) = true
  /\ forallb (fun q => (promptRank q <? k)%nat) l = true.

(** Before step [k]: the prompts so far came in source order, all from
    earlier steps. *)
Definition orderedBefore (k : nat) (s : State) : Prop :=
  ordered (2 * k) (prompted s).

Definition orderedAtExit (c : Z) (s : State) : Prop := orderedBefore 15 s.

(** What no step writes: [files], [llamaParse] and [externalPort] of the
    configuration; [engine], [llamaCloudKey], [postInstallAction], [files],
    [llamaParse] and [externalPort] of the preferences; and every property
    of [defaults] but its data-source descriptor. *)
Definition untouched (p0 prefs0 : QuestionArgs) (s : State) : Prop :=
  files (program s) = files p0
  /\ llamaParse (program s) = llamaParse p0
  /\ externalPort (program s) = externalPort p0
  /\ engine (preferences s) = engine prefs0
  /\ llamaCloudKey (preferences s) = llamaCloudKey prefs0
  /\ postInstallAction (preferences s) = postInstallAction prefs0
  /\ files (preferences s) = files prefs0
  /\ llamaParse (preferences s) = llamaParse prefs0
  /\ externalPort (preferences s) = externalPort prefs0
  /\ set_dataSource None (defaultsObj s) = set_dataSource None defaults.

Definition untouchedAtExit (p0 prefs0 : QuestionArgs) (c : Z) (s : State)
  : Prop := untouched p0 prefs0 s.

(** The preferences with the three properties blanked that a CI run can
    still store (the prompts for them have no CI check). *)
Definition ciMask (q : QuestionArgs) : QuestionArgs :=
  set_openAiKey None (set_communityProjectPath None (set_llamapack None q)).

Definition ciKept (prefs0 : QuestionArgs) (s : State) : Prop :=
  ciMask (preferences s) = ciMask prefs0
  /\ defaultsObj s = defaults /\ sharing s = Own.

Definition ciKeptAtExit (prefs0 : QuestionArgs) (c : Z) (s : State) : Prop :=
  ciKept prefs0 s.

(** A streaming template with a backend-only framework. *)
Definition backendOnly (t fw : option string) : bool :=
  isS t "streaming" && (isS fw "express" || isS fw "fastapi").

(** What showing prompt [q] says of the template [t] and framework [fw]. *)
Definition gate (t fw : option string) (q : PromptName) : bool :=
  match q with
  | Q_frontend => backendOnly t fw
  | Q_ui => isS fw "nextjs" || backendOnly t fw
  | Q_embeddingModel | Q_useLlamaParse | Q_llamaCloudKey | Q_baseUrl
  | Q_toolsName => isS fw "fastapi"
  | Q_eslint => negb (isS fw "fastapi")
  | _ => true
  end.

Definition gated (s : State) : Prop :=
  forallb (gate (template (program s)) (framework (program s))) (prompted s)
  = true.

Definition frontendGated (s : State) : Prop :=
  truthyB (frontend (program s)) = true ->
  backendOnly (template (program s)) (framework (program s)) = true.

(** Only prompts of the first two steps have been shown. *)
Definition earlyOnly (s : State) : Prop :=
  forallb (fun q => (stageOf q <? 2)%nat) (prompted s) = true.

Definition gatedWith (t fw : option string) (s : State) : Prop :=
  template (program s) = t /\ framework (program s) = fw
  /\ forallb (gate t fw) (prompted s) = true.

Definition settledWith (t fw : option string) (s : State) : Prop :=
  gatedWith t fw s
  /\ (truthyB (frontend (program s)) = true -> backendOnly t fw = true).

Definition gatedAtExit (c : Z) (s : State) : Prop := gated s.

Definition gatedWithAtExit (t fw : option string) (c : Z) (s : State)
  : Prop := gatedWith t fw s.

(** The host and the kind of dialog each script is for. *)
Definition scriptPlatform (x : Script) : string :=
  match x with
  | MACOS_FILE_SELECTION_SCRIPT | MACOS_FOLDER_SELECTION_SCRIPT => "darwin"
  | WINDOWS_FILE_SELECTION_SCRIPT | WINDOWS_FOLDER_SELECTION_SCRIPT => "win32"
  end.

Definition scriptSelectsFile (x : Script) : bool :=
  match x with
  | MACOS_FILE_SELECTION_SCRIPT | WINDOWS_FILE_SELECTION_SCRIPT => true
  | MACOS_FOLDER_SELECTION_SCRIPT | WINDOWS_FOLDER_SELECTION_SCRIPT => false
  end.

Definition unsupportedOs : Event := ConsoleLog "Unsupported OS error!".

Definition notDataSource (q : PromptName) : bool :=
  match q with Q_dataSource => false | _ => true end.

(** The configuration names a files path that does not exist, and the
    data-source prompt has not been shown. *)
Definition missingFiles (env : Env) (s : State) : Prop :=
  (exists f, files (program s) = Some f /\ (f =? "") = false
             /\ existsSync env f = false)
  /\ forallb notDataSource (prompted s) = true.

Definition stoppedEarly (c : Z) (s : State) : Prop :=
  c = 1%Z /\ forallb notDataSource (prompted s) = true.

Definition neverReturned (u : unit) (s : State) : Prop := False.

(** A file or folder source under the Python framework: the condition of
    the LlamaParse step. *)
Definition localSourceUnderPython (p : QuestionArgs) : bool :=
  (dataSourceTypeIs p "file" || dataSourceTypeIs p "folder")
  && isS (framework p) "fastapi".

Definition ciKeyFrame (prefs0 : QuestionArgs) (s : State) : Prop :=
  llamaCloudKey (preferences s) = llamaCloudKey prefs0
  /\ defaultsObj s = defaults /\ sharing s = Own.

Definition ciKeyStored (prefs0 : QuestionArgs) (s : State) : Prop :=
  ciKeyFrame prefs0 s
  /\ (localSourceUnderPython (program s) = true ->
      llamaCloudKey (program s)
      = nullish (llamaCloudKey prefs0) (llamaCloudKey defaults)).

(** The entry of [tools] made for a selected name: the supported tool of
    that name, or [undefined] when there is none. *)
Definition toolFor (env : Env) (selected : string) (entry : option Tool)
  : Prop :=
  match entry with
  | Some t => In t (supportedTools env) /\ name t = selected
  | None => forall t, In t (supportedTools env) -> name t <> selected
  end.

(** An operator who picks the Python framework and the website source. *)
Definition webChoiceEnv : Env :=
  sampleEnv false
    (fun q => match q with
              | Q_dataSource => Answer "web"
              | Q_framework => Answer "fastapi"
              | _ => selectDefault q
              end)
    textDefault toggleDefault multiDefault.

(** Only [--files /nowhere], a path the sample host does not have. *)
Definition missingFilesArgs : QuestionArgs :=
  mkArgs None None None None None None None None None None
         None None None None None None None (Some "/nowhere") None.

(** [o] is not [undefined]. *)
Definition isDefined {A : Type} (o : option A) : Prop := isUndefined o = false.

(** The defaults the CI branches fall back on are in place. *)
Definition defaultsDefined (s : State) : Prop :=
  isDefined (template (defaultsObj s))
  /\ isDefined (framework (defaultsObj s))
  /\ isDefined (frontend (defaultsObj s))
  /\ isDefined (model (defaultsObj s))
  /\ isDefined (postInstallAction (defaultsObj s)).

(** Before step [k] of the standard flow: the template is defined, and so
    is each of framework, frontend, model, primary key and post-install
    action once its step is over. *)
Definition definedBefore (k : nat) (s : State) : Prop :=
  let q := program s in
  defaultsDefined s
  /\ isDefined (template q)
  /\ atStage k 1 True (isDefined (framework q))
  /\ atStage k 2 True (isDefined (frontend q))
  /\ atStage k 4 True (isDefined (model q))
  /\ atStage k 12 True (isDefined (openAiKey q))
  /\ atStage k 14 True (isDefined (postInstallAction q)).

End CreateLlama.

(** * The Pinecone vector store *)

Module Pinecone.

(** [Promise<A>] once settled. *)
Inductive Promise (A : Type) : Type :=
| Resolved (a : A)
| Rejected.
Arguments Resolved {A} a.
Arguments Rejected {A}.

(** A JavaScript number used as an index or a size: an integer, or [NaN]
    ([None]), which is what [Number.parseInt] gives for an unusable
    [PINECONE_CHUNK_SIZE]. *)
Definition Num : Type := option Z.

Definition num_add (a b : Num) : Num :=
  match a, b with
  | Some x, Some y => Some (x + y)%Z
  | _, _ => None
  end.

(** [a < n], false when [a] is [NaN] *)
Definition num_lt (a : Num) (n : nat) : bool :=
  match a with
  | Some x => (x <? Z.of_nat n)%Z
  | None => false
  end.

(** The index [Array.prototype.slice] makes of an argument: [NaN] counts
    as 0, a negative number counts from the end, and the result is clamped
    to the array. *)
Definition relativeIndex (k : Num) (len : nat) : nat :=
  match k with
  | None => 0
  | Some k =>
      if (k <? 0)%Z then Z.to_nat (Z.max (Z.of_nat len + k) 0)
      else Z.to_nat (Z.min k (Z.of_nat len))
  end.

(** [l.slice(start, stop)] *)
Definition slice {A : Type} (start stop : Num) (l : list A) : list A :=
  let from := relativeIndex start (length l) in
  let to := relativeIndex stop (length l) in
  firstn (to - from) (skipn from l).

(** How many runs of the loop body are left at index [i] of an array of
    [len] elements, for a size that advances. *)
Definition remaining (i : Num) (len : nat) : nat :=
  match i with
  | Some x => Z.to_nat (Z.of_nat len - x)
  | None => 0
  end.

(** A chunk size with which the loop advances: a positive integer, or
    [NaN] (after which the index is [NaN] and the loop ends). *)
Definition advances (size : Num) : Prop :=
  match size with
  | Some c => (0 < c)%Z
  | None => True
  end.

Section Store.

(** The embedding vectors and the metadata are only passed along. *)
Variables Vector Metadata : Type.

(** What [add] reads of a node ([Node.ts] is not part of the sources at
    hand): its [id_], the result of [getEmbedding()], which throws when the
    embedding is not set ([None]), and the result of [nodeToMetadata]. *)
Record BaseNode : Type := mkNode {
  id_ : string;
  getEmbedding : option Vector;
  nodeToMetadata : Metadata
}.

Record PineconeRecord : Type := mkRecord {
  id : option string;
  values : Vector;
  metadata : Metadata
}.

(** The store; [db] is the client once it has been created. *)
Record PineconeVectorStore : Type := mkStore {
  db : bool;
  indexName : string;
  namespace : string;
  chunkSize : Num;
  textKey : string
}.

(** What the store does to the outside. *)
Inductive Call : Type :=
| NewPinecone
| OpenIndex (indexName : string)
| Upsert (chunk : list PineconeRecord)
| ConsoleLog.

(** The hosted service: whether [new Pinecone()] succeeds, and whether the
    [n]-th [upsert] of the run does. *)
Record Service : Type := mkService {
  newPinecone : bool;
  upsert : nat -> list PineconeRecord -> bool
}.

Variable service : Service.

(** [nodeToRecord], lines 220-227; [None] when [getEmbedding] throws. *)
Definition nodeToRecord (node : BaseNode) : option PineconeRecord :=
  match getEmbedding node with
  | None => None
  | Some v =>
      Some (mkRecord
              (if (String.length (id_ node) =? 0)%nat then None
               else Some (id_ node))
              v (nodeToMetadata node))
  end.

(** [embeddingResults.map(this.nodeToRecord)]; [None] when a call throws. *)
Fixpoint mapNodeToRecord (l : list BaseNode) : option (list PineconeRecord) :=
  match l with
  | [] => Some []
  | node :: rest =>
      match nodeToRecord node with
      | None => None
      | Some r =>
          match mapNodeToRecord rest with
          | None => None
          | Some rs => Some (r :: rs)
          end
      end
  end.

(** [getDb], lines 56-63, followed by [db.index(this.indexName)] as in
    [index], lines 74-77: the store afterwards and the calls made, or
    [None] when the client cannot be created. *)
Definition index (store : PineconeVectorStore)
  : option (PineconeVectorStore * list Call) :=
  if db store then Some (store, [OpenIndex (indexName store)])
  else if newPinecone service then
    Some (mkStore true (indexName store) (namespace store) (chunkSize store)
                  (textKey store),
          [NewPinecone; OpenIndex (indexName store)])
  else None.

(** [saveChunk], lines 113-122: whether the upsert went through. *)
Definition saveChunk (n : nat) (chunk : list PineconeRecord) : bool * list Call :=
  if upsert service n chunk then (true, [Upsert chunk])
  else (false, [Upsert chunk; ConsoleLog]).

(** The loop of lines 103-109, [n] upserts having been made: [Some true]
    when it runs to its end, [Some false] when a chunk fails, [None] when
    the fuel runs out first. *)
Fixpoint saveChunks (fuel : nat) (size : Num) (nodes : list PineconeRecord)
  (i : Num) (n : nat) : option bool * list Call :=
  match fuel with
  | O => (None, [])
  | S fuel' =>
      if num_lt i (length nodes) then
        let chunk := slice i (num_add i size) nodes in
        let (result, calls) := saveChunk n chunk in
        if result then
          let (r, calls') := saveChunks fuel' size nodes (num_add i size) (S n) in
          (r, (calls ++ calls')%list)
        else (Some false, calls)
      else (Some true, [])
  end.

(** [add], lines 95-111: the settled promise, the store afterwards and the
    calls made; [None] for the promise when the fuel runs out. *)
Definition add (fuel : nat) (store : PineconeVectorStore)
  (embeddingResults : list BaseNode)
  : option (Promise (list string)) * PineconeVectorStore * list Call :=
  if (length embeddingResults =? 0)%nat then (Some (Resolved []), store, [])
  else
    match index store with
    | None => (Some Rejected, store, [NewPinecone])
    | Some (store', calls) =>
        match mapNodeToRecord embeddingResults with
        | None => (Some Rejected, store', calls)
        | Some nodes =>
            match saveChunks fuel (chunkSize store') nodes (Some 0%Z) 0 with
            | (Some true, calls') =>
                (Some (Resolved []), store', (calls ++ calls')%list)
            | (Some false, calls') =>
                (Some Rejected, store', (calls ++ calls')%list)
            | (None, calls') => (None, store', (calls ++ calls')%list)
            end
        end
    end.

End Store.

(** A sample service that accepts everything, a store with chunks of two,
    and three nodes. *)
Definition sampleService : Service (list Z) unit :=
  mkService (list Z) unit true (fun _ _ => true).

Definition sampleStore : PineconeVectorStore :=
  mkStore false "llama" "" (Some 2%Z) "text".

Definition sampleNodes : list (BaseNode (list Z) unit) :=
  [mkNode (list Z) unit "a" (Some [1; 2]%Z) tt;
   mkNode (list Z) unit "b" (Some [3; 4]%Z) tt;
   mkNode (list Z) unit "" (Some [5; 6]%Z) tt].

(** ** Reading the calls of a run *)

Section Calls.

Variables Vector Metadata : Type.

(** The chunks handed to [upsert], in order. *)
Definition upsertedChunks (calls : list (Call Vector Metadata))
  : list (list (PineconeRecord Vector Metadata)) :=
  flat_map (fun c => match c with Upsert _ _ chunk => [chunk] | _ => [] end)
           calls.

(** How many clients were created, how many messages logged. *)
Definition clientsCreated (calls : list (Call Vector Metadata)) : nat :=
  length (filter (fun c => match c with NewPinecone _ _ => true | _ => false end)
                 calls).

Definition logged (calls : list (Call Vector Metadata)) : nat :=
  length (filter (fun c => match c with ConsoleLog _ _ => true | _ => false end)
                 calls).


End Calls.

(** A service whose second upsert fails, a store whose chunk size is [NaN],
    one whose chunk size is 0, and a list with a node that has no
    embedding. *)
Definition flakyService : Service (list Z) unit :=
  mkService (list Z) unit true (fun n _ => (n =? 0)%nat).

Definition nanStore : PineconeVectorStore :=
  mkStore false "llama" "" None "text".

Definition zeroStore : PineconeVectorStore :=
  mkStore false "llama" "" (Some 0%Z) "text".

Definition bareNodes : list (BaseNode (list Z) unit) :=
  [mkNode (list Z) unit "a" (Some [1; 2]%Z) tt;
   mkNode (list Z) unit "b" None tt].

(** ** Filters and metadata *)

(** A metadata or filter value; numbers are only passed along. *)
Inductive Value : Type :=
| VUndefined
| VNull
| VBoolean (b : bool)
| VNumber (n : Z)
| VString (s : string)
| VStrings (l : list string).

(** A plain object by its own properties.  The order in which
    [Object.keys] lists integer-like keys is not modelled: objects are
    compared by their properties. *)
Definition Object : Type := list (string * Value).

(** The own property [key] of [o], if any. *)
Fixpoint getOwn (o : Object) (key : string) : option Value :=
  match o with
  | [] => None
  | (k, v) :: rest => if k =? key then Some v else getOwn rest key
  end.

(** [o[key]] for an own key. *)
Definition read (o : Object) (key : string) : Value :=
  match getOwn o key with Some v => v | None => VUndefined end.

Fixpoint assign (o : Object) (key : string) (v : Value) : Object :=
  match o with
  | [] => [(key, v)]
  | (k, x) :: rest =>
      if k =? key then (k, v) :: rest else (k, x) :: assign rest key v
  end.

(** [o[key] = v] on an object created by [{}]: the property is replaced or
    added, except that ["__proto__"] reaches the accessor of
    [Object.prototype] and makes no own property. *)
Definition setProperty (o : Object) (key : string) (v : Value) : Object :=
  if key =? "__proto__" then o else assign o key v.

(** [Object.keys(o)] *)
Definition keys (o : Object) : list string := map fst o.




(** [metaWithoutText], lines 211-218. *)
Definition metaWithoutText (store : PineconeVectorStore) (meta : Object)
  : Object :=
  fold_left (fun acc key => setProperty acc key (read meta key))
    (filter (fun key => negb (key =? textKey store)) (keys meta)) [].

End Pinecone.

(** * Creating the application

    [createApp] (create-app.ts) takes the configuration [askQuestions]
    settled and installs the template once, or twice when a frontend goes
    with a backend.  It is embedded as a function from the trace so far to
    how the promise ends and the trace then. *)

Module CreateApp.
Import CreateLlama.

(** [InstallTemplateArgs] as [createApp] fills it in: the properties it
    names itself, and under [answers] those it passes on from its own
    argument ([frontend], [files] and [llamaParse] are not among them). *)
Record InstallTemplateArgs : Type := mkInstall {
  appName : string;
  root : string;
  packageManager : string;
  isOnline : bool;
  customApiPath : option string;
  backend : bool;
  answers : QuestionArgs
}.

(** What [createApp] does to the outside. *)
Inductive Action : Type :=
| ConsoleError (msg : string)
| ConsoleLog (msg : string)
| MakeDir (dir : string)
| GetOnline
| InstallTemplate (args : InstallTemplateArgs)
| CopyFile (src dest : string)
| Chdir (dir : string)
| TryGitInit (dir : string)
| WriteDevcontainer (dir templatesDir : string) (framework : option string)
    (frontend : option bool).

(** The host [createApp] runs on.  The helpers of [./helpers/...] and the
    Node built-ins are not part of the sources at hand and are taken as
    given; [throws a] tells whether the awaited action [a] throws. *)
Record Host : Type := mkHost {
  path_resolve : string -> string;
  path_dirname : string -> string;
  path_basename : string -> string;
  path_join : string -> string -> string;
  templatesDir : string;
  isWriteable : string -> bool;
  isFolderEmpty : string -> string -> bool;
  getOnline : bool;
  tryGitInit : string -> bool;
  toolsRequireConfig : option (list (option Tool)) -> bool;
  green : string -> string;
  yellow : string -> string;
  terminalLink : string -> string -> string;
  numberToString : Z -> string;
  throws : Action -> bool
}.

(** How the promise of [createApp] ends: it resolves, the process exits,
    or it is rejected by an action that threw. *)
Inductive Result (A : Type) : Type :=
| Done (a : A)
| Exit (code : Z)
| Thrown.
Arguments Done {A} a.
Arguments Exit {A} code.
Arguments Thrown {A}.

Definition C (A : Type) : Type := list Action -> Result A * list Action.

Definition ret {A : Type} (a : A) : C A := fun t => (Done a, t).

Definition bind {A B : Type} (m : C A) (k : A -> C B) : C B :=
  fun t => match m t with
           | (Done a, t') => k a t'
           | (Exit c, t') => (Exit c, t')
           | (Thrown, t') => (Thrown, t')
           end.

Declare Scope app_scope.
Delimit Scope app_scope with app.
Notation "x <- m ;; k" := (bind m (fun x => k))
  (at level 61, m at next level, right associativity) : app_scope.
Notation "m ;; k" := (bind m (fun _ => k))
  (at level 61, right associativity) : app_scope.
Open Scope app_scope.

Definition process_exit {A : Type} (code : Z) : C A := fun t => (Exit code, t).

Definition say (a : Action) : C unit := fun t => (Done tt, (t ++ [a])%list).

Section App.

Variable host : Host.

(** An awaited action that may throw. *)
Definition perform (a : Action) : C unit :=
  fun t => if throws host a then (Thrown, (t ++ [a])%list)
           else (Done tt, (t ++ [a])%list).

(** The properties [createApp] destructures from its argument and hands to
    [installTemplate]. *)
Definition passedOn (a : QuestionArgs) : QuestionArgs :=
  mkArgs (template a) (framework a) (engine a) (ui a) (eslint a) None
    (openAiKey a) (llamaCloudKey a) (model a) (embeddingModel a)
    (communityProjectPath a) (llamapack a) (vectorDb a) (externalPort a)
    (postInstallAction a) (dataSource a) (tools a) None None.

Definition notWritable1 : string :=
  "The application path is not writable, please check folder permissions and try again.".

Definition notWritable2 : string :=
  "It is likely you do not have write permissions for this folder.".

(** [`http://localhost:${externalPort ?? 8000}/api/chat`] *)
Definition apiPath (externalPort : option Z) : string :=
  "http://localhost:"
  ++ numberToString host (match externalPort with Some p => p | None => 8000%Z end)
  ++ "/api/chat".

(** [createApp], lines 773-894. *)
Definition createApp (appPath pm : string) (a : QuestionArgs) : C unit :=
  let root := path_resolve host appPath in
  if negb (isWriteable host (path_dirname host root)) then
    say (ConsoleError notWritable1) ;;
    say (ConsoleError notWritable2) ;;
    process_exit 1
  else
    let appName := path_basename host root in
    perform (MakeDir root) ;;
    if negb (isFolderEmpty host root appName) then process_exit 1
    else
      let useYarn := pm =? "yarn" in
      isOnline <- (if negb useYarn then ret true
                   else say GetOnline ;; ret (getOnline host)) ;;
      say (ConsoleLog ("Creating a new LlamaIndex app in "
                       ++ green host root ++ ".")) ;;
      say (ConsoleLog "") ;;
      let args (root' : string) (fw : QuestionArgs -> QuestionArgs)
               (api : option string) (backend : bool) :=
        mkInstall appName root' pm isOnline api backend (fw (passedOn a)) in
      (if truthyB (frontend a) then
         let backendRoot := path_join host root "backend" in
         perform (MakeDir backendRoot) ;;
         perform (InstallTemplate (args backendRoot (fun q => q) None true)) ;;
         let frontendRoot := path_join host root "frontend" in
         perform (MakeDir frontendRoot) ;;
         perform (InstallTemplate
                    (args frontendRoot (set_framework (Some "nextjs"))
                          (Some (apiPath (externalPort a))) false)) ;;
         perform (CopyFile
                    (path_join host (templatesDir host) "README-fullstack.md")
                    (path_join host root "README.md"))
       else
         perform (InstallTemplate (args root (fun q => q) None true))) ;;
      perform (Chdir root) ;;
      say (TryGitInit root) ;;
      (if tryGitInit host root then
         say (ConsoleLog "Initialized a git repository.") ;;
         say (ConsoleLog "")
       else ret tt) ;;
      perform (WriteDevcontainer root (templatesDir host) (framework a)
                 (frontend a)) ;;
      (if toolsRequireConfig host (tools a) then
         say (ConsoleLog
                (yellow host
                   ("You have selected tools that require configuration. Please configure them in the "
                    ++ terminalLink host "tools_config.json"
                         ("file://" ++ root ++ "/tools_config.json")
                    ++ " file.")))
       else ret tt) ;;
      say (ConsoleLog "") ;;
      say (ConsoleLog (green host "Success!" ++ " Created " ++ appName
                       ++ " at " ++ appPath)) ;;
      say (ConsoleLog ("Now have a look at the "
                       ++ terminalLink host "README.md"
                            ("file://" ++ root ++ "/README.md")
                       ++ " and learn how to get started.")) ;;
      say (ConsoleLog "").

End App.

(** The [installTemplate] calls of a run, in order. *)
Definition installs (t : list Action) : list InstallTemplateArgs :=
  flat_map (fun a => match a with InstallTemplate x => [x] | _ => [] end) t.

(** The directories made, in order. *)
Definition madeDirs (t : list Action) : list string :=
  flat_map (fun a => match a with MakeDir d => [d] | _ => [] end) t.

(** Every [installTemplate] call of [t] goes to a directory made earlier
    in [t] (or in [made]). *)
Fixpoint prepared (made : list string) (t : list Action) : Prop :=
  match t with
  | [] => True
  | MakeDir d :: rest => prepared (d :: made) rest
  | InstallTemplate x :: rest => In (root x) made /\ prepared made rest
  | _ :: rest => prepared made rest
  end.

(** A host on which nothing throws: paths are joined with a slash and the
    project goes under [/home/user]. *)
Definition sampleHost (writable empty : bool) : Host :=
  {| path_resolve := fun p => "/home/user/" ++ p;
     path_dirname := fun _ => "/home/user";
     path_basename := fun p => substring 11 (String.length p - 11) p;
     path_join := fun a b => a ++ "/" ++ b;
     templatesDir := "/opt/create-llama/templates";
     isWriteable := fun _ => writable;
     isFolderEmpty := fun _ _ => empty;
     getOnline := true;
     tryGitInit := fun _ => true;
     toolsRequireConfig := fun _ => false;
     green := fun s => s;
     yellow := fun s => s;
     terminalLink := fun text url => text;
     numberToString := fun z => NilZero.string_of_int (Z.to_int z);
     throws := fun _ => false |}.

(** A FastAPI backend with a NextJS frontend. *)
Definition fullstackArgs : QuestionArgs :=
  set_frontend (Some true) settledArgs.

End CreateApp.

(** * Properties of the question flow *)

Module CreateLlamaFacts.
Import CreateLlama.

(** ** JavaScript values *)

Lemma truthyS_true (o : option string) :
  truthyS o = true <-> exists k, o = Some k /\ k <> "".
Proof.
  destruct o as [k|]; simpl.
  - rewrite negb_true_iff, String.eqb_neq. split.
    + intros H. exists k. split; [reflexivity | exact H].
    + intros [k' [E N]]. inversion E. subst. exact N.
  - split; [discriminate | intros [k [E _]]; discriminate].
Qed.

Lemma truthyS_false (o : option string) :
  truthyS o = false <-> unsetS o.
Proof.
  unfold unsetS. destruct o as [k|]; simpl.
  - rewrite negb_false_iff, String.eqb_eq. split.
    + intros ->. right. reflexivity.
    + intros [H|H]; [discriminate | inversion H; reflexivity].
  - split; [intros _; left; reflexivity | reflexivity].
Qed.

Lemma isS_true (o : option string) (lit : string) :
  isS o lit = true <-> o = Some lit.
Proof.
  destruct o as [k|]; simpl.
  - rewrite String.eqb_eq. split; [intros -> | intros H; inversion H]; reflexivity.
  - split; discriminate.
Qed.

Lemma truthyS_orS (a b : option string) :
  truthyS (orS a b) = true <-> resolvable a b.
Proof.
  unfold orS, resolvable. destruct (truthyS a) eqn:Ea.
  - rewrite Ea. apply truthyS_true in Ea. destruct Ea as [k [E N]].
    split; [intros _; exists k; auto | reflexivity].
  - rewrite truthyS_true. split.
    + intros [k [E N]]. exists k. auto.
    + intros [k [N [E|E]]].
      * assert (T : truthyS a = true) by (apply truthyS_true; exists k; auto).
        congruence.
      * exists k. auto.
Qed.

(** ** The post-install choices *)

Lemma runApp_in_actionChoices (env : Env) (p : QuestionArgs) :
  In "runApp" (actionChoices env p) <->
  noVectorDbSelected p /\ openAiKeyResolvable env p /\
  llamaCloudKeyNotMissing env p /\ noToolRequiresConfig env p /\
  noLlamaPackChosen p.
Proof.
  unfold actionChoices, noVectorDbSelected, openAiKeyResolvable,
    llamaCloudKeyNotMissing, noToolRequiresConfig, noLlamaPackChosen.
  rewrite <- !truthyS_false, <- truthyS_orS, <- isS_true.
  assert (L : truthyB (dataSourceUseLlamaParse p) = true
              <-> dataSourceUseLlamaParse p = Some true).
  { destruct (dataSourceUseLlamaParse p) as [[|]|]; simpl;
      split; congruence. }
  rewrite <- L, <- truthyS_orS.
  destruct (truthyS (vectorDb p)) eqn:Ev;
  destruct (isS (vectorDb p) "none") eqn:En;
  destruct (truthyS (orS (openAiKey p) (OPENAI_API_KEY env))) eqn:Ek;
  destruct (truthyB (dataSourceUseLlamaParse p)) eqn:El;
  destruct (truthyS (orS (llamaCloudKey p) (LLAMA_CLOUD_API_KEY env))) eqn:Ec;
  destruct (toolsRequireConfig env (tools p)) eqn:Et;
  destruct (truthyS (llamapack p)) eqn:Ep; simpl;
  intuition (try discriminate; try congruence).
Qed.

(** Closed runs are settled by evaluation. *)
Ltac evaluate :=
  repeat match goal with
         | |- exists _, _ => eexists
         | |- _ /\ _ => split
         end;
  vm_compute; reflexivity.

Ltac unfold_flow :=
  unfold bind, ret, getProgram, setProgram, setPreferences, assignDataSource,
    writeDataSource, shareDataSource, getPrefOrDefault, prompts, aborted,
    console_log, console_error, stdout_write, emit, process_exit in *.

(** C4: in interactive post-install resolution the prompt is shown, and
    "runApp" is among its choices exactly when no vector database is
    selected, a primary key is to be had from the input or the
    environment, the LlamaCloud key is not missing when LlamaParse was
    requested, no selected tool requires configuration and no LlamaPack
    was chosen. *)
Theorem runApp_offered_iff (env : Env) (s : State) :
  isCI env = false ->
  postInstallAction (program s) = None ->
  exists choices rest,
    trace (final (askPostInstallAction env s))
    = (trace s ++ Prompted Q_action choices :: rest)%list
    /\ (In "runApp" choices <->
        noVectorDbSelected (program s) /\
        openAiKeyResolvable env (program s) /\
        llamaCloudKeyNotMissing env (program s) /\
        noToolRequiresConfig env (program s) /\
        noLlamaPackChosen (program s)).
Proof.
  intros Hci Hp. exists (actionChoices env (program s)).
  unfold askPostInstallAction. unfold_flow. rewrite Hp, Hci. simpl.
  destruct (onSelect env Q_action) as [a|]; simpl.
  - exists []. split; [reflexivity | apply runApp_in_actionChoices].
  - exists [ConsoleError "Exiting."]. split.
    + rewrite <- app_assoc. reflexivity.
    + apply runApp_in_actionChoices.
Qed.

Lemma runApp_offered_iff_witness :
  exists choices rest,
    trace (final (askPostInstallAction interactiveEnv
                    (init (set_openAiKey (Some "sk-test") noArgs) noArgs)))
    = ([] ++ Prompted Q_action choices :: rest)%list
    /\ (In "runApp" choices <->
        noVectorDbSelected (set_openAiKey (Some "sk-test") noArgs) /\
        openAiKeyResolvable interactiveEnv (set_openAiKey (Some "sk-test") noArgs) /\
        llamaCloudKeyNotMissing interactiveEnv (set_openAiKey (Some "sk-test") noArgs) /\
        noToolRequiresConfig interactiveEnv (set_openAiKey (Some "sk-test") noArgs) /\
        noLlamaPackChosen (set_openAiKey (Some "sk-test") noArgs)).
Proof.
  apply (runApp_offered_iff interactiveEnv
           (init (set_openAiKey (Some "sk-test") noArgs) noArgs));
    reflexivity.
Defined.

(** The choice is really offered on that run, and withheld once a vector
    database is selected. *)
Example runApp_offered_sample :
  actionChoices interactiveEnv (set_openAiKey (Some "sk-test") noArgs)
  = ["none"; "VSCode"; "dependencies"; "runApp"]
  /\ actionChoices interactiveEnv
       (set_vectorDb (Some "pg") (set_openAiKey (Some "sk-test") noArgs))
     = ["none"; "VSCode"; "dependencies"].
Proof. split; reflexivity. Qed.

(** ** The website base URL *)

Lemma checkBaseUrl_ok (env : Env) (u : string) :
  urlProtocol env (withScheme u) = Some "http:"
  \/ urlProtocol env (withScheme u) = Some "https:" ->
  checkBaseUrl env (Some u) = Some (withScheme u).
Proof.
  unfold checkBaseUrl, withScheme.
  destruct (includes u "://"); simpl; intros [H|H]; rewrite H; reflexivity.
Qed.

Lemma checkBaseUrl_bad (env : Env) (u : string) :
  ~ (urlProtocol env (withScheme u) = Some "http:"
     \/ urlProtocol env (withScheme u) = Some "https:") ->
  checkBaseUrl env (Some u) = None.
Proof.
  unfold checkBaseUrl, withScheme.
  destruct (includes u "://"); simpl; intros H;
    match goal with
    | |- context [urlProtocol env ?x] =>
        destruct (urlProtocol env x) as [pr|] eqn:E; [|reflexivity]
    end;
    destruct (pr =? "https:") eqn:E1; destruct (pr =? "http:") eqn:E2;
    simpl; try reflexivity; exfalso; apply H;
    try (apply String.eqb_eq in E1; subst; right; reflexivity);
    try (apply String.eqb_eq in E2; subst; left; reflexivity).
Qed.

(** C5: for a website data source under the Python framework, the entered
    base URL gets an [https://] prefix when it has no ["://"]; when it then
    parses with protocol http or https the descriptor's config becomes
    [{baseUrl, depth: 1}]; in every other case the error message is printed
    and the process exits with status 1, the prompt having been shown once
    and nothing written. *)
Theorem website_base_url (env : Env) (s : State) (u : string) :
  dataSourceTypeIs (program s) "web" = true ->
  framework (program s) = Some "fastapi" ->
  onText env Q_baseUrl = Answer u ->
  (urlProtocol env (withScheme u) = Some "http:"
   \/ urlProtocol env (withScheme u) = Some "https:" ->
   exists s',
     resolveBaseUrl env s = Returned tt s'
     /\ dataSource (program s')
        = Some (mkDataSource "web" (webConfig (withScheme u)))
     /\ trace s' = (trace s ++ [Prompted Q_baseUrl []])%list)
  /\
  (~ (urlProtocol env (withScheme u) = Some "http:"
      \/ urlProtocol env (withScheme u) = Some "https:") ->
   exists s',
     resolveBaseUrl env s = Exited 1 s'
     /\ program s' = program s
     /\ trace s'
        = (trace s ++ [Prompted Q_baseUrl []; ConsoleLog invalidUrlMessage])%list).
Proof.
  intros Hweb Hfw Hans. unfold resolveBaseUrl. unfold_flow.
  rewrite Hweb, Hfw, Hans. cbn -[checkBaseUrl]. split; intros H.
  - rewrite (checkBaseUrl_ok env u H). eexists. split; [reflexivity|]. simpl.
    split; [|reflexivity].
    unfold dataSourceTypeIs in Hweb.
    destruct (dataSource (program s)) as [d|]; [|discriminate].
    apply String.eqb_eq in Hweb. simpl. unfold set_config. rewrite Hweb.
    reflexivity.
  - rewrite (checkBaseUrl_bad env u H). eexists. split; [reflexivity|]. simpl.
    split; [reflexivity|]. rewrite <- app_assoc. reflexivity.
Qed.

Lemma website_base_url_witness :
  exists s',
    resolveBaseUrl interactiveEnv (init webArgs noArgs) = Returned tt s'
    /\ dataSource (program s')
       = Some (mkDataSource "web" (webConfig "https://www.example.com"))
    /\ trace s' = [Prompted Q_baseUrl []].
Proof.
  destruct (website_base_url interactiveEnv (init webArgs noArgs)
              "www.example.com") as [Hok _];
    [reflexivity | reflexivity | reflexivity |].
  apply Hok. right. reflexivity.
Defined.

(** The two base URLs the specification names, on whole runs. *)
Example website_bare_host :
  exists st,
    askQuestions interactiveEnv webArgs noArgs = Returned tt st
    /\ dataSource (program st)
       = Some (mkDataSource "web" (webConfig "https://www.example.com")).
Proof. evaluate. Qed.

Example website_ftp_rejected :
  exists st,
    askQuestions ftpEnv webArgs noArgs = Exited 1 st
    /\ last (trace st) (ConsoleLog "") = ConsoleLog invalidUrlMessage
    /\ count_occ PromptName_eq_dec (prompted st) Q_baseUrl = 1%nat.
Proof. evaluate. Qed.

(** ** A files path given directly *)

(** C1 (the code does otherwise): with [--files /data] and nothing else,
    an interactive run still shows the data-source prompt, and the engine
    and the descriptor are what the operator picks there ("simple" and no
    data); in CI the engine is the default "simple" next to the folder
    descriptor.  The engine is "context" in neither run. *)
Theorem files_path_engine_not_inferred :
  existsSync interactiveEnv "/data" = true
  /\ isDirectory interactiveEnv "/data" = true
  /\ (exists st,
        askQuestions interactiveEnv filesArgs noArgs = Returned tt st
        /\ engine (program st) = Some "simple"
        /\ dataSource (program st) = Some (mkDataSource "none" emptyConfig)
        /\ prompted st
           = [Q_template; Q_framework; Q_ui; Q_model; Q_dataSource; Q_key;
              Q_eslint; Q_action])
  /\ (exists st,
        askQuestions ciEnv filesArgs noArgs = Returned tt st
        /\ engine (program st) = Some "simple"
        /\ dataSource (program st)
           = Some (mkDataSource "folder"
                     (mkConfig (Some "/data") None None None))).
Proof. evaluate. Qed.

(** The files step never writes the engine, whatever the input. *)
Lemma resolveFiles_keeps_engine (env : Env) (s : State) :
  engine (program (final (resolveFiles env s))) = engine (program s).
Proof.
  unfold resolveFiles. unfold_flow.
  destruct (truthyS (files (program s))); [|reflexivity].
  destruct (existsSync env _); reflexivity.
Qed.

(** ** Aborting a prompt *)

(** The three ways a prompt takes an abort. *)
Lemma prompts_abort_handlers {A : Type} (q : PromptName)
  (choices : list string) (s : State) :
  prompts (A := A) handlers q choices Abort s
  = Exited 1
      (mkState (program s) (preferences s) (defaultsObj s) (sharing s)
         ((trace s ++ [Prompted q choices]) ++ [ConsoleError "Exiting."])).
Proof. reflexivity. Qed.

Lemma prompts_abort_onPromptState {A : Type} (q : PromptName)
  (choices : list string) (s : State) :
  prompts (A := A) onPromptState q choices Abort s
  = Exited 1
      (mkState (program s) (preferences s) (defaultsObj s) (sharing s)
         (((trace s ++ [Prompted q choices])
           ++ [StdoutWrite (ESC ++ "[?25h")]) ++ [StdoutWrite NL])).
Proof. reflexivity. Qed.

Lemma prompts_abort_unhandled {A : Type} (q : PromptName)
  (choices : list string) (s : State) :
  prompts (A := A) unhandled q choices Abort s
  = Returned None
      (mkState (program s) (preferences s) (defaultsObj s) (sharing s)
         (trace s ++ [Prompted q choices])).
Proof. reflexivity. Qed.

(** C8 (the code does otherwise): when the operator aborts the tool
    selection, the run goes on to the next prompts and returns, with
    [tools] left undefined; nothing is printed and the process does not
    exit. *)
Theorem tools_prompt_abort_continues :
  onMultiselect abortToolsEnv Q_toolsName = Abort
  /\ exists st,
       askQuestions abortToolsEnv fastapiContextArgs noArgs = Returned tt st
       /\ tools (program st) = None
       /\ prompted st
          = [Q_template; Q_frontend; Q_ui; Q_model; Q_embeddingModel;
             Q_useLlamaParse; Q_llamaCloudKey; Q_vectorDb; Q_toolsName;
             Q_key; Q_action].
Proof. evaluate. Qed.

(** The sibling prompts on the same input: aborting a text prompt or a
    toggle ends the process with status 1. *)
Example other_prompts_abort_exits :
  (exists st,
     askQuestions abortTextEnv fastapiContextArgs noArgs = Exited 1 st
     /\ last (trace st) (ConsoleLog "") = ConsoleError "Exiting.")
  /\ (exists st,
        askQuestions abortToggleEnv fastapiContextArgs noArgs = Exited 1 st
        /\ trace st
           = [Prompted Q_template ["simple"; "streaming"; "community"; "llamapack"];
              Prompted Q_frontend [];
              StdoutWrite (ESC ++ "[?25h"); StdoutWrite NL]).
Proof. evaluate. Qed.

(** ** Fields left undefined *)

(** C9 (the code does otherwise): in CI, with the engine coming from the
    stored preferences ("context") or from the default ("simple"), the run
    returns with the engine set and the data source undefined; when the
    same engine is given on the input instead, the data source is filled
    in. *)
Theorem ci_engine_without_dataSource :
  (exists st,
     askQuestions ciEnv (set_openAiKey (Some "sk-test") noArgs)
       contextPreferences = Returned tt st
     /\ engine (program st) = Some "context"
     /\ dataSource (program st) = None)
  /\ (exists st,
        askQuestions ciEnv (set_openAiKey (Some "sk-test") noArgs) noArgs
        = Returned tt st
        /\ engine (program st) = Some "simple"
        /\ dataSource (program st) = None)
  /\ (exists st,
        askQuestions ciEnv
          (set_engine (Some "context") (set_openAiKey (Some "sk-test") noArgs))
          contextPreferences = Returned tt st
        /\ engine (program st) = Some "context"
        /\ dataSource (program st) = Some (mkDataSource "folder" emptyConfig))
  /\ (exists st,
        askQuestions ciEnv
          (set_engine (Some "simple") (set_openAiKey (Some "sk-test") noArgs))
          noArgs = Returned tt st
        /\ engine (program st) = Some "simple"
        /\ dataSource (program st) = Some (mkDataSource "none" emptyConfig)).
Proof. evaluate. Qed.

(** ** Composition *)

Lemma triple_bind {A B : Type} (P : State -> Prop) (Q : A -> State -> Prop)
  (R : B -> State -> Prop) (X : Z -> State -> Prop)
  (m : M A) (k : A -> M B) :
  triple P m Q X ->
  (forall a, triple (Q a) (k a) R X) ->
  triple P (bind m k) R X.
Proof.
  intros Hm Hk s HP. unfold bind. specialize (Hm s HP).
  destruct (m s) as [a s'|c s']; [apply (Hk a s' Hm) | exact Hm].
Qed.

(** Case analysis along one step of the flow. *)
Ltac flow_cases :=
  repeat (simpl;
          match goal with
          | |- context [match ?r with Answer _ => _ | Abort => _ end] =>
              destruct r eqn:?
          | |- context [if ?b then _ else _] => destruct b eqn:?
          | |- context [match ?o with Some _ => _ | None => _ end] =>
              destruct o eqn:?
          end).

(** The same, with the cases of who shares the data-source descriptor. *)
Ltac flow_cases_sharing :=
  repeat (simpl;
          match goal with
          | |- context [match ?r with Answer _ => _ | Abort => _ end] =>
              destruct r eqn:?
          | |- context [if ?b then _ else _] => destruct b eqn:?
          | |- context [match ?o with Some _ => _ | None => _ end] =>
              destruct o eqn:?
          | |- context [match sharing ?s with Own => _ | _ => _ end] =>
              destruct (sharing s) eqn:?
          end).

Ltac unfold_steps :=
  unfold resolveTemplate, communityFlow, llamapackFlow,
    resolveFramework, resolveFrontend, resolveUi, resolveModel,
    resolveEmbeddingModel, resolveFiles, resolveEngine, resolveLlamaParse,
    resolveBaseUrl, resolveVectorDb, resolveTools, resolveOpenAiKey,
    resolveEslint, selectLocalContextData, askPostInstallAction.

(** A step of the flow proved by running through its branches. *)
Ltac step_by_cases tac :=
  let s := fresh "s" in
  let HP := fresh "HP" in
  intros s HP; unfold_steps; unfold_flow; flow_cases; tac.

(** ** The template is settled by the first step *)

(** A chain of steps that all keep [inv]. *)
Ltac chain inv :=
  lazymatch goal with
  | |- triple _ (bind _ _) _ _ =>
      eapply triple_bind with (Q := fun _ => inv); [ | intros _; chain inv ]
  | _ => idtac
  end.

Lemma standardFlow_keeps_template (env : Env) (t : option string) :
  triple (templateIs t) (standardFlow env) (fun _ => templateIs t) anyExit.
Proof.
  unfold standardFlow. chain (templateIs t).
  all: step_by_cases ltac:(unfold templateIs, anyExit in *; simpl; auto).
Qed.

Lemma llamapackFlow_keeps_template (env : Env) (t : option string) :
  triple (templateIs t) (llamapackFlow env) (fun _ => templateIs t) anyExit.
Proof.
  step_by_cases ltac:(unfold templateIs, anyExit in *; simpl; auto).
Qed.

Lemma set_template_same (p : QuestionArgs) (t : option string) :
  template p = t -> set_template t p = p.
Proof. intros <-. destruct p. reflexivity. Qed.

(** What the first step leaves behind when it returns. *)
Lemma resolveTemplate_returned (env : Env) (p prefs : QuestionArgs)
  (s1 : State) :
  resolveTemplate env (init p prefs) = Returned tt s1 ->
  program s1 = set_template (template (program s1)) p
  /\ defaultsObj s1 = defaults /\ sharing s1 = Own.
Proof.
  unfold resolveTemplate. unfold_flow. unfold init.
  flow_cases; intros H1; inversion H1; subst; simpl in *; auto.
  all: rewrite set_template_same; auto.
Qed.

(** ** The community template *)

Lemma askQuestions_community (env : Env) (p prefs : QuestionArgs)
  (s1 : State) :
  resolveTemplate env (init p prefs) = Returned tt s1 ->
  template (program s1) = Some "community" ->
  askQuestions env p prefs = communityFlow env s1.
Proof.
  intros H1 Ht. unfold askQuestions, askQuestionsBody, bind, getProgram.
  rewrite H1. apply isS_true in Ht. rewrite Ht. reflexivity.
Qed.

(** C6: when the template step leaves "community", the run shows the
    community selection and nothing else; with an answer it returns at
    once, the input configuration changed in [template] and
    [communityProjectPath] only; with an abort it exits. *)
Theorem community_only (env : Env) (p prefs : QuestionArgs) (s1 : State) :
  resolveTemplate env (init p prefs) = Returned tt s1 ->
  template (program s1) = Some "community" ->
  match onSelect env Q_communityProjectPath with
  | Answer a =>
      askQuestions env p prefs
      = Returned tt
          (mkState
             (set_communityProjectPath (Some a)
                (set_template (Some "community") p))
             (set_communityProjectPath (Some a) (preferences s1))
             defaults Own
             (trace s1
              ++ [Prompted Q_communityProjectPath (getRepoRootFolders env)]))
  | Abort =>
      exists st, askQuestions env p prefs = Exited 1 st
                 /\ program st = set_template (Some "community") p
  end.
Proof.
  intros H1 Ht.
  rewrite (askQuestions_community env p prefs s1 H1 Ht).
  destruct (resolveTemplate_returned env p prefs s1 H1) as [Hp [Hd Hs]].
  rewrite Ht in Hp.
  unfold communityFlow. unfold_flow.
  destruct (onSelect env Q_communityProjectPath) as [a|]; simpl.
  - rewrite Hp, Hd, Hs. reflexivity.
  - eexists. split; [reflexivity | exact Hp].
Qed.

Lemma community_only_witness :
  askQuestions interactiveEnv communityArgs noArgs
  = Returned tt
      (mkState
         (set_communityProjectPath (Some "sec-insights")
            (set_template (Some "community") communityArgs))
         (set_communityProjectPath (Some "sec-insights") noArgs)
         defaults Own
         [Prompted Q_communityProjectPath ["sec-insights"; "chat-llamaindex"]]).
Proof.
  exact (community_only interactiveEnv communityArgs noArgs
           (init communityArgs noArgs) eq_refl eq_refl).
Defined.

(** Seen from the result alone: a run that returns with the community
    template has changed nothing but [template] and
    [communityProjectPath]. *)
Lemma community_result (env : Env) (p prefs : QuestionArgs) (st : State) :
  askQuestions env p prefs = Returned tt st ->
  template (program st) = Some "community" ->
  program st
  = set_communityProjectPath (communityProjectPath (program st))
      (set_template (Some "community") p).
Proof.
  intros Hrun Ht.
  destruct (resolveTemplate env (init p prefs)) as [[] s1|c s1] eqn:H1.
  - destruct (isS (template (program s1)) "community") eqn:Ec.
    + apply isS_true in Ec.
      rewrite (askQuestions_community env p prefs s1 H1 Ec) in Hrun.
      destruct (resolveTemplate_returned env p prefs s1 H1) as [Hp _].
      rewrite Ec in Hp. revert Hrun. unfold communityFlow. unfold_flow.
      destruct (onSelect env Q_communityProjectPath) as [a|]; simpl;
        intros Hrun; inversion Hrun. simpl. rewrite Hp. reflexivity.
    + exfalso. unfold askQuestions, askQuestionsBody in Hrun.
      unfold bind at 1 in Hrun. rewrite H1 in Hrun.
      unfold bind at 1 in Hrun. unfold getProgram at 1 in Hrun.
      rewrite Ec in Hrun.
      assert (Hk : templateIs (template (program s1)) st).
      { destruct (isS (template (program s1)) "llamapack").
        - pose proof (llamapackFlow_keeps_template env _ s1 eq_refl) as H.
          rewrite Hrun in H. exact H.
        - pose proof (standardFlow_keeps_template env _ s1 eq_refl) as H.
          rewrite Hrun in H. exact H. }
      unfold templateIs in Hk. rewrite Ht in Hk. rewrite <- Hk in Ec.
      discriminate.
  - unfold askQuestions, askQuestionsBody in Hrun.
    unfold bind at 1 in Hrun. rewrite H1 in Hrun. discriminate.
Qed.

(** ** Inputs that leave nothing to resolve *)

Section Skips.
Variable env : Env.
Variable s : State.
















End Skips.




(** A second way it fails: the base URL of a website source is asked for
    even when the descriptor already carries one. *)
Example all_supplied_web_still_prompts :
  exists st,
    askQuestions interactiveEnv
      (set_dataSource
         (Some (mkDataSource "web" (webConfig "https://docs.llamaindex.ai")))
         settledArgs) noArgs = Returned tt st
    /\ prompted st = [Q_baseUrl]
    /\ dataSource (program st)
       = Some (mkDataSource "web" (webConfig "https://www.example.com")).
Proof. evaluate. Qed.

(** ** Resolution in CI *)

Lemma promptsOf_app (t u : list Event) :
  promptsOf (t ++ u) = (promptsOf t ++ promptsOf u)%list.
Proof. unfold promptsOf. apply flat_map_app. Qed.

(** A chain of steps, the invariant moving on by one stage per step. *)
Ltac chain_from inv k :=
  lazymatch goal with
  | |- triple _ (bind _ _) _ _ =>
      eapply triple_bind with (Q := fun _ => inv (S k));
      [ | intros _; chain_from inv (S k) ]
  | _ => idtac
  end.

(** Rewrite with the conditions of the branch at hand. *)
Ltac use_branch_facts :=
  repeat match goal with
         | E : ?c = true |- context [?c] =>
             lazymatch c with true => fail | false => fail | _ => rewrite E end
         | E : ?c = false |- context [?c] =>
             lazymatch c with true => fail | false => fail | _ => rewrite E end
         end.

(** The prompts of a trace that grew by a few events. *)
Ltac trace_goal :=
  unfold onlyUngated, prompted in *; simpl;
  rewrite ?promptsOf_app, ?forallb_app; simpl;
  rewrite ?andb_true_r; auto.

Lemma communityFlow_keeps_template (env : Env) (t : option string) :
  triple (templateIs t) (communityFlow env) (fun _ => templateIs t) anyExit.
Proof.
  step_by_cases ltac:(unfold templateIs, anyExit in *; simpl; auto).
Qed.

Section Ci.

Variable env : Env.
Hypothesis Hci : isCI env = true.
Variables p0 prefs0 : QuestionArgs.

(** One step of the standard flow takes [ciInv k] to [ciInv (k+1)]: the
    properties of the other steps are untouched, and the step's own is
    resolved as its branch conditions say. *)
Ltac ci_step :=
  let s := fresh "s" in
  let HP := fresh "HP" in
  intros s HP; unfold_steps; unfold_flow; rewrite ?Hci;
  unfold ciInv, ciFrame, atStage in HP; simpl in HP;
  destruct HP as ((Hdef & Hsh & Pt & Pfw & Pfe & Pui & Pmo & Pem & Pen & Pvd
                   & Pto & Pes & Ppa & Htr)
                  & It & Ifw & Ife & Iui & Imo & Iem & Ien & Ivd & Ito & Ies
                  & Ipa);
  rewrite ?Hsh, ?Hdef, ?Pt, ?Pfw, ?Pfe, ?Pui, ?Pmo, ?Pem, ?Pen, ?Pvd, ?Pto,
    ?Pes, ?Ppa;
  flow_cases;
  try (trace_goal; fail);
  unfold ciInv, ciFrame, atStage; simpl;
  rewrite ?Hsh, ?Hdef;
  repeat split; try assumption; try (trace_goal; fail);
  unfold ciTemplate, ciFramework, ciFrontend, ciUi, ciModel, ciEmbeddingModel,
    ciEngine, ciVectorDb, ciTools, ciEslint, ciPostInstallAction, stored;
  simpl;
  rewrite <- ?Ifw, <- ?Ife, <- ?Iui, <- ?Imo, <- ?Iem, <- ?Ien, <- ?Ivd,
    <- ?Ito, <- ?Ies, <- ?Ipa;
  use_branch_facts; simpl; try congruence.

Lemma ci_standardFlow :
  triple (ciInv p0 prefs0 1) (standardFlow env) (fun _ => ciInv p0 prefs0 15)
    (fun _ => onlyUngated).
Proof.
  unfold standardFlow. chain_from (ciInv p0 prefs0) 1%nat.
  all: ci_step.
Qed.

Lemma ci_resolveTemplate :
  match resolveTemplate env (init p0 prefs0) with
  | Returned _ s => ciInv p0 prefs0 1 s
  | Exited _ s => onlyUngated s
  end.
Proof.
  unfold_steps; unfold_flow. rewrite Hci. unfold init. flow_cases.
  all: unfold ciInv, ciFrame, atStage, onlyUngated, ciTemplate, stored; simpl;
    use_branch_facts; repeat split; reflexivity.
Qed.

Lemma ci_earlyFlows (s : State) :
  ciInv p0 prefs0 1 s ->
  onlyUngated (final (communityFlow env s))
  /\ onlyUngated (final (llamapackFlow env s)).
Proof.
  intros HP. unfold_steps; unfold_flow. rewrite Hci.
  unfold ciInv, ciFrame in HP.
  destruct HP as ((_ & _ & _ & _ & _ & _ & _ & _ & _ & _ & _ & _ & _ & Htr)
                  & _).
  split; flow_cases; trace_goal.
Qed.

Lemma ci_run :
  match askQuestions env p0 prefs0 with
  | Returned _ st =>
      onlyUngated st
      /\ template (program st) = ciTemplate p0 prefs0
      /\ (isS (template (program st)) "community" = false ->
          isS (template (program st)) "llamapack" = false ->
          ciInv p0 prefs0 15 st)
  | Exited _ st => onlyUngated st
  end.
Proof.
  pose proof ci_resolveTemplate as H1.
  unfold askQuestions, askQuestionsBody.
  unfold bind at 1.
  destruct (resolveTemplate env (init p0 prefs0)) as [[] s1|c s1];
    [|exact H1].
  unfold bind at 1. unfold getProgram at 1.
  destruct (ci_earlyFlows s1 H1) as [Hc Hl].
  pose proof (ci_standardFlow s1 H1) as Hs.
  assert (Ht1 : template (program s1) = ciTemplate p0 prefs0)
    by (destruct H1 as (_ & Ht & _); exact Ht).
  pose proof (standardFlow_keeps_template env _ s1 eq_refl) as Hk.
  pose proof (llamapackFlow_keeps_template env _ s1 eq_refl) as Hkl.
  pose proof (communityFlow_keeps_template env _ s1 eq_refl) as Hkc.
  unfold templateIs in *.
  destruct (isS (template (program s1)) "community") eqn:Ec;
    [| destruct (isS (template (program s1)) "llamapack") eqn:El ].
  - destruct (communityFlow env s1) as [[] s2|c s2]; simpl in *; [|exact Hc].
    rewrite Hkc. split; [exact Hc|]. split; [exact Ht1 | congruence].
  - destruct (llamapackFlow env s1) as [[] s2|c s2]; simpl in *; [|exact Hl].
    rewrite Hkl. split; [exact Hl|]. split; [exact Ht1 | congruence].
  - destruct (standardFlow env s1) as [[] s2|c s2]; simpl in *; [|exact Hs].
    rewrite Hk. split; [|split; [exact Ht1 | intros _ _; exact Hs]].
    destruct Hs as ((_ & _ & _ & _ & _ & _ & _ & _ & _ & _ & _ & _ & _ & Htr)
                    & _).
    exact Htr.
Qed.

(** C3, as amended: in CI the only prompts that can be shown are the four
    that no CI check guards (community template, LlamaPack, website base
    URL, primary key); and when the run returns, the template and, in the
    standard flow, every property whose step has a CI branch is the input's
    value, or, where the input left it unset and the step applies, the
    stored preference when present and else the hardcoded default. *)
Theorem ci_resolution :
  (forall q, In q (prompted (final (askQuestions env p0 prefs0))) ->
             ungated q = true)
  /\ (forall st,
        askQuestions env p0 prefs0 = Returned tt st ->
        let q := program st in
        template q = ciTemplate p0 prefs0
        /\ (isS (template q) "community" = false ->
            isS (template q) "llamapack" = false ->
            framework q = ciFramework p0 prefs0
            /\ frontend q = ciFrontend p0 prefs0 q
            /\ ui q = ciUi p0 prefs0 q
            /\ model q = ciModel p0 prefs0
            /\ embeddingModel q = ciEmbeddingModel p0 prefs0 q
            /\ engine q = ciEngine p0 prefs0
            /\ vectorDb q = ciVectorDb p0 prefs0 q
            /\ tools q = ciTools p0 prefs0 q
            /\ eslint q = ciEslint p0 prefs0 q
            /\ postInstallAction q = ciPostInstallAction p0 prefs0)).
Proof.
  pose proof ci_run as H.
  destruct (askQuestions env p0 prefs0) as [[] s|c s]; simpl.
  - destruct H as (Htr & Ht & Hs). split.
    + intros q Hq. unfold onlyUngated in Htr.
      rewrite forallb_forall in Htr. auto.
    + intros st Hst. inversion Hst; subst st. split; [exact Ht|].
      intros Hc Hl. specialize (Hs Hc Hl).
      unfold ciInv, atStage in Hs. simpl in Hs.
      destruct Hs as (_ & _ & Hrest). exact Hrest.
  - split.
    + intros q Hq. unfold onlyUngated in H.
      rewrite forallb_forall in H. auto.
    + intros st Hst. discriminate.
Qed.
End Ci.

Lemma ci_resolution_witness :
  (forall q,
      In q (prompted (final (askQuestions ciEnv noArgs contextPreferences))) ->
      ungated q = true)
  /\ (forall st,
        askQuestions ciEnv noArgs contextPreferences = Returned tt st ->
        let q := program st in
        template q = ciTemplate noArgs contextPreferences
        /\ (isS (template q) "community" = false ->
            isS (template q) "llamapack" = false ->
            framework q = ciFramework noArgs contextPreferences
            /\ frontend q = ciFrontend noArgs contextPreferences q
            /\ ui q = ciUi noArgs contextPreferences q
            /\ model q = ciModel noArgs contextPreferences
            /\ embeddingModel q = ciEmbeddingModel noArgs contextPreferences q
            /\ engine q = ciEngine noArgs contextPreferences
            /\ vectorDb q = ciVectorDb noArgs contextPreferences q
            /\ tools q = ciTools noArgs contextPreferences q
            /\ eslint q = ciEslint noArgs contextPreferences q
            /\ postInstallAction q
               = ciPostInstallAction noArgs contextPreferences)).
Proof.
  exact (ci_resolution ciEnv eq_refl noArgs contextPreferences).
Defined.

(** C3 as stated fails: a CI run on an empty input still asks for the
    primary key, and leaves the data source unset although [defaults]
    carries one. *)
Lemma ci_run_asks_for_key :
  isCI ciEnv = true
  /\ exists st,
       askQuestions ciEnv noArgs noArgs = Returned tt st
       /\ prompted st = [Q_key]
       /\ dataSource (program st) = None
       /\ dataSource defaults = Some (mkDataSource "none" emptyConfig).
Proof. evaluate. Qed.

(** The values of that run. *)
Example ci_run_values :
  exists st,
    askQuestions ciEnv noArgs contextPreferences = Returned tt st
    /\ template (program st) = Some "streaming"
    /\ framework (program st) = Some "nextjs"
    /\ engine (program st) = Some "context"
    /\ vectorDb (program st) = Some "none"
    /\ postInstallAction (program st) = Some "dependencies".
Proof. evaluate. Qed.

(** ** Traces *)

Arguments promptsOf : simpl never.
Arguments checkBaseUrl : simpl never.

Lemma promptsOf_Prompted (q : PromptName) (c : list string) :
  promptsOf [Prompted q c] = [q].
Proof. reflexivity. Qed.

Lemma promptsOf_ConsoleLog (m : string) : promptsOf [ConsoleLog m] = [].
Proof. reflexivity. Qed.

Lemma promptsOf_ConsoleError (m : string) : promptsOf [ConsoleError m] = [].
Proof. reflexivity. Qed.

Lemma promptsOf_StdoutWrite (m : string) : promptsOf [StdoutWrite m] = [].
Proof. reflexivity. Qed.

Lemma promptsOf_Executed (x : Script) : promptsOf [Executed x] = [].
Proof. reflexivity. Qed.

(** The prompts of a trace that grew by a few events, by rewriting. *)
Ltac norm_prompts :=
  rewrite ?promptsOf_app, ?promptsOf_Prompted, ?promptsOf_ConsoleLog,
    ?promptsOf_ConsoleError, ?promptsOf_StdoutWrite, ?promptsOf_Executed,
    ?app_nil_r.

(** Rewrite with the operator's responses of the branch at hand. *)
Ltac use_answers :=
  repeat match goal with
         | E : ?r = Answer _ |- context [?r] => rewrite E
         | E : ?r = Abort |- context [?r] => rewrite E
         end.

(** ** Every prompt but the tool selection exits on abort *)

Section Aborts.

Variable env : Env.

Ltac abort_close HP :=
  unfold noAbortSurvived, exitsWith, prompted in *;
  simpl; norm_prompts; rewrite ?forallb_app, ?HP;
  cbn [forallb andb]; unfold aborts; use_answers; reflexivity.

Ltac abort_step :=
  let s := fresh "s" in
  let HP := fresh "HP" in
  intros s HP; unfold_steps; unfold_flow;
  flow_cases; abort_close HP.

Lemma abort_standardFlow :
  triple (noAbortSurvived env) (standardFlow env)
    (fun _ => noAbortSurvived env) (exitsWith 1).
Proof.
  unfold standardFlow. chain (noAbortSurvived env).
  all: abort_step.
Qed.

Lemma abort_run (p prefs : QuestionArgs) :
  match askQuestions env p prefs with
  | Returned _ st => noAbortSurvived env st
  | Exited c _ => c = 1%Z
  end.
Proof.
  unfold askQuestions, askQuestionsBody.
  assert (H : triple (noAbortSurvived env)
                (resolveTemplate env ;;
                 p <- getProgram ;;
                 if isS (template p) "community" then communityFlow env
                 else if isS (template p) "llamapack" then llamapackFlow env
                 else standardFlow env)
                (fun _ => noAbortSurvived env) (exitsWith 1)).
  { eapply triple_bind with (Q := fun _ => noAbortSurvived env);
      [abort_step|]. intros u s Hs. unfold bind, getProgram.
    destruct (isS (template (program s)) "community");
      [| destruct (isS (template (program s)) "llamapack") ].
    - revert s Hs. abort_step.
    - revert s Hs. abort_step.
    - apply abort_standardFlow, Hs. }
  apply (H (init p prefs)). reflexivity.
Qed.

(** The sibling prompts do what C8 says: a run in which a prompt other
    than the tool selection is shown and aborted ends with status 1. *)
Theorem abort_exits_except_tools (p prefs : QuestionArgs) (q : PromptName) :
  In q (prompted (final (askQuestions env p prefs))) ->
  aborts env q = true ->
  q <> Q_toolsName ->
  exists st, askQuestions env p prefs = Exited 1 st.
Proof.
  intros Hin Hab Hq. pose proof (abort_run p prefs) as H.
  destruct (askQuestions env p prefs) as [[] st|c st]; simpl in *.
  - exfalso. unfold noAbortSurvived in H. rewrite forallb_forall in H.
    specialize (H q Hin). rewrite Hab in H. simpl in H.
    destruct (PromptName_eq_dec q Q_toolsName); [contradiction|discriminate].
  - subst c. exists st. reflexivity.
Qed.
End Aborts.

(** ** Where the answers go *)

Lemma shownBefore_bound (k : nat) (s : State) (q : PromptName) :
  shownBefore k s -> In q (prompted s) -> (stageOf q <? k)%nat = true.
Proof.
  unfold shownBefore. rewrite forallb_forall. intros H Hq. apply H, Hq.
Qed.

Lemma shownBefore_mono (k k' : nat) (s : State) :
  shownBefore k s -> (k <=? k')%nat = true ->
  forallb (fun q => (stageOf q <? k')%nat) (promptsOf (trace s)) = true.
Proof.
  unfold shownBefore, prompted. rewrite !forallb_forall. intros H Hk q Hq.
  specialize (H q Hq). apply Nat.leb_le in Hk. apply Nat.ltb_lt in H.
  apply Nat.ltb_lt. lia.
Qed.

Section Kept.

Variable env : Env.

(** What [shownBefore k] says of each prompt: those of stage [k] and later
    have not been shown. *)
Ltac stage_bounds Hst :=
  pose proof (shownBefore_bound _ _ Q_template Hst) as B1;
  pose proof (shownBefore_bound _ _ Q_communityProjectPath Hst) as B2;
  pose proof (shownBefore_bound _ _ Q_llamapack Hst) as B3;
  pose proof (shownBefore_bound _ _ Q_framework Hst) as B4;
  pose proof (shownBefore_bound _ _ Q_frontend Hst) as B5;
  pose proof (shownBefore_bound _ _ Q_ui Hst) as B6;
  pose proof (shownBefore_bound _ _ Q_model Hst) as B7;
  pose proof (shownBefore_bound _ _ Q_embeddingModel Hst) as B8;
  pose proof (shownBefore_bound _ _ Q_vectorDb Hst) as B9;
  pose proof (shownBefore_bound _ _ Q_toolsName Hst) as B10;
  pose proof (shownBefore_bound _ _ Q_key Hst) as B11;
  pose proof (shownBefore_bound _ _ Q_eslint Hst) as B12;
  pose proof (shownBefore_bound _ _ Q_llamaCloudKey Hst) as B13;
  pose proof (shownBefore_bound _ _ Q_action Hst) as B14;
  pose proof (shownBefore_bound _ _ Q_useLlamaParse Hst) as B15;
  pose proof (shownBefore_bound _ _ Q_baseUrl Hst) as B16;
  cbv [stageOf Nat.ltb Nat.leb] in B1, B2, B3, B4, B5, B6, B7, B8, B9, B10,
    B11, B12, B13, B14, B15, B16.

(** One conjunct of [answersKept] after a step: the prompt was shown
    either before the step, and then what held still holds, or by the step
    itself, which has just written the answer. *)
Ltac kept_conj :=
  let Hin := fresh "Hin" in
  intros Hin; rewrite ?in_app_iff in Hin; simpl in Hin;
  repeat match goal with
         | H : _ \/ _ |- _ => destruct H
         | H : False |- _ => destruct H
         end;
  try congruence;
  repeat match goal with
         | Hi : In ?q ?l, HP : In ?q ?l -> _ |- _ => specialize (HP Hi)
         end;
  try congruence;
  repeat match goal with H : _ /\ _ |- _ => destruct H end;
  try (split; congruence);
  unfold dataSourceTypeIs, dataSourceUseLlamaParse in *;
  try match goal with
      | |- context [dataSource (program ?s)] =>
          destruct (dataSource (program s)) as [[? [? ? ? ?]]|] eqn:?
      end;
  repeat match goal with
         | Heq : dataSource _ = _ |- _ => rewrite Heq in *; clear Heq
         end;
  simpl in *;
  repeat match goal with
         | H : (_ || _)%bool = true |- _ => apply orb_prop in H; destruct H
         | H : (_ && _)%bool = true |- _ => apply andb_prop in H; destruct H
         | H : (?x =? _)%string = true |- _ =>
             apply String.eqb_eq in H; try subst x; try rewrite H in *
         end;
  simpl in *;
  try congruence; try (split; congruence).

Ltac kept_close Hst :=
  split;
  [ unfold shownBefore, prompted; simpl; norm_prompts;
    rewrite ?forallb_app; simpl;
    rewrite (shownBefore_mono _ _ _ Hst) by (cbv; reflexivity); reflexivity
  | unfold answersKept, inBoth, prompted; simpl;
    norm_prompts; use_answers; simpl;
    repeat match goal with |- _ /\ _ => split end; kept_conj ].

Ltac kept_step :=
  let s := fresh "s" in
  let HP := fresh "HP" in
  intros s HP; unfold_steps; unfold_flow;
  destruct HP as [Hst HP];
  stage_bounds Hst;
  unfold answersKept, inBoth, prompted in HP; cbv zeta in HP;
  destruct HP as (K1 & K2 & K3 & K4 & K5 & K6 & K7 & K8 & K9 & K10 & K11
                  & K12 & K13 & K14 & K15 & K16);
  unfold prompted in *;
  flow_cases_sharing;
  try exact I;
  kept_close Hst.

Lemma kept_standardFlow :
  triple (keptBefore env 1) (standardFlow env)
    (fun _ => keptBefore env 15) anyExit.
Proof.
  unfold standardFlow. chain_from (keptBefore env) 1%nat.
  all: kept_step.
Qed.

Lemma kept_communityFlow :
  triple (keptBefore env 1) (communityFlow env)
    (fun _ => keptBefore env 15) anyExit.
Proof. kept_step. Qed.

Lemma kept_llamapackFlow :
  triple (keptBefore env 1) (llamapackFlow env)
    (fun _ => keptBefore env 15) anyExit.
Proof. kept_step. Qed.

Lemma kept_resolveTemplate (p0 prefs0 : QuestionArgs) :
  triple (fun s => s = init p0 prefs0) (resolveTemplate env)
    (fun _ => keptBefore env 1) anyExit.
Proof.
  intros s Hs. cbv beta in Hs. subst s.
  unfold_steps; unfold_flow. unfold init.
  flow_cases; try exact I;
    (split;
     [ reflexivity
     | unfold answersKept, inBoth, prompted; simpl; use_answers; simpl;
       repeat match goal with |- _ /\ _ => split end;
       intros Hin; simpl in Hin;
       repeat match goal with
              | H : _ \/ _ |- _ => destruct H
              | H : False |- _ => destruct H
              end;
       try congruence; try (split; congruence) ]).
Qed.

(** C7, as amended: when the run returns, the answer given at each of the
    prompts for template, community template, LlamaPack, framework,
    frontend, UI, model, embedding model, vector database, tools, primary
    key and ESLint is in the configuration and in the preferences; the
    answers for the LlamaCloud key and the post-install action are in the
    configuration, and those for the LlamaParse toggle and the base URL in
    its data-source descriptor. *)
Theorem answers_kept (p0 prefs0 : QuestionArgs) (st : State) :
  askQuestions env p0 prefs0 = Returned tt st ->
  answersKept env st.
Proof.
  unfold askQuestions, askQuestionsBody. intros Hrun.
  assert (H : triple (fun s => s = init p0 prefs0)
                (resolveTemplate env ;;
                 p <- getProgram ;;
                 if isS (template p) "community" then communityFlow env
                 else if isS (template p) "llamapack" then llamapackFlow env
                 else standardFlow env)
                (fun _ => keptBefore env 15) anyExit).
  { eapply triple_bind; [apply kept_resolveTemplate|]. intros u.
    intros s Hs. unfold bind, getProgram.
    destruct (isS (template (program s)) "community");
      [| destruct (isS (template (program s)) "llamapack") ].
    - apply kept_communityFlow, Hs.
    - apply kept_llamapackFlow, Hs.
    - apply kept_standardFlow, Hs. }
  specialize (H (init p0 prefs0) eq_refl). rewrite Hrun in H.
  destruct H as [_ H]. exact H.
Qed.
End Kept.

Lemma answers_kept_witness :
  answersKept interactiveEnv
    (final (askQuestions interactiveEnv fastapiContextArgs noArgs)).
Proof.
  apply (answers_kept interactiveEnv fastapiContextArgs noArgs).
  vm_compute. reflexivity.
Defined.

(** C7 as stated fails: the LlamaCloud key and the post-install action are
    asked for and written to the configuration, and the preferences do not
    get them. *)
Lemma key_and_action_not_in_preferences :
  exists st,
    askQuestions interactiveEnv fastapiContextArgs noArgs = Returned tt st
    /\ prompted st
       = [Q_template; Q_frontend; Q_ui; Q_model; Q_embeddingModel;
          Q_useLlamaParse; Q_llamaCloudKey; Q_vectorDb; Q_toolsName; Q_key;
          Q_action]
    /\ llamaCloudKey (program st) = Some "llx-test"
    /\ llamaCloudKey (preferences st) = None
    /\ postInstallAction (program st) = Some "dependencies"
    /\ postInstallAction (preferences st) = None.
Proof. evaluate. Qed.

(** ** Whole runs

    A property of every run follows from one of the template step, one of
    each early-return branch and one of the standard flow. *)
Lemma askQuestions_triple (env : Env) (p prefs : QuestionArgs)
  (I1 Q : State -> Prop) (X : Z -> State -> Prop) :
  triple (fun s => s = init p prefs) (resolveTemplate env) (fun _ => I1) X ->
  triple (fun s => I1 s /\ isS (template (program s)) "community" = true)
    (communityFlow env) (fun _ => Q) X ->
  triple (fun s => I1 s /\ isS (template (program s)) "community" = false
                   /\ isS (template (program s)) "llamapack" = true)
    (llamapackFlow env) (fun _ => Q) X ->
  triple (fun s => I1 s /\ isS (template (program s)) "community" = false
                   /\ isS (template (program s)) "llamapack" = false)
    (standardFlow env) (fun _ => Q) X ->
  match askQuestions env p prefs with
  | Returned _ st => Q st
  | Exited c st => X c st
  end.
Proof.
  intros H1 Hc Hl Hs. unfold askQuestions, askQuestionsBody.
  unfold bind at 1. specialize (H1 (init p prefs) eq_refl).
  destruct (resolveTemplate env (init p prefs)) as [[] s1|c s1]; [|exact H1].
  unfold bind at 1. unfold getProgram at 1.
  destruct (isS (template (program s1)) "community") eqn:Ec;
    [| destruct (isS (template (program s1)) "llamapack") eqn:El ].
  - apply (Hc s1). auto.
  - apply (Hl s1). auto.
  - apply (Hs s1). auto.
Qed.

Lemma triple_weaken {A : Type} (P P' : State -> Prop) (m : M A)
  (Q : A -> State -> Prop) (X : Z -> State -> Prop) :
  (forall s, P' s -> P s) -> triple P m Q X -> triple P' m Q X.
Proof. intros HPP H s Hs. apply H, HPP, Hs. Qed.

Section Exits.
Variable env : Env.

Ltac exit_step :=
  step_by_cases ltac:(simpl;
                      first [ exact I
                            | split; [reflexivity
                                     | eexists _, _; split; reflexivity] ]).

Lemma exit_standardFlow :
  triple (fun _ => True) (standardFlow env) (fun _ _ => True) exitedWithMessage.
Proof.
  unfold standardFlow. chain (fun _ : State => True).
  all: exit_step.
Qed.

(** X9: whenever the flow ends the process, the status is 1 and the last
    thing it did was to print one of its exit messages (the cancel
    handler's, the cursor reset, or one of the four error reports). *)
Theorem exit_has_status_1_and_message (p prefs : QuestionArgs) (c : Z)
  (st : State) :
  askQuestions env p prefs = Exited c st ->
  c = 1%Z /\ exists t e, trace st = (t ++ [e])%list /\ exitMessage e = true.
Proof.
  intros Hrun.
  pose proof (askQuestions_triple env p prefs (fun _ => True) (fun _ => True)
                exitedWithMessage) as H.
  rewrite Hrun in H. apply H.
  - exit_step.
  - exit_step.
  - exit_step.
  - eapply triple_weaken; [|apply exit_standardFlow]. intros; exact I.
Qed.
End Exits.

Lemma exit_has_status_1_and_message_witness :
  1%Z = 1%Z
  /\ exists t e,
       trace (final (askQuestions ftpEnv webArgs noArgs)) = (t ++ [e])%list
       /\ exitMessage e = true.
Proof.
  apply (exit_has_status_1_and_message ftpEnv webArgs noArgs 1
           (final (askQuestions ftpEnv webArgs noArgs))).
  vm_compute. reflexivity.
Defined.


(** ** Nothing is asked after an abort *)

Lemma forallb_removelast {A : Type} (f : A -> bool) (l : list A) :
  forallb f l = true -> forallb f (removelast l) = true.
Proof.
  induction l as [|a l IH]; [reflexivity|]. intros H.
  apply andb_prop in H. destruct H as [H1 H2].
  destruct l as [|b l]; [reflexivity|].
  change (removelast (a :: b :: l)) with (a :: removelast (b :: l)).
  simpl forallb at 1. rewrite H1. apply IH, H2.
Qed.

Section AbortLast.
Variable env : Env.

Ltac last_close HP :=
  unfold noAbortSurvived, abortedAtMostLast, prompted in *;
  simpl; norm_prompts;
  lazymatch goal with
  | |- _ /\ _ =>
      split; [reflexivity|];
      first [ rewrite removelast_last | apply forallb_removelast ]
  | |- _ => idtac
  end;
  rewrite ?forallb_app, ?HP; cbn [forallb andb];
  unfold aborts; use_answers; reflexivity.

Ltac last_step :=
  let s := fresh "s" in
  let HP := fresh "HP" in
  intros s HP; unfold_steps; unfold_flow;
  flow_cases; last_close HP.

Lemma last_standardFlow :
  triple (noAbortSurvived env) (standardFlow env)
    (fun _ => noAbortSurvived env) (abortedAtMostLast env).
Proof.
  unfold standardFlow. chain (noAbortSurvived env).
  all: last_step.
Qed.

(** X10: when a prompt other than the tool selection is shown and
    aborted, the process ends with status 1 and that prompt is the last
    one shown: nothing is asked after an abort. *)
Theorem aborted_prompt_is_last (p prefs : QuestionArgs) (q : PromptName) :
  In q (prompted (final (askQuestions env p prefs))) ->
  aborts env q = true ->
  q <> Q_toolsName ->
  exists st shown,
    askQuestions env p prefs = Exited 1 st
    /\ prompted st = (shown ++ [q])%list.
Proof.
  intros Hin Hab Hq.
  pose proof (askQuestions_triple env p prefs (noAbortSurvived env)
                (noAbortSurvived env) (abortedAtMostLast env)) as H.
  assert (G : match askQuestions env p prefs with
              | Returned _ st => noAbortSurvived env st
              | Exited c st => abortedAtMostLast env c st
              end).
  { apply H.
    - intros s Hs. cbv beta in Hs. subst s. unfold_steps; unfold_flow.
      unfold init. flow_cases;
        unfold noAbortSurvived, abortedAtMostLast, prompted; simpl;
        try (split; [reflexivity|]); unfold aborts; use_answers; reflexivity.
    - intros s [HP _]. revert s HP. last_step.
    - intros s [HP _]. revert s HP. last_step.
    - eapply triple_weaken; [|apply last_standardFlow].
      intros s [HP _]. exact HP. }
  assert (Hbad : forall l, In q l ->
            forallb (fun q => negb (aborts env q)
                       || (if PromptName_eq_dec q Q_toolsName then true else false))
                    l = true -> False).
  { intros l Hl Hf. rewrite forallb_forall in Hf. specialize (Hf q Hl).
    rewrite Hab in Hf. simpl in Hf.
    destruct (PromptName_eq_dec q Q_toolsName); [contradiction|discriminate]. }
  destruct (askQuestions env p prefs) as [[] st|c st]; simpl in *.
  - exfalso. apply (Hbad _ Hin G).
  - destruct G as [-> G]. unfold prompted in *.
    destruct (promptsOf (trace st)) as [|q0 l] eqn:E; [destruct Hin|].
    assert (Hne : q0 :: l <> []) by discriminate.
    pose proof (app_removelast_last q Hne) as Hd.
    rewrite Hd in Hin. apply in_app_or in Hin. destruct Hin as [Hin|Hin].
    + exfalso. apply (Hbad _ Hin G).
    + destruct Hin as [Hin|[]]. exists st, (removelast (q0 :: l)).
      split; [reflexivity|]. rewrite E. rewrite Hin in Hd. exact Hd.
Qed.
End AbortLast.

Lemma aborted_prompt_is_last_witness :
  exists st shown,
    askQuestions abortTextEnv fastapiContextArgs noArgs = Exited 1 st
    /\ prompted st = (shown ++ [Q_llamaCloudKey])%list.
Proof.
  apply (aborted_prompt_is_last abortTextEnv fastapiContextArgs noArgs
           Q_llamaCloudKey);
    [ vm_compute; auto 20 | reflexivity | discriminate ].
Defined.

(** ** The order of the prompts *)

Lemma ascending_mono (lo lo' : nat) (l : list nat) :
  (lo' <= lo)%nat -> ascending lo l = true -> ascending lo' l = true.
Proof.
  destruct l as [|x r]; simpl; [reflexivity|]. intros Hle H.
  apply andb_prop in H. destruct H as [H1 H2]. rewrite H2, andb_true_r.
  apply Nat.leb_le in H1. apply Nat.leb_le. lia.
Qed.

Lemma ascending_app (lo k : nat) (l l2 : list nat) :
  ascending lo l = true -> forallb (fun r => (r <? k)%nat) l = true ->
  ascending k l2 = true -> (lo <= k)%nat ->
  ascending lo (l ++ l2) = true.
Proof.
  revert lo. induction l as [|x r IH]; intros lo Ha Hb H2 Hle; simpl in *.
  - apply (ascending_mono k); assumption.
  - apply andb_prop in Ha. destruct Ha as [A1 A2].
    apply andb_prop in Hb. destruct Hb as [B1 B2].
    rewrite A1. simpl. apply IH; auto. apply Nat.ltb_lt in B1. lia.
Qed.

Lemma ordered_app (k k' : nat) (l l2 : list PromptName) :
  ordered k l ->
  ascending k (map promptRank l2) = true ->
  forallb (fun q => (promptRank q <? k')%nat) l2 = true ->
  (k <=? k')%nat = true ->
  ordered k' (l ++ l2).
Proof.
  intros [Ha Hb] H2 H3 Hle. apply Nat.leb_le in Hle. split.
  - rewrite map_app. apply (ascending_app 0 k); auto; [|lia].
    rewrite forallb_forall in *. intros r Hr. apply in_map_iff in Hr.
    destruct Hr as [q [<- Hq]]. apply Hb, Hq.
  - rewrite forallb_app, H3, andb_true_r.
    rewrite forallb_forall in *. intros q Hq. specialize (Hb q Hq).
    apply Nat.ltb_lt in Hb. apply Nat.ltb_lt. lia.
Qed.

Lemma ordered_mono (k k' : nat) (l : list PromptName) :
  ordered k l -> (k <=? k')%nat = true -> ordered k' l.
Proof.
  intros H Hle. rewrite <- (app_nil_r l).
  apply (ordered_app k k'); auto.
Qed.

Lemma ascending_sorted (lo : nat) (l : list nat) :
  ascending lo l = true ->
  StronglySorted lt l /\ Forall (fun x => (lo <= x)%nat) l.
Proof.
  revert lo. induction l as [|x r IH]; intros lo H; simpl in *.
  - split; constructor.
  - apply andb_prop in H. destruct H as [H1 H2]. apply Nat.leb_le in H1.
    destruct (IH _ H2) as [S1 S2]. split.
    + constructor; [exact S1|]. eapply Forall_impl; [|exact S2].
      intros a Ha. simpl in Ha. lia.
    + constructor; [exact H1|]. eapply Forall_impl; [|exact S2].
      intros a Ha. simpl in Ha. lia.
Qed.

Section Order.
Variable env : Env.

Ltac order_close HP :=
  unfold orderedAtExit, orderedBefore, prompted in *; simpl; norm_prompts;
  rewrite <- ?app_assoc;
  first [ eapply ordered_app; [exact HP | reflexivity | reflexivity | reflexivity]
        | eapply ordered_mono; [exact HP | reflexivity] ].

Ltac order_step :=
  let s := fresh "s" in
  let HP := fresh "HP" in
  intros s HP; unfold_steps; unfold_flow; flow_cases; order_close HP.

Lemma order_standardFlow :
  triple (orderedBefore 1) (standardFlow env) (fun _ => orderedBefore 15)
    orderedAtExit.
Proof.
  unfold standardFlow. chain_from orderedBefore 1%nat.
  all: order_step.
Qed.

Lemma order_run (p prefs : QuestionArgs) :
  orderedBefore 15 (final (askQuestions env p prefs)).
Proof.
  pose proof (askQuestions_triple env p prefs (orderedBefore 1)
                (orderedBefore 15) orderedAtExit) as H.
  assert (G : match askQuestions env p prefs with
              | Returned _ st => orderedBefore 15 st
              | Exited c st => orderedAtExit c st
              end).
  { apply H.
    - intros s Hs. cbv beta in Hs. subst s. unfold_steps; unfold_flow.
      unfold init. flow_cases;
        unfold orderedAtExit, orderedBefore, ordered, prompted; simpl;
        split; reflexivity.
    - intros s [HP _]. revert s HP. order_step.
    - intros s [HP _]. revert s HP. order_step.
    - eapply triple_weaken; [|apply order_standardFlow]. intros s [HP _]. exact HP. }
  destruct (askQuestions env p prefs); exact G.
Qed.

(** X11: in every run the prompts are shown in the order of the source
    text, and none is shown twice. *)
Theorem prompts_in_flow_order (p prefs : QuestionArgs) :
  StronglySorted lt
    (map promptRank (prompted (final (askQuestions env p prefs))))
  /\ NoDup (prompted (final (askQuestions env p prefs))).
Proof.
  destruct (order_run p prefs) as [Ha _].
  apply ascending_sorted in Ha. destruct Ha as [Hs _].
  split; [exact Hs|].
  apply (NoDup_map_inv promptRank).
  apply StronglySorted_Sorted in Hs.
  apply Sorted_StronglySorted in Hs; [|intros x y z; apply Nat.lt_trans].
  clear -Hs. induction Hs as [|a l Hs IH Hall]; constructor; [|exact IH].
  intros Hin. rewrite Forall_forall in Hall. specialize (Hall a Hin). lia.
Qed.
End Order.

(** ** What is never written *)

Section Untouched.
Variable env : Env.
Variables p0 prefs0 : QuestionArgs.

Ltac untouched_step :=
  let s := fresh "s" in
  let HP := fresh "HP" in
  intros s HP; unfold_steps; unfold_flow;
  unfold untouchedAtExit, untouched in *;
  destruct HP as (U1 & U2 & U3 & U4 & U5 & U6 & U7 & U8 & U9 & U10);
  flow_cases_sharing; simpl;
  repeat match goal with |- _ /\ _ => split end;
  first [ assumption | exact U10 ].

Lemma untouched_standardFlow :
  triple (untouched p0 prefs0) (standardFlow env)
    (fun _ => untouched p0 prefs0) (untouchedAtExit p0 prefs0).
Proof.
  unfold standardFlow. chain (untouched p0 prefs0).
  all: untouched_step.
Qed.

(** X12: no run writes [files], [llamaParse] or [externalPort] of the
    configuration; none stores the engine, the LlamaCloud key or the
    post-install action in the preferences; and of the [defaults] object
    nothing but the data-source descriptor can change. *)
Theorem never_written_properties :
  untouched p0 prefs0 (final (askQuestions env p0 prefs0)).
Proof.
  pose proof (askQuestions_triple env p0 prefs0 (untouched p0 prefs0)
                (untouched p0 prefs0) (untouchedAtExit p0 prefs0)) as H.
  assert (G : match askQuestions env p0 prefs0 with
              | Returned _ st => untouched p0 prefs0 st
              | Exited c st => untouchedAtExit p0 prefs0 c st
              end).
  { apply H.
    - intros s Hs. cbv beta in Hs. subst s. unfold_steps; unfold_flow.
      unfold init. flow_cases;
        unfold untouchedAtExit, untouched; simpl; repeat split; reflexivity.
    - intros s [HP _]. revert s HP. untouched_step.
    - intros s [HP _]. revert s HP. untouched_step.
    - eapply triple_weaken; [|apply untouched_standardFlow].
      intros s [HP _]. exact HP. }
  destruct (askQuestions env p0 prefs0); exact G.
Qed.
End Untouched.

Section CiKept.
Variable env : Env.
Hypothesis Hci : isCI env = true.
Variables p0 prefs0 : QuestionArgs.

Ltac cikept_step :=
  let s := fresh "s" in
  let HP := fresh "HP" in
  intros s HP; unfold_steps; unfold_flow; rewrite ?Hci;
  unfold ciKeptAtExit, ciKept in *;
  destruct HP as (K1 & K2 & K3); rewrite ?K3;
  flow_cases; simpl; rewrite ?K3;
  repeat match goal with |- _ /\ _ => split end;
  first [ assumption | exact K1 | reflexivity ].

Lemma cikept_standardFlow :
  triple (ciKept prefs0) (standardFlow env)
    (fun _ => ciKept prefs0) (ciKeptAtExit prefs0).
Proof.
  unfold standardFlow. chain (ciKept prefs0).
  all: cikept_step.
Qed.

(** X13: a CI run leaves the preferences as they were but for the primary
    key, the community project and the LlamaPack (whose prompts have no CI
    check), and leaves [defaults] alone. *)
Theorem ci_preferences_kept :
  ciMask (preferences (final (askQuestions env p0 prefs0))) = ciMask prefs0
  /\ defaultsObj (final (askQuestions env p0 prefs0)) = defaults.
Proof.
  pose proof (askQuestions_triple env p0 prefs0 (ciKept prefs0)
                (ciKept prefs0) (ciKeptAtExit prefs0)) as H.
  assert (G : match askQuestions env p0 prefs0 with
              | Returned _ st => ciKept prefs0 st
              | Exited c st => ciKeptAtExit prefs0 c st
              end).
  { apply H.
    - intros s Hs. cbv beta in Hs. subst s. unfold_steps; unfold_flow.
      rewrite Hci. unfold init. flow_cases;
        unfold ciKeptAtExit, ciKept; simpl; repeat split; reflexivity.
    - intros s [HP _]. revert s HP. cikept_step.
    - intros s [HP _]. revert s HP. cikept_step.
    - eapply triple_weaken; [|apply cikept_standardFlow].
      intros s [HP _]. exact HP. }
  destruct (askQuestions env p0 prefs0); destruct G as (G1 & G2 & _);
    split; assumption.
Qed.
End CiKept.

Lemma ci_preferences_kept_witness :
  ciMask (preferences (final (askQuestions ciEnv noArgs contextPreferences)))
  = ciMask contextPreferences
  /\ defaultsObj (final (askQuestions ciEnv noArgs contextPreferences))
     = defaults.
Proof.
  exact (ci_preferences_kept ciEnv eq_refl noArgs contextPreferences).
Defined.

(** The primary key is stored even so. *)
Example ci_stores_key :
  openAiKey (preferences (final (askQuestions ciEnv noArgs contextPreferences)))
  = Some "sk-test"
  /\ openAiKey contextPreferences = None.
Proof. split; vm_compute; reflexivity. Qed.

(** ** Prompts and the framework *)

Lemma early_gated (t fw : option string) (l : list PromptName) :
  forallb (fun q => (stageOf q <? 2)%nat) l = true ->
  forallb (gate t fw) l = true.
Proof.
  rewrite !forallb_forall. intros H q Hq. specialize (H q Hq).
  destruct q; try reflexivity; discriminate.
Qed.

Section Gates.
Variable env : Env.

Ltac split_facts :=
  repeat match goal with
         | H : (_ && _)%bool = true |- _ => apply andb_prop in H; destruct H
         end.

Ltac gate_close G3 G4 :=
  simpl; try exact G4; norm_prompts; rewrite ?forallb_app, ?G3; cbn [forallb andb gate];
  split_facts; unfold backendOnly in *; use_branch_facts; simpl;
  first [ reflexivity
        | assumption
        | discriminate
        | match goal with
          | H : (_ || _)%bool = true |- _ =>
              apply orb_prop in H; destruct H as [H|H];
              [ rewrite H; reflexivity
              | rewrite (G4 H); rewrite ?orb_true_r; reflexivity ]
          end ].

Ltac gate_step :=
  let s := fresh "s" in
  let HP := fresh "HP" in
  intros s HP; unfold_steps; unfold_flow;
  unfold gatedWithAtExit, settledWith, gatedWith, prompted in *;
  destruct HP as ((G1 & G2 & G3) & G4);
  rewrite ?G1, ?G2;
  flow_cases; simpl; rewrite ?G1, ?G2;
  repeat match goal with |- _ /\ _ => split end;
  gate_close G3 G4.

Lemma gate_rest (t fw : option string) :
  triple (settledWith t fw)
    (resolveUi env ;; resolveModel env ;; resolveEmbeddingModel env ;;
     resolveFiles env ;; resolveEngine env ;; resolveLlamaParse env ;;
     resolveBaseUrl env ;; resolveVectorDb env ;; resolveTools env ;;
     resolveOpenAiKey env ;; resolveEslint env ;; askPostInstallAction env)
    (fun _ => settledWith t fw) (gatedWithAtExit t fw).
Proof.
  chain (settledWith t fw).
  all: gate_step.
Qed.

Lemma gate_resolveFrontend (t fw : option string) :
  triple (gatedWith t fw) (resolveFrontend env)
    (fun _ => settledWith t fw) (gatedWithAtExit t fw).
Proof.
  intros s HP; unfold_steps; unfold_flow;
  unfold gatedWithAtExit, settledWith, gatedWith, prompted in *;
  destruct HP as (G1 & G2 & G3);
  rewrite ?G1, ?G2;
  flow_cases; simpl; rewrite ?G1, ?G2;
  repeat match goal with |- _ /\ _ => split end;
  try assumption;
  try (intros Hf; first [ assumption | discriminate ]);
  simpl; norm_prompts; rewrite ?forallb_app, ?G3; cbn [forallb andb gate];
  unfold backendOnly; use_branch_facts; reflexivity.
Qed.

Ltac early_step :=
  let s := fresh "s" in
  let HP := fresh "HP" in
  intros s HP; unfold_steps; unfold_flow;
  unfold gatedAtExit, gated, earlyOnly, prompted in *;
  flow_cases; simpl; norm_prompts;
  rewrite ?forallb_app, ?HP, ?(early_gated _ _ _ HP); reflexivity.

Lemma gate_resolveFramework :
  triple earlyOnly (resolveFramework env) (fun _ => earlyOnly) gatedAtExit.
Proof. early_step. Qed.

Lemma gate_standardFlow :
  triple earlyOnly (standardFlow env)
    (fun _ s => gated s /\ frontendGated s) gatedAtExit.
Proof.
  unfold standardFlow.
  eapply triple_bind with (Q := fun _ => earlyOnly);
    [apply gate_resolveFramework|].
  intros u s Hs.
  assert (H : triple (gatedWith (template (program s)) (framework (program s)))
                (resolveFrontend env ;;
                 resolveUi env ;; resolveModel env ;;
                 resolveEmbeddingModel env ;; resolveFiles env ;;
                 resolveEngine env ;; resolveLlamaParse env ;;
                 resolveBaseUrl env ;; resolveVectorDb env ;;
                 resolveTools env ;; resolveOpenAiKey env ;;
                 resolveEslint env ;; askPostInstallAction env)
                (fun _ => settledWith (template (program s))
                                       (framework (program s)))
                (gatedWithAtExit (template (program s))
                                 (framework (program s)))).
  { eapply triple_bind; [apply gate_resolveFrontend|].
    intros u'. apply gate_rest. }
  specialize (H s).
  match type of H with ?P -> _ =>
    assert (HP : P) by (split; [reflexivity|]; split; [reflexivity|];
                        apply early_gated, Hs)
  end.
  specialize (H HP). clear HP.
  match type of H with
  | match ?m with _ => _ end => destruct m as [[] st|c st]
  end.
  - destruct H as ((E1 & E2 & E3) & E4). unfold gated, frontendGated.
    rewrite E1, E2. split; assumption.
  - destruct H as (E1 & E2 & E3). unfold gatedAtExit, gated.
    rewrite E1, E2. exact E3.
Qed.

Lemma gate_run (p prefs : QuestionArgs) :
  match askQuestions env p prefs with
  | Returned _ st =>
      gated st
      /\ (isS (template (program st)) "community" = false ->
          isS (template (program st)) "llamapack" = false ->
          frontendGated st)
  | Exited c st => gated st
  end.
Proof.
  apply (askQuestions_triple env p prefs earlyOnly
           (fun st => gated st
                      /\ (isS (template (program st)) "community" = false ->
                          isS (template (program st)) "llamapack" = false ->
                          frontendGated st))
           gatedAtExit).
  - intros s Hs. cbv beta in Hs. subst s. unfold_steps; unfold_flow.
    unfold init. flow_cases; reflexivity.
  - intros s [HP Ht]. pose proof (communityFlow_keeps_template env _ s eq_refl) as Hk.
    revert s HP Ht Hk. unfold_steps; unfold_flow.
    unfold templateIs, gatedAtExit, gated, earlyOnly, prompted in *.
    intros s HP Ht. flow_cases; simpl; intros Hk; norm_prompts;
      rewrite ?forallb_app, ?(early_gated _ _ _ HP); try reflexivity.
    split; [reflexivity|]. congruence.
  - intros s [HP [Hc Ht]].
    pose proof (llamapackFlow_keeps_template env _ s eq_refl) as Hk.
    assert (G : triple earlyOnly (llamapackFlow env) (fun _ => gated) gatedAtExit)
      by early_step.
    specialize (G s HP). unfold templateIs in Hk.
    destruct (llamapackFlow env s) as [[] st|c st]; [|exact G].
    split; [exact G|]. rewrite Hk. congruence.
  - eapply triple_weaken with (P := earlyOnly); [intros s [HP _]; exact HP|].
    intros s HP. pose proof (gate_standardFlow s HP) as G.
    destruct (standardFlow env s) as [[] st|c st]; [|exact G].
    destruct G as [G1 G2]. split; [exact G1 | intros _ _; exact G2].
Qed.

(** X14: whichever way a run ends, a prompt that was shown fits the
    template and framework the run ends with: the frontend toggle only with
    a streaming Express or FastAPI backend, the UI prompt only with NextJS
    or such a backend, the prompts for the embedding model, LlamaParse, the
    LlamaCloud key, the base URL and the tools only with FastAPI, and the
    ESLint toggle never with FastAPI. *)
Theorem prompts_gated_by_framework (p prefs : QuestionArgs) (q : PromptName) :
  In q (prompted (final (askQuestions env p prefs))) ->
  gate (template (program (final (askQuestions env p prefs))))
       (framework (program (final (askQuestions env p prefs)))) q = true.
Proof.
  intros Hq. pose proof (gate_run p prefs) as H.
  assert (G : gated (final (askQuestions env p prefs))).
  { destruct (askQuestions env p prefs); simpl; [apply H | exact H]. }
  unfold gated in G. rewrite forallb_forall in G. apply G, Hq.
Qed.

(** X15: when the standard flow returns with [frontend] true, the template
    is "streaming" and the framework is Express or FastAPI. *)
Theorem frontend_only_for_backend_frameworks (p prefs : QuestionArgs)
  (st : State) :
  askQuestions env p prefs = Returned tt st ->
  isS (template (program st)) "community" = false ->
  isS (template (program st)) "llamapack" = false ->
  frontend (program st) = Some true ->
  template (program st) = Some "streaming"
  /\ (framework (program st) = Some "express"
      \/ framework (program st) = Some "fastapi").
Proof.
  intros Hrun Hc Hl Hf. pose proof (gate_run p prefs) as H.
  rewrite Hrun in H. destruct H as [_ H]. specialize (H Hc Hl).
  unfold frontendGated, backendOnly in H. rewrite Hf in H.
  specialize (H eq_refl). apply andb_prop in H. destruct H as [H1 H2].
  apply isS_true in H1. apply orb_prop in H2.
  rewrite !isS_true in H2. auto.
Qed.
End Gates.

Lemma prompts_gated_by_framework_witness :
  gate (template (program (final (askQuestions interactiveEnv
                                    fastapiContextArgs noArgs))))
       (framework (program (final (askQuestions interactiveEnv
                                     fastapiContextArgs noArgs))))
       Q_embeddingModel = true.
Proof.
  apply (prompts_gated_by_framework interactiveEnv fastapiContextArgs noArgs
           Q_embeddingModel).
  vm_compute. auto 20.
Defined.

Lemma frontend_only_for_backend_frameworks_witness :
  template (program (final (askQuestions interactiveEnv
                              fastapiContextArgs noArgs)))
  = Some "streaming"
  /\ (framework (program (final (askQuestions interactiveEnv
                                   fastapiContextArgs noArgs)))
      = Some "express"
      \/ framework (program (final (askQuestions interactiveEnv
                                      fastapiContextArgs noArgs)))
         = Some "fastapi").
Proof.
  apply (frontend_only_for_backend_frameworks interactiveEnv
           fastapiContextArgs noArgs
           (final (askQuestions interactiveEnv fastapiContextArgs noArgs)));
    vm_compute; reflexivity.
Defined.

(** ** Local context data *)

Lemma arrIncludes_In (l : list string) (x : string) :
  arrIncludes l x = true -> In x l.
Proof.
  unfold arrIncludes. intros H. apply existsb_exists in H.
  destruct H as [y [Hy E]]. apply String.eqb_eq in E. subst. exact Hy.
Qed.

(** X16: [selectLocalContextData] returns a path only on Windows or macOS,
    after running the one dialog script for that host and that kind of
    selection, with the path the script printed and, for a file, a
    supported extension; it changes nothing but the trace; every other case
    ends the process with status 1, and on another host no script is
    run. *)
Theorem selectLocalContextData_outcome (env : Env) (ty : string) (s : State) :
  match selectLocalContextData env ty s with
  | Returned selectedPath s' =>
      exists script,
        platform env = scriptPlatform script
        /\ scriptSelectsFile script = (ty =? "file")
        /\ execSync env script = Some selectedPath
        /\ (ty = "file" ->
            In (extname env selectedPath) supportedContextFileTypes)
        /\ s' = mkState (program s) (preferences s) (defaultsObj s)
                        (sharing s) (trace s ++ [Executed script])
  | Exited c s' =>
      c = 1%Z
      /\ program s' = program s /\ preferences s' = preferences s
      /\ ((platform env =? "win32") || (platform env =? "darwin") = false ->
          trace s' = (trace s ++ [unsupportedOs])%list)
  end.
Proof.
  unfold selectLocalContextData. unfold_flow.
  destruct (platform env =? "win32") eqn:Ew;
    [|destruct (platform env =? "darwin") eqn:Ed].
  3: { simpl. repeat split; auto. }
  all: try apply String.eqb_eq in Ew; try apply String.eqb_eq in Ed.
  all: destruct (ty =? "file") eqn:Et;
    cbn -[arrIncludes In supportedContextFileTypes String.concat];
    match goal with
    | |- context [execSync _ ?x] =>
        destruct (execSync env x) as [sel|] eqn:Ex
    end;
    cbn -[arrIncludes In supportedContextFileTypes String.concat];
    try (repeat split; auto; discriminate).
  all: try (destruct (arrIncludes supportedContextFileTypes (extname env sel))
              eqn:Ei;
            cbn -[arrIncludes In supportedContextFileTypes String.concat];
            [|repeat split; auto; discriminate]).
  all: eexists; repeat split; try eassumption; try reflexivity.
  all: try (intros _; apply arrIncludes_In, Ei).
  all: intros Hty; apply String.eqb_neq in Et; contradiction.
Qed.

Lemma selectLocalContextData_supported (env : Env) (ty : string) (s : State) :
  (platform env =? "win32") || (platform env =? "darwin") = true ->
  ~ In unsupportedOs (trace s) ->
  ~ In unsupportedOs (trace (final (selectLocalContextData env ty s))).
Proof.
  intros Hp Hno. unfold selectLocalContextData. unfold_flow.
  destruct (platform env =? "win32");
    [|destruct (platform env =? "darwin"); [|discriminate]].
  all: cbn -[arrIncludes supportedContextFileTypes String.concat];
    match goal with
    | |- context [execSync _ ?x] => destruct (execSync env x) as [sel|]
    end;
    cbn -[arrIncludes supportedContextFileTypes String.concat];
    try match goal with
        | |- context [if ?b then _ else _] => destruct b
        end;
    cbn -[arrIncludes supportedContextFileTypes String.concat];
    rewrite ?in_app_iff; simpl;
    intuition (try discriminate);
    destruct (ty =? "file"); discriminate.
Qed.

(** X17: when the operator picks one of the data sources the prompt
    offers, the "Unsupported OS" exit is never taken: the local file and
    folder choices are only offered on the hosts the dialog supports. *)
Theorem offered_choice_never_unsupported_os (env : Env) (s : State)
  (a : string) :
  isCI env = false ->
  truthyS (engine (program s)) = false ->
  onSelect env Q_dataSource = Answer a ->
  In a (getDataSourceChoices env (framework (program s))) ->
  ~ In unsupportedOs (trace s) ->
  ~ In unsupportedOs (trace (final (resolveEngine env s))).
Proof.
  intros Hci He Ha Hin Hno. unfold resolveEngine.
  unfold bind at 1. unfold getProgram at 1. rewrite He, Hci. simpl negb.
  cbv iota. unfold_flow. rewrite Ha.
  cbn -[selectLocalContextData].
  assert (Hno' : ~ In unsupportedOs
                     (trace s ++ [Prompted Q_dataSource
                        (getDataSourceChoices env (framework (program s)))])).
  { rewrite in_app_iff. intros [H|[H|[]]]; [auto | discriminate]. }
  destruct (nullish (dataSource (preferences s)) (dataSource (defaultsObj s)));
    [|exact Hno'].
  cbn -[selectLocalContextData].
  destruct ((platform env =? "win32") || (platform env =? "darwin")) eqn:Ep.
  - destruct (a =? "simple"); [exact Hno'|].
    destruct (a =? "exampleFile"); [exact Hno'|].
    destruct (a =? "localFile").
    { match goal with
      | |- context [selectLocalContextData env "file" ?s1] =>
          pose proof (selectLocalContextData_supported env "file" s1 Ep Hno')
            as Hs;
          destruct (selectLocalContextData env "file" s1); exact Hs
      end. }
    destruct (a =? "localFolder").
    { match goal with
      | |- context [selectLocalContextData env "folder" ?s1] =>
          pose proof (selectLocalContextData_supported env "folder" s1 Ep Hno')
            as Hs;
          destruct (selectLocalContextData env "folder" s1); exact Hs
      end. }
    destruct (a =? "web"); [|exact Hno'].
    destruct (sharing s); exact Hno'.
  - unfold getDataSourceChoices in Hin. rewrite Ep in Hin.
    assert (Ha3 : a = "simple" \/ a = "exampleFile" \/ a = "web").
    { destruct (isS (framework (program s)) "fastapi"); simpl in Hin;
        intuition. }
    destruct Ha3 as [ -> | [ -> | -> ] ]; cbn -[selectLocalContextData];
      try destruct (sharing s); exact Hno'.
Qed.

Lemma offered_choice_never_unsupported_os_witness :
  In "simple" (getDataSourceChoices interactiveEnv
                 (framework (program (init noArgs noArgs))))
  /\ ~ In unsupportedOs
        (trace (final (resolveEngine interactiveEnv (init noArgs noArgs)))).
Proof.
  split; [simpl; auto|].
  apply (offered_choice_never_unsupported_os interactiveEnv
           (init noArgs noArgs) "simple");
    [ reflexivity | reflexivity | reflexivity | simpl; auto | intros [] ].
Defined.

(** ** A files path that does not exist *)

Section MissingFiles.
Variable env : Env.

Ltac missing_step :=
  let s := fresh "s" in
  let HP := fresh "HP" in
  intros s HP; unfold_steps; unfold_flow;
  unfold missingFiles, stoppedEarly, neverReturned, prompted in *;
  destruct HP as [(f & Hf & Hne & Hex) Hn];
  rewrite ?Hf; simpl; rewrite ?Hne, ?Hex;
  flow_cases; simpl; norm_prompts; rewrite ?forallb_app, ?Hn;
  first [ split; [exists f; auto | reflexivity]
        | split; reflexivity ].

Lemma missing_standardFlow :
  triple (missingFiles env) (standardFlow env) neverReturned stoppedEarly.
Proof.
  unfold standardFlow.
  do 5 (eapply triple_bind with (Q := fun _ => missingFiles env);
        [missing_step | intros _]).
  eapply triple_bind with (Q := neverReturned); [missing_step|].
  intros u s [].
Qed.

(** X18: given a files path that does not exist, a run never returns from
    the standard flow: it returns only by one of the two early returns, and
    otherwise ends with status 1 before the data-source prompt is
    shown. *)
Theorem missing_files_path_stops_standard_flow (p prefs : QuestionArgs)
  (f : string) :
  files p = Some f -> f <> "" -> existsSync env f = false ->
  match askQuestions env p prefs with
  | Returned _ st =>
      template (program st) = Some "community"
      \/ template (program st) = Some "llamapack"
  | Exited c st => c = 1%Z /\ ~ In Q_dataSource (prompted st)
  end.
Proof.
  intros Hf Hne Hex. apply String.eqb_neq in Hne.
  pose proof (askQuestions_triple env p prefs (missingFiles env)
    (fun st => template (program st) = Some "community"
               \/ template (program st) = Some "llamapack")
    stoppedEarly) as H.
  assert (G : match askQuestions env p prefs with
              | Returned _ st =>
                  template (program st) = Some "community"
                  \/ template (program st) = Some "llamapack"
              | Exited c st => stoppedEarly c st
              end).
  { apply H.
    - intros s Hs. cbv beta in Hs. subst s. unfold_steps; unfold_flow.
      unfold init, missingFiles, stoppedEarly, prompted.
      flow_cases; simpl; split; try reflexivity; exists f; auto.
    - intros s [HP Ht].
      pose proof (communityFlow_keeps_template env _ s eq_refl) as Hk.
      apply isS_true in Ht.
      assert (G : triple (missingFiles env) (communityFlow env)
                    (fun _ _ => True) stoppedEarly).
      { clear. intros s HP. destruct HP as [_ Hn]. revert s Hn.
        unfold_steps; unfold_flow. unfold stoppedEarly, prompted.
        intros s Hn. flow_cases; simpl; norm_prompts;
          rewrite ?forallb_app, ?Hn; first [exact I | split; reflexivity]. }
      specialize (G s HP). unfold templateIs in Hk.
      destruct (communityFlow env s) as [[] st|c st]; [|exact G].
      left. congruence.
    - intros s [HP [Hc Ht]].
      pose proof (llamapackFlow_keeps_template env _ s eq_refl) as Hk.
      apply isS_true in Ht.
      assert (G : triple (missingFiles env) (llamapackFlow env)
                    (fun _ _ => True) stoppedEarly).
      { clear. intros s HP. destruct HP as [_ Hn]. revert s Hn.
        unfold_steps; unfold_flow. unfold stoppedEarly, prompted.
        intros s Hn. flow_cases; simpl; norm_prompts;
          rewrite ?forallb_app, ?Hn; first [exact I | split; reflexivity]. }
      specialize (G s HP). unfold templateIs in Hk.
      destruct (llamapackFlow env s) as [[] st|c st]; [|exact G].
      right. congruence.
    - eapply triple_weaken with (P := missingFiles env);
        [intros s [HP _]; exact HP|].
      intros s HP. pose proof (missing_standardFlow s HP) as G.
      destruct (standardFlow env s) as [[] st|c st]; [destruct G | exact G]. }
  destruct (askQuestions env p prefs) as [[] st|c st]; [exact G|].
  destruct G as [G1 G2]. split; [exact G1|].
  intros Hin. rewrite forallb_forall in G2. specialize (G2 _ Hin).
  discriminate.
Qed.
End MissingFiles.

Lemma missing_files_path_stops_standard_flow_witness :
  files missingFilesArgs = Some "/nowhere"
  /\ match askQuestions interactiveEnv missingFilesArgs noArgs with
     | Returned _ st =>
         template (program st) = Some "community"
         \/ template (program st) = Some "llamapack"
     | Exited c st => c = 1%Z /\ ~ In Q_dataSource (prompted st)
     end.
Proof.
  split; [reflexivity|].
  apply (missing_files_path_stops_standard_flow interactiveEnv
           missingFilesArgs noArgs "/nowhere");
    [ reflexivity | discriminate | reflexivity ].
Defined.

(** ** The shared data-source descriptor *)

(** X19: choosing the website source hands the descriptor object of the
    preferences, or else of [defaults], to the configuration and then
    writes the type "web" into it: the write lands in that shared object
    as well. *)
Theorem website_choice_writes_shared_descriptor (env : Env) (s : State)
  (d : DataSource) :
  isCI env = false ->
  truthyS (engine (program s)) = false ->
  onSelect env Q_dataSource = Answer "web" ->
  nullish (dataSource (preferences s)) (dataSource (defaultsObj s)) = Some d ->
  exists s',
    resolveEngine env s = Returned tt s'
    /\ engine (program s') = Some "context"
    /\ dataSource (program s') = Some (set_type "web" d)
    /\ match dataSource (preferences s) with
       | Some _ =>
           dataSource (preferences s') = Some (set_type "web" d)
           /\ defaultsObj s' = defaultsObj s
           /\ sharing s' = WithPreferences
       | None =>
           dataSource (defaultsObj s') = Some (set_type "web" d)
           /\ preferences s' = preferences s
           /\ sharing s' = WithDefaults
       end.
Proof.
  intros Hci He Ha Hd. unfold resolveEngine. unfold_flow.
  rewrite He, Hci, Ha. simpl. rewrite Hd. simpl.
  eexists. split; [reflexivity|]. simpl.
  split; [reflexivity|]. split; [reflexivity|].
  destruct (dataSource (preferences s)) as [d'|] eqn:Ep; simpl in *.
  - inversion Hd; subst. auto.
  - rewrite Hd. auto.
Qed.

Lemma website_choice_writes_shared_descriptor_witness :
  exists s',
    resolveEngine webChoiceEnv
      (mkState (set_framework (Some "fastapi") noArgs) noArgs defaults Own [])
    = Returned tt s'
    /\ engine (program s') = Some "context"
    /\ dataSource (program s') = Some (mkDataSource "web" emptyConfig)
    /\ dataSource (defaultsObj s') = Some (mkDataSource "web" emptyConfig)
    /\ preferences s' = noArgs
    /\ sharing s' = WithDefaults.
Proof.
  apply (website_choice_writes_shared_descriptor webChoiceEnv
           (mkState (set_framework (Some "fastapi") noArgs) noArgs defaults Own [])
           (mkDataSource "none" emptyConfig)); reflexivity.
Defined.

(** On a whole run the module-level [defaults] ends up describing the
    website. *)
Example website_choice_changes_defaults :
  exists st,
    askQuestions webChoiceEnv noArgs noArgs = Returned tt st
    /\ dataSource (program st)
       = Some (mkDataSource "web" (webConfig "https://www.example.com"))
    /\ dataSource (defaultsObj st)
       = Some (mkDataSource "web" (webConfig "https://www.example.com"))
    /\ dataSource defaults = Some (mkDataSource "none" emptyConfig).
Proof. evaluate. Qed.

(** ** Tools, and the LlamaCloud key in CI *)

(** X20: the tool selection yields one entry per selected name, in order:
    the supported tool of that name, or [undefined] when no supported tool
    has it. *)
Theorem findTools_one_entry_per_name (env : Env) (toolsName : list string) :
  exists entries,
    findTools env (Some toolsName) = Some entries
    /\ Forall2 (toolFor env) toolsName entries.
Proof.
  unfold findTools. simpl. eexists. split; [reflexivity|].
  induction toolsName as [|n l IH]; simpl; constructor; [|exact IH].
  unfold toolFor.
  destruct (find (fun t => name t =? n) (supportedTools env)) as [t|] eqn:F.
  - apply find_some in F. destruct F as [Hin E]. apply String.eqb_eq in E.
    auto.
  - intros t Hin E. pose proof (find_none _ _ F t Hin) as N. simpl in N.
    apply String.eqb_neq in N. contradiction.
Qed.

Section CiKey.
Variable env : Env.
Hypothesis Hci : isCI env = true.
Variables p0 prefs0 : QuestionArgs.

Ltac key_close :=
  unfold localSourceUnderPython, dataSourceTypeIs in *; simpl in *;
  try match goal with
      | |- context [dataSource (program ?s)] =>
          destruct (dataSource (program s)) as [[? ?]|]
      end;
  simpl in *;
  first [ assumption | reflexivity | congruence
        | intros; discriminate
        | intros Hg; use_branch_facts; try congruence; auto ].

Ltac key_step :=
  let s := fresh "s" in
  let HP := fresh "HP" in
  intros s HP; unfold_steps; unfold_flow; rewrite ?Hci;
  unfold ciKeyStored, ciKeyFrame in *;
  destruct HP as ((K1 & K2 & K3) & K4); rewrite ?K3;
  flow_cases; simpl; rewrite ?K3;
  try exact I;
  repeat match goal with |- _ /\ _ => split end;
  key_close.

Ltac frame_step :=
  let s := fresh "s" in
  let HP := fresh "HP" in
  intros s HP; unfold_steps; unfold_flow; rewrite ?Hci;
  unfold ciKeyStored, ciKeyFrame in *;
  destruct HP as (K1 & K2 & K3); rewrite ?K3;
  flow_cases; simpl; rewrite ?K3;
  try exact I;
  repeat match goal with |- _ /\ _ => split end;
  first [ assumption | reflexivity | idtac ].

Lemma ciKey_standardFlow :
  triple (ciKeyFrame prefs0) (standardFlow env)
    (fun _ => ciKeyStored prefs0) anyExit.
Proof.
  unfold standardFlow.
  do 7 (eapply triple_bind with (Q := fun _ => ciKeyFrame prefs0);
        [frame_step | intros _]).
  eapply triple_bind with (Q := fun _ => ciKeyStored prefs0).
  - frame_step.
    all: unfold localSourceUnderPython; use_branch_facts; simpl;
      try (intros; discriminate).
    all: intros _; rewrite K1, K2; reflexivity.
  - intros _. chain (ciKeyStored prefs0).
    all: key_step.
Qed.

(** X21: when a CI run returns from the standard flow with a file or
    folder source under FastAPI, the LlamaCloud key is the stored
    preference or else the default, whatever key the input carried. *)
Theorem ci_llamaCloudKey_input_discarded (st : State) :
  askQuestions env p0 prefs0 = Returned tt st ->
  isS (template (program st)) "community" = false ->
  isS (template (program st)) "llamapack" = false ->
  localSourceUnderPython (program st) = true ->
  llamaCloudKey (program st)
  = nullish (llamaCloudKey prefs0) (llamaCloudKey defaults).
Proof.
  intros Hrun Hc Hl Hg.
  pose proof (askQuestions_triple env p0 prefs0 (ciKeyFrame prefs0)
    (fun st => isS (template (program st)) "community" = false ->
               isS (template (program st)) "llamapack" = false ->
               localSourceUnderPython (program st) = true ->
               llamaCloudKey (program st)
               = nullish (llamaCloudKey prefs0) (llamaCloudKey defaults))
    anyExit) as H.
  rewrite Hrun in H. apply H; auto.
  - intros s Hs. cbv beta in Hs. subst s. unfold_steps; unfold_flow.
    rewrite Hci. unfold init, ciKeyFrame, anyExit.
    flow_cases; simpl; auto.
  - intros s [HP Ht].
    pose proof (communityFlow_keeps_template env _ s eq_refl) as Hk.
    unfold templateIs in Hk.
    destruct (communityFlow env s) as [[] s2|c s2]; [|exact I].
    rewrite Hk. congruence.
  - intros s [HP [Hc' Ht]].
    pose proof (llamapackFlow_keeps_template env _ s eq_refl) as Hk.
    unfold templateIs in Hk.
    destruct (llamapackFlow env s) as [[] s2|c s2]; [|exact I].
    rewrite Hk. congruence.
  - intros s [HP _]. pose proof (ciKey_standardFlow s HP) as G.
    destruct (standardFlow env s) as [[] s2|c s2]; [|exact I].
    destruct G as [_ G]. intros _ _. exact G.
Qed.
End CiKey.

Lemma ci_llamaCloudKey_input_discarded_witness :
  llamaCloudKey
    (program (final (askQuestions ciEnv
       (set_llamaCloudKey (Some "llx-input") settledArgs) noArgs)))
  = Some "".
Proof.
  apply (ci_llamaCloudKey_input_discarded ciEnv eq_refl
           (set_llamaCloudKey (Some "llx-input") settledArgs) noArgs
           (final (askQuestions ciEnv
              (set_llamaCloudKey (Some "llx-input") settledArgs) noArgs)));
    vm_compute; reflexivity.
Defined.

(** ** What a returned configuration always has *)

Lemma truthyS_defined (o : option string) :
  negb (truthyS o) = false -> isUndefined o = false.
Proof. destruct o; [reflexivity | discriminate]. Qed.

Lemma nullish_defined {A : Type} (a b : option A) :
  isUndefined b = false -> isUndefined (nullish a b) = false.
Proof. destruct a; [reflexivity | auto]. Qed.

Section Defined.
Variable env : Env.

Ltac defined_close :=
  first [ exact I
        | assumption
        | reflexivity
        | apply nullish_defined; assumption
        | apply truthyS_defined; assumption ].

Ltac defined_step :=
  let s := fresh "s" in
  let HP := fresh "HP" in
  intros s HP; unfold_steps; unfold_flow;
  unfold definedBefore, defaultsDefined, atStage, isDefined, anyExit in *;
  simpl in HP;
  destruct HP as ((D1 & D2 & D3 & D4 & D5) & P1 & P2 & P3 & P4 & P5 & P6);
  flow_cases_sharing; simpl;
  try exact I;
  repeat match goal with |- _ /\ _ => split end;
  defined_close.

Lemma defined_standardFlow :
  triple (definedBefore 1) (standardFlow env) (fun _ => definedBefore 15)
    anyExit.
Proof.
  unfold standardFlow. chain_from definedBefore 1%nat.
  all: defined_step.
Qed.

(** X27: whenever a run returns, the template is defined; and when it
    returns from the standard flow, so are the framework, [frontend], the
    model, the primary key and the post-install action. *)
Theorem returned_configuration_defined (p prefs : QuestionArgs) (st : State) :
  askQuestions env p prefs = Returned tt st ->
  template (program st) <> None
  /\ (isS (template (program st)) "community" = false ->
      isS (template (program st)) "llamapack" = false ->
      framework (program st) <> None
      /\ frontend (program st) <> None
      /\ model (program st) <> None
      /\ openAiKey (program st) <> None
      /\ postInstallAction (program st) <> None).
Proof.
  intros Hrun.
  assert (Hd : forall A (o : option A), isUndefined o = false -> o <> None)
    by (intros A [x|]; [discriminate | discriminate]).
  pose proof (askQuestions_triple env p prefs (definedBefore 1)
    (fun st =>
       isDefined (template (program st))
       /\ (isS (template (program st)) "community" = false ->
           isS (template (program st)) "llamapack" = false ->
           definedBefore 15 st))
    anyExit) as H.
  rewrite Hrun in H.
  assert (G : isDefined (template (program st))
              /\ (isS (template (program st)) "community" = false ->
                  isS (template (program st)) "llamapack" = false ->
                  definedBefore 15 st)).
  { apply H.
    - intros s Hs. cbv beta in Hs. subst s. unfold_steps; unfold_flow.
      unfold init, definedBefore, defaultsDefined, atStage, isDefined, anyExit.
      flow_cases; simpl; try exact I;
        repeat match goal with |- _ /\ _ => split end;
        first [ exact I | reflexivity
              | apply truthyS_defined; assumption
              | destruct (template prefs); reflexivity ].
    - intros s [HP Ht].
      pose proof (communityFlow_keeps_template env _ s eq_refl) as Hk.
      unfold templateIs in Hk.
      destruct (communityFlow env s) as [[] s2|c s2]; [|exact I].
      rewrite Hk. split; [apply HP | congruence].
    - intros s [HP [Hc Ht]].
      pose proof (llamapackFlow_keeps_template env _ s eq_refl) as Hk.
      unfold templateIs in Hk.
      destruct (llamapackFlow env s) as [[] s2|c s2]; [|exact I].
      rewrite Hk. split; [apply HP | congruence].
    - intros s [HP _]. pose proof (defined_standardFlow s HP) as G.
      destruct (standardFlow env s) as [[] s2|c s2]; [|exact I].
      split; [apply G | intros _ _; exact G]. }
  destruct G as [G1 G2]. split; [apply Hd, G1|].
  intros Hc Hl. specialize (G2 Hc Hl).
  unfold definedBefore, atStage, isDefined in G2. simpl in G2.
  destruct G2 as (_ & _ & F1 & F2 & F3 & F4 & F5).
  repeat split; apply Hd; assumption.
Qed.
End Defined.

Lemma returned_configuration_defined_witness :
  template (program (final (askQuestions ciEnv noArgs noArgs))) <> None
  /\ (isS (template (program (final (askQuestions ciEnv noArgs noArgs))))
          "community" = false ->
      isS (template (program (final (askQuestions ciEnv noArgs noArgs))))
          "llamapack" = false ->
      framework (program (final (askQuestions ciEnv noArgs noArgs))) <> None
      /\ frontend (program (final (askQuestions ciEnv noArgs noArgs))) <> None
      /\ model (program (final (askQuestions ciEnv noArgs noArgs))) <> None
      /\ openAiKey (program (final (askQuestions ciEnv noArgs noArgs))) <> None
      /\ postInstallAction (program (final (askQuestions ciEnv noArgs noArgs)))
         <> None).
Proof.
  apply (returned_configuration_defined ciEnv noArgs noArgs
           (final (askQuestions ciEnv noArgs noArgs))).
  vm_compute. reflexivity.
Defined.

End CreateLlamaFacts.

(** * Properties of the Pinecone store *)

Module PineconeFacts.
Import Pinecone.

Section StoreFacts.

Variables Vector Metadata : Type.
Variable service : Service Vector Metadata.

Lemma saveChunks_terminates (fuel : nat) (size : Num)
  (nodes : list (PineconeRecord Vector Metadata)) (i : Num) (n : nat) :
  advances size ->
  (remaining i (length nodes) < fuel)%nat ->
  fst (saveChunks Vector Metadata service fuel size nodes i n) <> None.
Proof.
  intros Hsize. revert i n.
  induction fuel as [|fuel IH]; intros i n Hfuel; [lia|].
  simpl. destruct (num_lt i (length nodes)) eqn:Hlt; [|simpl; discriminate].
  unfold saveChunk. destruct (upsert _ _ _ n _); [|simpl; discriminate].
  specialize (IH (num_add i size) (S n)).
  destruct (saveChunks Vector Metadata service fuel size nodes (num_add i size) (S n)) as [r calls'].
  simpl in *. apply IH.
  destruct i as [x|]; [|discriminate]. simpl in Hlt.
  apply Z.ltb_lt in Hlt. simpl in Hfuel.
  destruct size as [c|]; simpl in *; lia.
Qed.

Lemma saveChunks_succeeds (fuel : nat) (size : Num)
  (nodes : list (PineconeRecord Vector Metadata)) (i : Num) (n : nat) :
  (forall k chunk, upsert _ _ service k chunk = true) ->
  advances size ->
  (remaining i (length nodes) < fuel)%nat ->
  fst (saveChunks Vector Metadata service fuel size nodes i n) = Some true.
Proof.
  intros Hup Hsize. revert i n.
  induction fuel as [|fuel IH]; intros i n Hfuel; [lia|].
  simpl. destruct (num_lt i (length nodes)) eqn:Hlt; [|reflexivity].
  unfold saveChunk. rewrite Hup.
  specialize (IH (num_add i size) (S n)).
  destruct (saveChunks Vector Metadata service fuel size nodes (num_add i size) (S n)) as [r calls'].
  simpl in *. apply IH.
  destruct i as [x|]; [|discriminate]. simpl in Hlt.
  apply Z.ltb_lt in Hlt. simpl in Hfuel.
  destruct size as [c|]; simpl in *; lia.
Qed.

Lemma mapNodeToRecord_defined (l : list (BaseNode Vector Metadata)) :
  Forall (fun node => getEmbedding _ _ node <> None) l ->
  exists rs, mapNodeToRecord _ _ l = Some rs /\ length rs = length l.
Proof.
  induction 1 as [|node rest Hn Hrest [rs [IH Hlen]]].
  - exists []. split; reflexivity.
  - simpl. unfold nodeToRecord.
    destruct (getEmbedding _ _ node) as [v|]; [|contradiction].
    rewrite IH. eexists. split; [reflexivity|]. simpl. rewrite Hlen.
    reflexivity.
Qed.

(** C10: [add] on the empty list resolves to [[]] with the store untouched
    and no call made (no client created, no index opened); whenever [add]
    resolves, it resolves to [[]]; with a chunk size that advances and
    enough fuel it settles; and when the client can be had, every node has
    its embedding and every upsert goes through, it resolves. *)
Theorem add_resolves_to_empty (fuel : nat)
  (store : PineconeVectorStore) (nodes : list (BaseNode Vector Metadata)) :
  add Vector Metadata service fuel store [] = (Some (Resolved []), store, [])
  /\ (forall ids store' calls,
        add Vector Metadata service fuel store nodes = (Some (Resolved ids), store', calls) ->
        ids = [])
  /\ (advances (chunkSize store) -> (length nodes < fuel)%nat ->
      fst (fst (add Vector Metadata service fuel store nodes)) <> None)
  /\ (db store = true \/ newPinecone _ _ service = true ->
      Forall (fun node => getEmbedding _ _ node <> None) nodes ->
      (forall k chunk, upsert _ _ service k chunk = true) ->
      advances (chunkSize store) -> (length nodes < fuel)%nat ->
      fst (fst (add Vector Metadata service fuel store nodes)) = Some (Resolved [])).
Proof.
  split; [reflexivity|]. split; [|split].
  - intros ids store' calls. unfold add.
    destruct (length nodes =? 0)%nat; [intros H; inversion H; reflexivity|].
    destruct (index _ _ service store) as [[st' cs]|]; [|discriminate].
    destruct (mapNodeToRecord _ _ nodes) as [rs|]; [|discriminate].
    destruct (saveChunks Vector Metadata service fuel (chunkSize st') rs (Some 0%Z) 0)
      as [[[|]|] cs']; intros H; inversion H; reflexivity.
  - intros Hsize Hfuel. unfold add.
    destruct (length nodes =? 0)%nat; [simpl; discriminate|].
    destruct (index _ _ service store) as [[st' cs]|] eqn:Hi;
      [|simpl; discriminate].
    destruct (mapNodeToRecord _ _ nodes) as [rs|] eqn:Hm;
      [|simpl; discriminate].
    assert (Hcs : chunkSize st' = chunkSize store).
    { unfold index in Hi. destruct (db store);
        [|destruct (newPinecone _ _ service)]; inversion Hi; reflexivity. }
    assert (Hlen : (length rs <= length nodes)%nat).
    { clear -Hm. revert rs Hm. induction nodes as [|a l IH]; intros rs Hm.
      - inversion Hm. simpl. lia.
      - simpl in Hm. destruct (nodeToRecord _ _ a); [|discriminate].
        destruct (mapNodeToRecord _ _ l) as [rs'|]; [|discriminate].
        inversion Hm. simpl. specialize (IH rs' eq_refl). lia. }
    pose proof (saveChunks_terminates fuel (chunkSize st') rs (Some 0%Z) 0) as T.
    rewrite Hcs in *.
    destruct (saveChunks Vector Metadata service fuel (chunkSize store) rs (Some 0%Z) 0)
      as [[[|]|] cs']; simpl in *; try discriminate.
    exfalso. apply T; [exact Hsize | lia | reflexivity].
  - intros Hdb Hemb Hup Hsize Hfuel. unfold add.
    destruct (length nodes =? 0)%nat; [reflexivity|].
    assert (Hi : exists st' cs, index _ _ service store = Some (st', cs)
                                /\ chunkSize st' = chunkSize store).
    { unfold index. destruct (db store).
      - eexists _, _. split; reflexivity.
      - destruct Hdb as [Hdb|Hdb]; [discriminate|]. rewrite Hdb.
        eexists _, _. split; reflexivity. }
    destruct Hi as [st' [cs [Hi Hcs]]]. rewrite Hi.
    destruct (mapNodeToRecord_defined nodes Hemb) as [rs [Hm Hlen]].
    rewrite Hm.
    pose proof (saveChunks_succeeds fuel (chunkSize st') rs (Some 0%Z) 0 Hup)
      as S.
    rewrite Hcs in *.
    destruct (saveChunks Vector Metadata service fuel (chunkSize store) rs (Some 0%Z) 0)
      as [r cs']; simpl in *.
    rewrite S; [reflexivity | exact Hsize | lia].
Qed.

End StoreFacts.

(** Three nodes in chunks of two: one client, one index, two upserts, and
    the promise resolves to the empty array, not to the three ids. *)
Example add_sample :
  add (list Z) unit sampleService 4 sampleStore sampleNodes
  = (Some (Resolved []),
     mkStore true "llama" "" (Some 2%Z) "text",
     [NewPinecone (list Z) unit; OpenIndex (list Z) unit "llama";
      Upsert (list Z) unit
        [mkRecord (list Z) unit (Some "a") [1; 2]%Z tt;
         mkRecord (list Z) unit (Some "b") [3; 4]%Z tt];
      Upsert (list Z) unit [mkRecord (list Z) unit None [5; 6]%Z tt]]).
Proof. reflexivity. Qed.

(** A chunk size of 0 never advances: the loop uses up any fuel. *)
Example add_chunk_size_zero :
  fst (fst (add (list Z) unit sampleService 50
              (mkStore false "llama" "" (Some 0%Z) "text") sampleNodes))
  = None.
Proof. reflexivity. Qed.

(** ** What [add] sends to the service *)

Section CallFacts.
Variables Vector Metadata : Type.
Variable service : Service Vector Metadata.

Lemma upsertedChunks_app (a b : list (Call Vector Metadata)) :
  upsertedChunks _ _ (a ++ b) = (upsertedChunks _ _ a ++ upsertedChunks _ _ b)%list.
Proof. apply flat_map_app. Qed.


Lemma index_cases (store st : PineconeVectorStore) cs :
  index Vector Metadata service store = Some (st, cs) ->
  chunkSize st = chunkSize store
  /\ upsertedChunks _ _ cs = [] /\ logged _ _ cs = 0%nat.
Proof.
  unfold index. destruct (db store); [|destruct (newPinecone _ _ service)];
    intros H; inversion H; repeat split; reflexivity.
Qed.



Lemma mapNodeToRecord_none (l : list (BaseNode Vector Metadata)) :
  Exists (fun node => getEmbedding _ _ node = None) l ->
  mapNodeToRecord _ _ l = None.
Proof.
  induction 1 as [a l H|a l H IH]; simpl; unfold nodeToRecord.
  - rewrite H. reflexivity.
  - destruct (getEmbedding _ _ a); [|reflexivity]. rewrite IH. reflexivity.
Qed.

Lemma saveChunks_fails (fuel : nat) (size : Num)
  (nodes : list (PineconeRecord Vector Metadata)) (i : Num) (n : nat)
  (calls : list (Call Vector Metadata)) :
  saveChunks Vector Metadata service fuel size nodes i n = (Some false, calls) ->
  exists pre chunk,
    calls = (pre ++ [Upsert _ _ chunk; ConsoleLog _ _])%list
    /\ logged _ _ pre = 0%nat
    /\ length (upsertedChunks _ _ pre) = length pre
    /\ upsert _ _ service (n + length pre) chunk = false
    /\ (forall k done, nth_error (upsertedChunks _ _ pre) k = Some done ->
        upsert _ _ service (n + k) done = true).
Proof.
  revert i n calls.
  induction fuel as [|fuel IH]; intros i n calls H; [discriminate|].
  simpl in H. destruct (num_lt i (length nodes)); [|discriminate].
  unfold saveChunk in H.
  destruct (upsert _ _ service n _) eqn:Hu.
  - destruct (saveChunks Vector Metadata service fuel size nodes
                (num_add i size) (S n)) as [r calls'] eqn:Hrec.
    inversion H; subst r calls. clear H.
    destruct (IH _ _ _ Hrec) as [pre [chunk [E [Hl [Hlen [Hf Hok]]]]]].
    exists (Upsert _ _ (slice i (num_add i size) nodes) :: pre), chunk.
    subst calls'. simpl. rewrite Hlen.
    split; [reflexivity|]. split; [exact Hl|]. split; [reflexivity|].
    split; [rewrite <- Hf; f_equal; lia|].
    intros [|k] done Hk; simpl in Hk.
    + inversion Hk; subst. rewrite Nat.add_0_r. exact Hu.
    + replace (n + S k)%nat with (S n + k)%nat by lia. apply Hok, Hk.
  - inversion H; subst. exists [], (slice i (num_add i size) nodes).
    simpl. rewrite Nat.add_0_r. repeat split; auto.
    intros [|k] done Hk; discriminate.
Qed.


(** X2: [add] rejects for one of three reasons only: the client could not
    be created (and nothing else was tried); a node has no embedding (and
    nothing was upserted or logged); or an upsert failed, in which case it
    is the last call but the log line, it is the first upsert to fail, and
    no later chunk was sent. *)
Theorem add_rejects_at_first_failure (fuel : nat) (store store' : PineconeVectorStore)
  (nodes : list (BaseNode Vector Metadata)) calls :
  add Vector Metadata service fuel store nodes = (Some Rejected, store', calls) ->
  (db store = false /\ newPinecone _ _ service = false
   /\ store' = store /\ calls = [NewPinecone _ _])
  \/ (mapNodeToRecord _ _ nodes = None /\ upsertedChunks _ _ calls = []
      /\ logged _ _ calls = 0%nat)
  \/ (exists pre chunk,
        calls = (pre ++ [Upsert _ _ chunk; ConsoleLog _ _])%list
        /\ logged _ _ pre = 0%nat
        /\ upsert _ _ service (length (upsertedChunks _ _ pre)) chunk = false
        /\ (forall k done, nth_error (upsertedChunks _ _ pre) k = Some done ->
            upsert _ _ service k done = true)).
Proof.
  unfold add. destruct (length nodes =? 0)%nat; [discriminate|].
  destruct (index _ _ service store) as [[st cs]|] eqn:Hi.
  - destruct (index_cases _ _ _ Hi) as [Hcs [Hnone Hnolog]].
    destruct (mapNodeToRecord _ _ nodes) as [rs|] eqn:Hm.
    + destruct (saveChunks Vector Metadata service fuel (chunkSize st) rs (Some 0%Z) 0)
        as [[[|]|] cs'] eqn:Hs; intros H; inversion H; subst.
      destruct (saveChunks_fails _ _ _ _ _ _ Hs)
        as [pre [chunk [E [Hl [Hlen [Hf Hok]]]]]].
      right; right. exists (cs ++ pre)%list, chunk. subst cs'.
      rewrite upsertedChunks_app, Hnone. simpl.
      split; [rewrite app_assoc; reflexivity|].
      split; [unfold logged in *; rewrite filter_app, length_app; lia|].
      split; [rewrite Hlen; exact Hf|]. exact Hok.
    + intros H; inversion H; subst. right; left. auto.
  - unfold index in Hi. destruct (db store) eqn:D; [discriminate|].
    destruct (newPinecone _ _ service) eqn:N; [discriminate|].
    intros H; inversion H. left. auto.
Qed.

(** X3: a single node without an embedding makes [add] reject before
    anything is upserted, wherever the node stands in the list. *)
Theorem add_missing_embedding_upserts_nothing (fuel : nat)
  (store : PineconeVectorStore) (nodes : list (BaseNode Vector Metadata)) :
  Exists (fun node => getEmbedding _ _ node = None) nodes ->
  fst (fst (add Vector Metadata service fuel store nodes)) = Some Rejected
  /\ upsertedChunks _ _ (snd (add Vector Metadata service fuel store nodes)) = [].
Proof.
  intros H. unfold add.
  destruct (length nodes =? 0)%nat eqn:Hn.
  - apply Nat.eqb_eq in Hn. destruct nodes; [inversion H | discriminate].
  - destruct (index _ _ service store) as [[st cs]|] eqn:Hi.
    + rewrite (mapNodeToRecord_none _ H). simpl.
      split; [reflexivity|]. apply (index_cases _ _ _ Hi).
    + split; reflexivity.
Qed.

(** X4: with a chunk size of [NaN], [add] on a non-empty list sends one
    upsert with an empty chunk and none of the records, and then resolves
    (or rejects, when that upsert fails). *)
Theorem add_nan_chunk_size_upserts_one_empty_chunk (fuel : nat)
  (store : PineconeVectorStore) (nodes : list (BaseNode Vector Metadata)) :
  chunkSize store = None ->
  nodes <> [] ->
  Forall (fun node => getEmbedding _ _ node <> None) nodes ->
  db store = true \/ newPinecone _ _ service = true ->
  fst (fst (add Vector Metadata service (S (S fuel)) store nodes))
  = Some (if upsert _ _ service 0 [] then Resolved [] else Rejected)
  /\ upsertedChunks _ _ (snd (add Vector Metadata service (S (S fuel)) store nodes))
     = [[]].
Proof.
  intros Hsz Hne Hemb Hdb. unfold add.
  destruct (length nodes =? 0)%nat eqn:Hn.
  - apply Nat.eqb_eq in Hn. destruct nodes; [contradiction | discriminate].
  - destruct (index _ _ service store) as [[st cs]|] eqn:Hi.
    + destruct (index_cases _ _ _ Hi) as [Hcs [Hnone Hnolog]].
      destruct (mapNodeToRecord_defined _ _ nodes Hemb) as [rs [Hm Hlen]].
      rewrite Hm, Hcs, Hsz.
      assert (Hpos : (0 <? Z.of_nat (length rs))%Z = true).
      { apply Z.ltb_lt. apply Nat.eqb_neq in Hn. lia. }
      cbn [saveChunks num_lt num_add]. rewrite Hpos.
      unfold slice, relativeIndex, saveChunk. simpl.
      destruct (upsert _ _ service 0 []); simpl;
        rewrite upsertedChunks_app, Hnone; split; reflexivity.
    + unfold index in Hi. destruct (db store); [discriminate|].
      destruct Hdb as [Hdb|Hdb]; [discriminate|]. rewrite Hdb in Hi.
      discriminate.
Qed.

Lemma saveChunks_never_ends (fuel : nat) (c : Z)
  (nodes : list (PineconeRecord Vector Metadata)) (i : Z) (n : nat) :
  (forall k chunk, upsert _ _ service k chunk = true) ->
  (c <= 0)%Z -> (i < Z.of_nat (length nodes))%Z ->
  fst (saveChunks Vector Metadata service fuel (Some c) nodes (Some i) n) = None
  /\ length (upsertedChunks _ _
       (snd (saveChunks Vector Metadata service fuel (Some c) nodes (Some i) n)))
     = fuel.
Proof.
  intros Hup Hc. revert i n.
  induction fuel as [|fuel IH]; intros i n Hi; [split; reflexivity|].
  cbn [saveChunks num_lt num_add].
  destruct (i <? Z.of_nat (length nodes))%Z eqn:Hlt;
    [|apply Z.ltb_ge in Hlt; lia].
  unfold saveChunk. rewrite Hup.
  destruct (IH (i + c)%Z (S n) ltac:(lia)) as [H1 H2].
  destruct (saveChunks Vector Metadata service fuel (Some c) nodes
              (Some (i + c)%Z) (S n)) as [r calls'].
  simpl in *. split; [exact H1 | rewrite H2; reflexivity].
Qed.

(** X5: with a chunk size of zero or less and a service that accepts
    every upsert, [add] on a non-empty list never settles: whatever the
    fuel, it is used up, one upsert per unit. *)
Theorem add_nonpositive_chunk_size_never_settles (fuel : nat)
  (store : PineconeVectorStore) (nodes : list (BaseNode Vector Metadata))
  (c : Z) :
  chunkSize store = Some c -> (c <= 0)%Z ->
  nodes <> [] ->
  Forall (fun node => getEmbedding _ _ node <> None) nodes ->
  db store = true \/ newPinecone _ _ service = true ->
  (forall k chunk, upsert _ _ service k chunk = true) ->
  fst (fst (add Vector Metadata service fuel store nodes)) = None
  /\ length (upsertedChunks _ _
       (snd (add Vector Metadata service fuel store nodes))) = fuel.
Proof.
  intros Hsz Hc Hne Hemb Hdb Hup. unfold add.
  destruct (length nodes =? 0)%nat eqn:Hn.
  - apply Nat.eqb_eq in Hn. destruct nodes; [contradiction | discriminate].
  - destruct (index _ _ service store) as [[st cs]|] eqn:Hi.
    + destruct (index_cases _ _ _ Hi) as [Hcs [Hnone Hnolog]].
      destruct (mapNodeToRecord_defined _ _ nodes Hemb) as [rs [Hm Hlen]].
      rewrite Hm, Hcs, Hsz.
      assert (Hpos : (0 < Z.of_nat (length rs))%Z).
      { apply Nat.eqb_neq in Hn. lia. }
      destruct (saveChunks_never_ends fuel c rs 0 0 Hup Hc Hpos) as [H1 H2].
      destruct (saveChunks Vector Metadata service fuel (Some c) rs (Some 0%Z) 0)
        as [r cs']. simpl in H1, H2. subst r. simpl.
      rewrite upsertedChunks_app, Hnone. split; [reflexivity | exact H2].
    + unfold index in Hi. destruct (db store); [discriminate|].
      destruct Hdb as [Hdb|Hdb]; [discriminate|]. rewrite Hdb in Hi.
      discriminate.
Qed.

Lemma saveChunks_creates_no_client (fuel : nat) (size : Num)
  (rs : list (PineconeRecord Vector Metadata)) (i : Num) (n : nat) :
  clientsCreated _ _
    (snd (saveChunks Vector Metadata service fuel size rs i n)) = 0%nat.
Proof.
  revert i n. induction fuel as [|fuel IH]; intros; [reflexivity|].
  simpl. destruct (num_lt i (length rs)); [|reflexivity].
  unfold saveChunk. destruct (upsert _ _ service n _); [|reflexivity].
  specialize (IH (num_add i size) (S n)).
  destruct (saveChunks Vector Metadata service fuel size rs (num_add i size) (S n)).
  simpl in *. exact IH.
Qed.

Lemma clientsCreated_app (a b : list (Call Vector Metadata)) :
  clientsCreated _ _ (a ++ b) = (clientsCreated _ _ a + clientsCreated _ _ b)%nat.
Proof. unfold clientsCreated. rewrite filter_app, length_app. reflexivity. Qed.

Lemma index_client (store st : PineconeVectorStore) cs :
  index Vector Metadata service store = Some (st, cs) ->
  db st = true
  /\ (db store = true -> clientsCreated _ _ cs = 0%nat /\ st = store)
  /\ (db store = false ->
      clientsCreated _ _ cs = 1%nat /\ newPinecone _ _ service = true)
  /\ indexName st = indexName store
  /\ namespace st = namespace store
  /\ chunkSize st = chunkSize store
  /\ textKey st = textKey store.
Proof.
  unfold index. destruct store as [d iname ns cs0 tk]. simpl.
  destruct d; [|destruct (newPinecone _ _ service)];
    intros H; inversion H; simpl; repeat split; auto; intros; discriminate.
Qed.

(** X6: [add] creates the client at most once, and never when the store
    already has one; the store changes in [db] alone; and a store left
    without a client is unchanged and has upserted nothing. *)
Theorem add_creates_client_at_most_once (fuel : nat)
  (store : PineconeVectorStore) (nodes : list (BaseNode Vector Metadata)) :
  let store' := snd (fst (add Vector Metadata service fuel store nodes)) in
  let calls := snd (add Vector Metadata service fuel store nodes) in
  (clientsCreated _ _ calls <= 1)%nat
  /\ (db store = true -> clientsCreated _ _ calls = 0%nat /\ store' = store)
  /\ (db store = false -> db store' = true ->
      clientsCreated _ _ calls = 1%nat /\ newPinecone _ _ service = true)
  /\ (db store' = false -> store' = store /\ upsertedChunks _ _ calls = [])
  /\ indexName store' = indexName store
  /\ namespace store' = namespace store
  /\ chunkSize store' = chunkSize store
  /\ textKey store' = textKey store.
Proof.
  cbv zeta. unfold add. destruct (length nodes =? 0)%nat.
  { simpl. repeat split; auto; intros; congruence. }
  destruct (index _ _ service store) as [[st cs]|] eqn:Hi.
  - destruct (index_client _ _ _ Hi) as [Hdb [Hold [Hnew [Hin [Hns [Hcs Htk]]]]]].
    assert (Hle : (clientsCreated _ _ cs <= 1)%nat).
    { destruct (db store); [destruct Hold | destruct Hnew]; auto; lia. }
    assert (Hgoal : forall cs' (r : option (Promise (list string))),
      clientsCreated _ _ cs' = 0%nat ->
      (clientsCreated _ _ (snd (r, st, (cs ++ cs')%list)) <= 1)%nat
      /\ (db store = true ->
          clientsCreated _ _ (snd (r, st, (cs ++ cs')%list)) = 0%nat
          /\ snd (fst (r, st, (cs ++ cs')%list)) = store)
      /\ (db store = false -> db (snd (fst (r, st, (cs ++ cs')%list))) = true ->
          clientsCreated _ _ (snd (r, st, (cs ++ cs')%list)) = 1%nat
          /\ newPinecone _ _ service = true)
      /\ (db (snd (fst (r, st, (cs ++ cs')%list))) = false ->
          snd (fst (r, st, (cs ++ cs')%list)) = store
          /\ upsertedChunks _ _ (snd (r, st, (cs ++ cs')%list)) = [])
      /\ indexName (snd (fst (r, st, (cs ++ cs')%list))) = indexName store
      /\ namespace (snd (fst (r, st, (cs ++ cs')%list))) = namespace store
      /\ chunkSize (snd (fst (r, st, (cs ++ cs')%list))) = chunkSize store
      /\ textKey (snd (fst (r, st, (cs ++ cs')%list))) = textKey store).
    { intros cs' r Hz. cbn [fst snd]. rewrite clientsCreated_app, Hz, Nat.add_0_r.
      split; [exact Hle|]. split; [exact Hold|].
      split; [intros Hf _; apply Hnew, Hf|].
      split; [intros Hf; congruence|]. auto. }
    destruct (mapNodeToRecord _ _ nodes) as [rs|].
    + pose proof (saveChunks_creates_no_client fuel (chunkSize st) rs (Some 0%Z) 0%nat) as Hs.
      destruct (saveChunks Vector Metadata service fuel (chunkSize st) rs (Some 0%Z) 0)
        as [[[|]|] cs']; apply Hgoal; exact Hs.
    + rewrite <- (app_nil_r cs). apply Hgoal. reflexivity.
  - unfold index in Hi. destruct (db store) eqn:D; [discriminate|].
    destruct (newPinecone _ _ service) eqn:N; [discriminate|].
    unfold clientsCreated. cbn. repeat split; intros; try congruence; auto.
Qed.
End CallFacts.


Lemma add_rejects_at_first_failure_witness :
  (db sampleStore = false /\ newPinecone _ _ flakyService = false
   /\ snd (fst (add (list Z) unit flakyService 4 sampleStore sampleNodes))
      = sampleStore
   /\ snd (add (list Z) unit flakyService 4 sampleStore sampleNodes)
      = [NewPinecone _ _])
  \/ (mapNodeToRecord _ _ sampleNodes = None
      /\ upsertedChunks _ _
           (snd (add (list Z) unit flakyService 4 sampleStore sampleNodes)) = []
      /\ logged _ _
           (snd (add (list Z) unit flakyService 4 sampleStore sampleNodes))
         = 0%nat)
  \/ (exists pre chunk,
        snd (add (list Z) unit flakyService 4 sampleStore sampleNodes)
        = (pre ++ [Upsert _ _ chunk; ConsoleLog _ _])%list
        /\ logged _ _ pre = 0%nat
        /\ upsert _ _ flakyService (length (upsertedChunks _ _ pre)) chunk
           = false
        /\ (forall k done, nth_error (upsertedChunks _ _ pre) k = Some done ->
            upsert _ _ flakyService k done = true)).
Proof.
  apply (add_rejects_at_first_failure (list Z) unit flakyService 4 sampleStore
           (snd (fst (add (list Z) unit flakyService 4 sampleStore sampleNodes)))
           sampleNodes
           (snd (add (list Z) unit flakyService 4 sampleStore sampleNodes))).
  reflexivity.
Defined.

(** On that run the first chunk went through and the second was refused:
    one record is stored, two are not, and the promise only says
    "rejected". *)
Example add_flaky_sample :
  add (list Z) unit flakyService 4 sampleStore sampleNodes
  = (Some Rejected,
     mkStore true "llama" "" (Some 2%Z) "text",
     [NewPinecone (list Z) unit; OpenIndex (list Z) unit "llama";
      Upsert (list Z) unit
        [mkRecord (list Z) unit (Some "a") [1; 2]%Z tt;
         mkRecord (list Z) unit (Some "b") [3; 4]%Z tt];
      Upsert (list Z) unit [mkRecord (list Z) unit None [5; 6]%Z tt];
      ConsoleLog (list Z) unit]).
Proof. reflexivity. Qed.

Lemma add_missing_embedding_upserts_nothing_witness :
  fst (fst (add (list Z) unit sampleService 4 sampleStore bareNodes))
  = Some Rejected
  /\ upsertedChunks _ _
       (snd (add (list Z) unit sampleService 4 sampleStore bareNodes)) = [].
Proof.
  apply (add_missing_embedding_upserts_nothing (list Z) unit sampleService 4
           sampleStore bareNodes).
  apply Exists_cons_tl, Exists_cons_hd. reflexivity.
Defined.

Lemma add_nan_chunk_size_upserts_one_empty_chunk_witness :
  fst (fst (add (list Z) unit sampleService 2 nanStore sampleNodes))
  = Some (if upsert _ _ sampleService 0 [] then Resolved [] else Rejected)
  /\ upsertedChunks _ _
       (snd (add (list Z) unit sampleService 2 nanStore sampleNodes)) = [[]].
Proof.
  apply (add_nan_chunk_size_upserts_one_empty_chunk (list Z) unit
           sampleService 0 nanStore sampleNodes);
    [ reflexivity
    | discriminate
    | repeat constructor; discriminate
    | right; reflexivity ].
Defined.

Lemma add_nonpositive_chunk_size_never_settles_witness :
  fst (fst (add (list Z) unit sampleService 50 zeroStore sampleNodes)) = None
  /\ length (upsertedChunks _ _
       (snd (add (list Z) unit sampleService 50 zeroStore sampleNodes)))
     = 50%nat.
Proof.
  apply (add_nonpositive_chunk_size_never_settles (list Z) unit sampleService
           50 zeroStore sampleNodes 0);
    [ reflexivity
    | lia
    | discriminate
    | repeat constructor; discriminate
    | right; reflexivity
    | intros; reflexivity ].
Defined.


(** ** Filters and metadata *)
Lemma getOwn_assign (o : Object) (k k' : string) (v : Value) :
  getOwn (assign o k v) k' = if k =? k' then Some v else getOwn o k'.
Proof.
  induction o as [|[k0 x] o IH]; simpl.
  - reflexivity.
  - destruct (k0 =? k) eqn:E0; simpl.
    + apply String.eqb_eq in E0. subst k0.
      destruct (k =? k'); reflexivity.
    + destruct (k0 =? k') eqn:E1.
      * apply String.eqb_eq in E1. subst k0.
        rewrite String.eqb_sym, E0. reflexivity.
      * exact IH.
Qed.

Lemma getOwn_setProperty (o : Object) (k k' : string) (v : Value) :
  getOwn (setProperty o k v) k'
  = if (k =? k') && negb (k =? "__proto__") then Some v else getOwn o k'.
Proof.
  unfold setProperty. destruct (k =? "__proto__") eqn:E.
  - rewrite andb_false_r. reflexivity.
  - rewrite getOwn_assign, andb_true_r. reflexivity.
Qed.

Lemma find_app {A : Type} (p : A -> bool) (l1 l2 : list A) :
  find p (l1 ++ l2)
  = match find p l1 with Some x => Some x | None => find p l2 end.
Proof.
  induction l1 as [|a l1 IH]; simpl; [reflexivity|].
  destruct (p a); [reflexivity | exact IH].
Qed.

Lemma getOwn_fold {A : Type} (kf : A -> string) (vf : A -> Value)
  (l : list A) (acc : Object) (k : string) :
  getOwn (fold_left (fun acc x => setProperty acc (kf x) (vf x)) l acc) k
  = match find (fun x => kf x =? k) (rev l) with
    | Some x => if k =? "__proto__" then getOwn acc k else Some (vf x)
    | None => getOwn acc k
    end.
Proof.
  revert acc. induction l as [|a l IH]; intros acc; simpl; [reflexivity|].
  rewrite IH, find_app.
  destruct (find (fun x => kf x =? k) (rev l)) as [x|].
  - rewrite getOwn_setProperty.
    destruct (k =? "__proto__") eqn:Ek; [|reflexivity].
    apply String.eqb_eq in Ek. subst k.
    destruct (kf a =? "__proto__"); reflexivity.
  - simpl. rewrite getOwn_setProperty.
    destruct (kf a =? k) eqn:E; simpl; [|reflexivity].
    apply String.eqb_eq in E. subst k.
    destruct (kf a =? "__proto__"); reflexivity.
Qed.


Lemma find_keys (m : Object) (k : string) (p : string -> bool) :
  p k = true ->
  find (fun x => x =? k) (rev (filter p (keys m)))
  = match getOwn m k with Some _ => Some k | None => None end.
Proof.
  intros Hp. induction m as [|[k0 v] m IH]; simpl; [reflexivity|].
  destruct (k0 =? k) eqn:E.
  - apply String.eqb_eq in E. subst k0. rewrite Hp. simpl.
    rewrite find_app. simpl. rewrite String.eqb_refl.
    destruct (find (fun x => x =? k) (rev (filter p (keys m)))) as [x|] eqn:F;
      [|reflexivity].
    apply find_some in F. destruct F as [_ F]. apply String.eqb_eq in F.
    subst. reflexivity.
  - destruct (p k0); simpl; [|exact IH].
    rewrite find_app, IH. destruct (getOwn m k); [reflexivity|].
    simpl. rewrite E. reflexivity.
Qed.

Lemma find_keys_none (m : Object) (k : string) (p : string -> bool) :
  p k = false ->
  find (fun x => x =? k) (rev (filter p (keys m))) = None.
Proof.
  intros Hp. destruct (find _ _) as [x|] eqn:F; [|reflexivity].
  apply find_some in F. destruct F as [Hin F]. apply String.eqb_eq in F.
  subst x. apply In_rev in Hin. apply filter_In in Hin.
  destruct Hin as [_ Hin]. congruence.
Qed.

(** X8: [metaWithoutText] drops the text key and keeps every other
    property with its value (["__proto__"] apart, which is never
    copied). *)
Theorem metaWithoutText_drops_text_only (store : PineconeVectorStore)
  (meta : Object) (k : string) :
  getOwn (metaWithoutText store meta) k
  = if (k =? textKey store) || (k =? "__proto__") then None
    else getOwn meta k.
Proof.
  unfold metaWithoutText.
  rewrite (getOwn_fold (fun key => key) (fun key => read meta key)).
  destruct (k =? textKey store) eqn:E; simpl.
  - rewrite find_keys_none; [reflexivity|]. rewrite E. reflexivity.
  - rewrite find_keys by (rewrite E; reflexivity).
    unfold read. destruct (getOwn meta k) eqn:G; [rewrite G|];
      destruct (k =? "__proto__"); reflexivity.
Qed.

End PineconeFacts.

(** * Properties of [createApp] *)

Module CreateAppFacts.
Import CreateLlama CreateLlamaFacts CreateApp.

Ltac app_cases :=
  unfold createApp, CreateApp.bind, say, perform, CreateApp.ret,
    CreateApp.process_exit;
  repeat (simpl;
          match goal with
          | |- context [if ?b then _ else _] => destruct b eqn:?
          end);
  simpl.

Section AppFacts.
Variable host : Host.
Variables appPath pm : string.
Variable a : QuestionArgs.

(** X22: [createApp] ends the process only with status 1, only because the
    parent folder is not writable (two error lines, nothing touched) or the
    project folder is not empty (the folder made, nothing else), and in
    either case before anything is installed. *)
Theorem createApp_exit_installs_nothing (c : Z) (t : list Action) :
  createApp host appPath pm a [] = (Exit c, t) ->
  c = 1%Z /\ installs t = []
  /\ ((isWriteable host (path_dirname host (path_resolve host appPath)) = false
       /\ t = [ConsoleError notWritable1; ConsoleError notWritable2])
      \/ (isFolderEmpty host (path_resolve host appPath)
            (path_basename host (path_resolve host appPath)) = false
          /\ t = [MakeDir (path_resolve host appPath)])).
Proof.
  app_cases; intros H; inversion H; subst; clear H;
    repeat match goal with
           | E : negb _ = true |- _ => apply negb_true_iff in E
           | E : negb _ = false |- _ => apply negb_false_iff in E
           end;
    auto.
Qed.

(** X23: when [createApp] resolves, it has installed the template once
    into the project folder as a backend, or, with [frontend], twice: a
    backend under [backend/] as configured and a frontend under
    [frontend/] with the framework forced to "nextjs" and the API path
    [http://localhost:<port>/api/chat], the port defaulting to 8000, after
    which the full-stack README is copied; no install is told of
    [frontend], [files] or [llamaParse]. *)
Theorem createApp_done_installs (t : list Action) :
  createApp host appPath pm a [] = (Done tt, t) ->
  let dir := path_resolve host appPath in
  (if truthyB (frontend a)
   then exists b f,
          installs t = [b; f]
          /\ root b = path_join host dir "backend" /\ backend b = true
          /\ customApiPath b = None
          /\ answers b = passedOn a
          /\ root f = path_join host dir "frontend" /\ backend f = false
          /\ customApiPath f = Some (apiPath host (externalPort a))
          /\ answers f = set_framework (Some "nextjs") (passedOn a)
          /\ madeDirs t = [dir; root b; root f]
          /\ In (CopyFile
                   (path_join host (templatesDir host) "README-fullstack.md")
                   (path_join host dir "README.md")) t
   else exists x,
          installs t = [x]
          /\ root x = dir /\ backend x = true /\ customApiPath x = None
          /\ answers x = passedOn a
          /\ madeDirs t = [dir])
  /\ Forall (fun x => appName x = path_basename host dir
                      /\ packageManager x = pm
                      /\ frontend (answers x) = None
                      /\ files (answers x) = None
                      /\ llamaParse (answers x) = None)
            (installs t).
Proof.
  app_cases; intros H; inversion H; subst; clear H; simpl;
    (split; [| repeat constructor ]);
    repeat eexists; simpl; auto 20.
Qed.

(** X24: the connectivity check is made only for yarn, and every install
    is told it is online unless yarn is used and the check says
    otherwise. *)
Theorem createApp_online_check :
  (In GetOnline (snd (createApp host appPath pm a [])) -> pm = "yarn")
  /\ Forall (fun x => isOnline x = negb (pm =? "yarn") || getOnline host)
            (installs (snd (createApp host appPath pm a []))).
Proof.
  app_cases;
    repeat match goal with
           | E : (pm =? "yarn") = true |- _ => apply String.eqb_eq in E
           | E : negb _ = true |- _ => apply negb_true_iff in E
           | E : negb _ = false |- _ => apply negb_false_iff in E
           end;
    (split; [ intros Hin; simpl in Hin; intuition discriminate
            | repeat constructor; simpl;
              repeat match goal with
                     | E : (pm =? "yarn") = _ |- _ => rewrite E
                     end; reflexivity ]).
Qed.

(** X25: however a run ends, each install goes to a folder that the run
    has made before. *)
Theorem createApp_installs_into_made_dirs :
  prepared [] (snd (createApp host appPath pm a [])).
Proof. app_cases; auto 10. Qed.
Lemma createApp_done_count (t : list Action) :
  createApp host appPath pm a [] = (Done tt, t) ->
  length (installs t) = if truthyB (frontend a) then 2%nat else 1%nat.
Proof.
  app_cases; intros H; inversion H; subst; clear H; reflexivity.
Qed.
End AppFacts.

(** X26: after [askQuestions] has returned from the standard flow,
    [createApp] on its result installs once, or twice; and twice only for
    a streaming template with Express or FastAPI. *)
Theorem askQuestions_then_createApp (env : Env) (host : Host)
  (p prefs : QuestionArgs) (st : State) (appPath pm : string)
  (t : list Action) :
  askQuestions env p prefs = Returned tt st ->
  isS (template (program st)) "community" = false ->
  isS (template (program st)) "llamapack" = false ->
  createApp host appPath pm (program st) [] = (Done tt, t) ->
  length (installs t) = 1%nat
  \/ (length (installs t) = 2%nat
      /\ template (program st) = Some "streaming"
      /\ (framework (program st) = Some "express"
          \/ framework (program st) = Some "fastapi")).
Proof.
  intros Hrun Hc Hl Happ.
  rewrite (createApp_done_count host appPath pm (program st) t Happ).
  destruct (truthyB (frontend (program st))) eqn:Hf; [right | left; reflexivity].
  split; [reflexivity|].
  pose proof (gate_run env p prefs) as H. rewrite Hrun in H.
  destruct H as [_ H]. specialize (H Hc Hl Hf).
  unfold backendOnly in H. apply andb_prop in H. destruct H as [H1 H2].
  apply isS_true in H1. apply orb_prop in H2. rewrite !isS_true in H2. auto.
Qed.

Lemma createApp_exit_installs_nothing_witness :
  1%Z = 1%Z
  /\ installs (snd (createApp (sampleHost false true) "my-app" "npm"
                      fullstackArgs [])) = []
  /\ ((isWriteable (sampleHost false true)
         (path_dirname (sampleHost false true)
            (path_resolve (sampleHost false true) "my-app")) = false
       /\ snd (createApp (sampleHost false true) "my-app" "npm"
                 fullstackArgs [])
          = [ConsoleError notWritable1; ConsoleError notWritable2])
      \/ (isFolderEmpty (sampleHost false true)
            (path_resolve (sampleHost false true) "my-app")
            (path_basename (sampleHost false true)
               (path_resolve (sampleHost false true) "my-app")) = false
          /\ snd (createApp (sampleHost false true) "my-app" "npm"
                    fullstackArgs [])
             = [MakeDir (path_resolve (sampleHost false true) "my-app")])).
Proof.
  apply (createApp_exit_installs_nothing (sampleHost false true) "my-app"
           "npm" fullstackArgs 1
           (snd (createApp (sampleHost false true) "my-app" "npm"
                   fullstackArgs []))).
  vm_compute; reflexivity.
Defined.

Lemma createApp_done_installs_witness :
  (exists b f,
     installs (snd (createApp (sampleHost true true) "my-app" "npm"
                      fullstackArgs [])) = [b; f]
     /\ root b = "/home/user/my-app/backend" /\ backend b = true
     /\ customApiPath b = None
     /\ answers b = passedOn fullstackArgs
     /\ root f = "/home/user/my-app/frontend" /\ backend f = false
     /\ customApiPath f = Some "http://localhost:8000/api/chat"
     /\ answers f = set_framework (Some "nextjs") (passedOn fullstackArgs)
     /\ madeDirs (snd (createApp (sampleHost true true) "my-app" "npm"
                         fullstackArgs []))
        = ["/home/user/my-app"; root b; root f]
     /\ In (CopyFile "/opt/create-llama/templates/README-fullstack.md"
                     "/home/user/my-app/README.md")
           (snd (createApp (sampleHost true true) "my-app" "npm"
                   fullstackArgs [])))
  /\ Forall (fun x => appName x = "my-app"
                      /\ packageManager x = "npm"
                      /\ frontend (answers x) = None
                      /\ files (answers x) = None
                      /\ llamaParse (answers x) = None)
            (installs (snd (createApp (sampleHost true true) "my-app" "npm"
                              fullstackArgs []))).
Proof.
  apply (createApp_done_installs (sampleHost true true) "my-app" "npm"
           fullstackArgs
           (snd (createApp (sampleHost true true) "my-app" "npm"
                   fullstackArgs []))).
  vm_compute; reflexivity.
Defined.

Lemma askQuestions_then_createApp_witness :
  length (installs (snd (createApp (sampleHost true true) "my-app" "npm"
            (program (final (askQuestions interactiveEnv fastapiContextArgs
                               noArgs))) []))) = 1%nat
  \/ (length (installs (snd (createApp (sampleHost true true) "my-app" "npm"
                (program (final (askQuestions interactiveEnv
                                   fastapiContextArgs noArgs))) []))) = 2%nat
      /\ template (program (final (askQuestions interactiveEnv
                                     fastapiContextArgs noArgs)))
         = Some "streaming"
      /\ (framework (program (final (askQuestions interactiveEnv
                                       fastapiContextArgs noArgs)))
          = Some "express"
          \/ framework (program (final (askQuestions interactiveEnv
                                          fastapiContextArgs noArgs)))
             = Some "fastapi")).
Proof.
  apply (askQuestions_then_createApp interactiveEnv (sampleHost true true)
           fastapiContextArgs noArgs
           (final (askQuestions interactiveEnv fastapiContextArgs noArgs))
           "my-app" "npm"
           (snd (createApp (sampleHost true true) "my-app" "npm"
                   (program (final (askQuestions interactiveEnv
                                      fastapiContextArgs noArgs))) [])));
    vm_compute; reflexivity.
Defined.

End CreateAppFacts.
